(** * ChatBETO listener: the signature-verified webhook ingestion pipeline

    A shallow embedding of the webhook receiver of the repository:
    - [src/middleware/auth.js]      ([validateWebhookSignature]),
    - [src/utils/validation.js]     (the Joi schemas and [validateWebhookPayload]),
    - [src/services/database.js]    ([DatabaseService], the upsert statements),
    - [src/controllers/webhook.js]  ([WebhookController], the event router),
    - [src/services/logger.js]      ([logWebhook], which the router calls first),
    - [src/routes/webhook.js]       (the route table),
    - [src/services/chatbeto-database.js] ([ChatBETODatabaseService.insertMessage]).

    Conventions of the embedding.
    - A JavaScript string is a Rocq [string]; each character is one code unit
      below 256 (header values reach Node decoded as latin1).
    - A JavaScript number that the pipeline handles is an integer ([Z]): epoch
      seconds and milliseconds. Fractional numbers are outside the embedding,
      and so is text that spells a number with a fraction or an exponent.
      An integer is printed and parsed digit by digit, which is what
      JavaScript does within [Number.MAX_SAFE_INTEGER]; a statement that
      depends on the printed text of a number assumes [safe_numbers].
    - The clock ([Date.now()]) is an explicit argument, in milliseconds, and
      so is the shared secret ([config.security.webhookSecret]).
    - A handler is a function from the store to an outcome and a store; an
      exception is the [Throw] outcome.  The driver is assumed reachable:
      connectivity failures of the pool are not part of the embedding.
    - What the pipeline relies on from Node and from its packages is written
      out: the HMAC of [crypto], the body parser of [express], the rules of
      [Joi] for the schemas of the source, the binding of parameters and the
      ON DUPLICATE KEY UPDATE of the statements, and the receiver ([this]) of
      a method that the router calls. *)

From Stdlib Require Import ZArith String Ascii List Lia Bool.
From stdpp Require Import gmap strings list.

Import ListNotations.

Local Set Warnings "-register-all".

(** ** SHA-256 and HMAC (Node's [crypto.createHmac('sha256', key)]) *)

Module SHA256.
Local Open Scope Z_scope.

Definition add32 (a b : Z) : Z := (a + b) mod 4294967296.
Definition not32 (x : Z) : Z := Z.lxor x 0xffffffff.
Definition rotr (n x : Z) : Z :=
  Z.lor (Z.shiftr x n) (Z.land (Z.shiftl x (32 - n)) 0xffffffff).

Definition Ch (x y z : Z) : Z := Z.lxor (Z.land x y) (Z.land (not32 x) z).
Definition Maj (x y z : Z) : Z :=
  Z.lxor (Z.lxor (Z.land x y) (Z.land x z)) (Z.land y z).
Definition bigsigma0 (x : Z) : Z := Z.lxor (Z.lxor (rotr 2 x) (rotr 13 x)) (rotr 22 x).
Definition bigsigma1 (x : Z) : Z := Z.lxor (Z.lxor (rotr 6 x) (rotr 11 x)) (rotr 25 x).
Definition smallsigma0 (x : Z) : Z := Z.lxor (Z.lxor (rotr 7 x) (rotr 18 x)) (Z.shiftr x 3).
Definition smallsigma1 (x : Z) : Z := Z.lxor (Z.lxor (rotr 17 x) (rotr 19 x)) (Z.shiftr x 10).

(** The constants are defined as in FIPS 180-4: the first 32 bits of the
    fractional parts of the cube roots (for [K]) and of the square roots (for
    [H0]) of the first primes. *)
Fixpoint primes_from (fuel count : nat) (n : Z) (found : list Z) : list Z :=
  match fuel, count with
  | S f, S c =>
      if forallb (fun q => negb (n mod q =? 0)) found
      then primes_from f c (n + 1) (n :: found)
      else primes_from f count (n + 1) found
  | _, _ => List.rev found
  end.

Definition first_primes (count : nat) : list Z := primes_from 400 count 2 [].

(** The largest [r] below [2 ^ bits] with [r ^ k <= n], bit by bit. *)
Fixpoint root (k n : Z) (bits : nat) (r : Z) : Z :=
  match bits with
  | O => r
  | S b =>
      let candidate := r + 2 ^ Z.of_nat b in
      root k n b (if candidate ^ k <=? n then candidate else r)
  end.

Definition fraction_of_root (k p : Z) : Z :=
  root k (p * 2 ^ (32 * k)) 36 0 mod 4294967296.

Definition K : list Z := List.map (fraction_of_root 3) (first_primes 64).

Definition H0 : list Z := List.map (fraction_of_root 2) (first_primes 8).

(** Big-endian packing of the bytes of a block into 32-bit words. *)
Fixpoint words_of_bytes (bs : list Z) : list Z :=
  match bs with
  | b0 :: b1 :: b2 :: b3 :: rest =>
      (b0 * 16777216 + b1 * 65536 + b2 * 256 + b3) :: words_of_bytes rest
  | _ => []
  end.

Definition bytes_of_word (w : Z) : list Z :=
  [ Z.shiftr w 24 mod 256; Z.shiftr w 16 mod 256; Z.shiftr w 8 mod 256; w mod 256 ].

Definition be64 (n : Z) : list Z :=
  bytes_of_word (Z.shiftr n 32 mod 4294967296) ++ bytes_of_word (n mod 4294967296).

(** Padding: the bit 1, zeros up to 56 modulo 64, the bit length on 8 bytes. *)
Definition pad (msg : list Z) : list Z :=
  let len := Z.of_nat (length msg) in
  let zeros := Z.to_nat ((55 - len) mod 64) in
  msg ++ [128] ++ repeat 0 zeros ++ be64 (8 * len).

(** The schedule is kept as a window of the next sixteen words. *)
Definition next_window (w : list Z) : list Z :=
  let nth i := List.nth i w 0 in
  let nw := add32 (add32 (smallsigma1 (nth 14%nat)) (nth 9%nat))
                  (add32 (smallsigma0 (nth 1%nat)) (nth 0%nat)) in
  List.tl w ++ [nw].

Record regs := Regs { ra : Z; rb : Z; rc : Z; rd : Z; re : Z; rf : Z; rg : Z; rh : Z }.

Definition round (st : regs * list Z) (k : Z) : regs * list Z :=
  let '(r, w) := st in
  let wt := List.nth 0 w 0 in
  let t1 := add32 (add32 (add32 (rh r) (bigsigma1 (re r)))
                         (add32 (Ch (re r) (rf r) (rg r)) k)) wt in
  let t2 := add32 (bigsigma0 (ra r)) (Maj (ra r) (rb r) (rc r)) in
  (Regs (add32 t1 t2) (ra r) (rb r) (rc r) (add32 (rd r) t1) (re r) (rf r) (rg r),
   next_window w).

Definition regs_of_list (h : list Z) : regs :=
  let nth i := List.nth i h 0 in
  Regs (nth 0%nat) (nth 1%nat) (nth 2%nat) (nth 3%nat)
       (nth 4%nat) (nth 5%nat) (nth 6%nat) (nth 7%nat).

Definition list_of_regs (r : regs) : list Z :=
  [ra r; rb r; rc r; rd r; re r; rf r; rg r; rh r].

Definition compress (h : list Z) (block : list Z) : list Z :=
  let '(r, _) := fold_left round K (regs_of_list h, words_of_bytes block) in
  List.map (fun p => add32 (fst p) (snd p)) (List.combine h (list_of_regs r)).

Fixpoint blocks (n : nat) (bs : list Z) : list (list Z) :=
  match n with
  | O => []
  | S n' => List.firstn 64 bs :: blocks n' (List.skipn 64 bs)
  end.

Definition sha256 (msg : list Z) : list Z :=
  let p := pad msg in
  let bl := blocks (Nat.div (length p) 64) p in
  List.concat (List.map bytes_of_word (fold_left compress bl H0)).

(** RFC 2104 with a 64-byte block. *)
Definition hmac_key (key : list Z) : list Z :=
  let k := if (64 <? Z.of_nat (length key)) then sha256 key else key in
  k ++ repeat 0 (64 - length k)%nat.

Definition hmac_sha256 (key msg : list Z) : list Z :=
  let k := hmac_key key in
  let ipad := List.map (fun b => Z.lxor b 0x36) k in
  let opad := List.map (fun b => Z.lxor b 0x5c) k in
  sha256 (opad ++ sha256 (ipad ++ msg)).

End SHA256.

(** ** Strings, bytes and hexadecimal text *)

Definition code (c : ascii) : Z := Z.of_nat (nat_of_ascii c).

(** UTF-8 bytes of a string of code units below 256 ([Buffer.from(s, 'utf8')]). *)
Definition utf8_char (c : ascii) : list Z :=
  let n := code c in
  if (n <? 128)%Z then [n] else [Z.lor 192 (Z.shiftr n 6); Z.lor 128 (Z.land n 63)].

Definition utf8 (s : string) : list Z :=
  List.concat (List.map utf8_char (list_ascii_of_string s)).

Definition hex_digit (n : Z) : ascii :=
  ascii_of_nat (Z.to_nat (if (n <? 10)%Z then 48 + n else 87 + n)%Z).

(** [digest('hex')]: two lowercase digits per byte. *)
Fixpoint hex_of_bytes (bs : list Z) : string :=
  match bs with
  | [] => EmptyString
  | b :: rest => String (hex_digit (b / 16)) (String (hex_digit (b mod 16)) (hex_of_bytes rest))
  end.

Definition hmac_sha256_hex (key msg : string) : string :=
  hex_of_bytes (SHA256.hmac_sha256 (utf8 key) (utf8 msg)).

(** ** JavaScript values and the built-ins the pipeline relies on *)

Local Open Scope string_scope.

(** A double quote, a backslash: the two characters JSON escapes in text. *)
Definition dquote : ascii := "034"%char.
Definition backslash : ascii := "092"%char.
Definition quoted (s : string) : string := String dquote (s +:+ String dquote "").

(** The values of a decoded JSON body, with [undefined] for what is absent.
    An object lists its own properties in enumeration order. *)
Inductive JSValue : Type :=
| JUndefined
| JNull
| JBool (b : bool)
| JNum (n : Z)
| JStr (s : string)
| JArr (items : list JSValue)
| JObj (fields : list (string * JSValue)).

Module JS.

(** ToBoolean: what [!x], [x || y] and [x ? a : b] test. *)
Definition truthy (v : JSValue) : bool :=
  match v with
  | JUndefined | JNull => false
  | JBool b => b
  | JNum n => negb (n =? 0)%Z
  | JStr s => negb (String.eqb s "")
  | JArr _ | JObj _ => true
  end.

(** [a || b] *)
Definition or (a b : JSValue) : JSValue := if truthy a then a else b.

Fixpoint assoc (k : string) (l : list (string * JSValue)) : JSValue :=
  match l with
  | [] => JUndefined
  | (k', v) :: rest => if String.eqb k k' then v else assoc k rest
  end.

(** [o.k]: [None] is the TypeError of reading a property of [undefined] or
    [null]; the keys read by the pipeline are not properties of primitives or
    of arrays, where the read gives [undefined]. *)
Definition get (k : string) (o : JSValue) : option JSValue :=
  match o with
  | JUndefined | JNull => None
  | JObj l => Some (assoc k l)
  | _ => Some JUndefined
  end.

(** [o?.k] *)
Definition get_opt (k : string) (o : JSValue) : JSValue :=
  match get k o with Some v => v | None => JUndefined end.

(** WhiteSpace and LineTerminator code units below 256. *)
Definition is_space (c : ascii) : bool :=
  let n := code c in
  ((9 <=? n) && (n <=? 13) || (n =? 32) || (n =? 160))%Z.

Fixpoint trim_start (s : string) : string :=
  match s with
  | String c rest => if is_space c then trim_start rest else s
  | EmptyString => EmptyString
  end.

Fixpoint trim_end (s : string) : string :=
  match s with
  | String c rest =>
      match trim_end rest with
      | EmptyString => if is_space c then EmptyString else String c EmptyString
      | r => String c r
      end
  | EmptyString => EmptyString
  end.

(** [String.prototype.trim] *)
Definition trim (s : string) : string := trim_end (trim_start s).

Fixpoint strip_prefix (p s : string) : option string :=
  match p, s with
  | EmptyString, _ => Some s
  | String a p', String b s' => if Ascii.eqb a b then strip_prefix p' s' else None
  | String _ _, EmptyString => None
  end.

(** [s.replace(pat, rep)] with a string pattern: the first occurrence only. *)
Fixpoint replace (pat rep s : string) : string :=
  match strip_prefix pat s with
  | Some rest => rep +:+ rest
  | None =>
      match s with
      | String c s' => String c (replace pat rep s')
      | EmptyString => EmptyString
      end
  end.

(** Value of a digit in the given radix. *)
Definition digit_value (radix : Z) (c : ascii) : option Z :=
  let n := code c in
  let d := if ((48 <=? n) && (n <=? 57))%Z then Some (n - 48)%Z
           else if ((97 <=? n) && (n <=? 102))%Z then Some (n - 87)%Z
           else if ((65 <=? n) && (n <=? 70))%Z then Some (n - 55)%Z
           else None in
  match d with
  | Some v => if (v <? radix)%Z then Some v else None
  | None => None
  end.

(** The longest prefix of digits, read left to right; [None] with no digit. *)
Fixpoint read_digits (radix : Z) (s : string) (acc : option Z) : option Z :=
  match s with
  | String c rest =>
      match digit_value radix c with
      | Some d =>
          read_digits radix rest
            (Some (match acc with Some a => a * radix + d | None => d end)%Z)
      | None => acc
      end
  | EmptyString => acc
  end.

(** [parseInt(s)] with no radix: leading white space, a sign, an optional
    [0x] prefix, then digits.  [None] is NaN. *)
Definition parseInt (s : string) : option Z :=
  let s1 := trim_start s in
  let '(sign, s2) :=
    match s1 with
    | String "-" r => ((-1)%Z, r)
    | String "+" r => (1%Z, r)
    | _ => (1%Z, s1)
    end in
  let '(radix, s3) :=
    match s2 with
    | String "0" (String "x" r) | String "0" (String "X" r) => (16%Z, r)
    | _ => (10%Z, s2)
    end in
  match read_digits radix s3 None with
  | Some v => Some (sign * v)%Z
  | None => None
  end.

(** Decimal text of an integer ([Number.prototype.toString]): all the digits,
    as JavaScript prints an integer below 10^21. *)
Fixpoint digits (fuel : nat) (n : Z) (acc : string) : string :=
  let acc' := String (ascii_of_nat (Z.to_nat (48 + n mod 10))) acc in
  match fuel with
  | O => acc'
  | S f => if (n / 10 =? 0)%Z then acc' else digits f (n / 10)%Z acc'
  end.

Definition string_of_Z (n : Z) : string :=
  if (n <? 0)%Z then String "-" (digits (Z.to_nat (Z.log2 (- n))) (- n) "")
  else digits (Z.to_nat (Z.log2 n)) n "".

(** JSON text of a string: quotes, and the escapes of [QuoteJSONString]. *)
Definition escape_char (c : ascii) : string :=
  let n := code c in
  if Ascii.eqb c dquote then String backslash (String dquote "")
  else if Ascii.eqb c backslash then String backslash (String backslash "")
  else if (n =? 8)%Z then String backslash "b"
  else if (n =? 9)%Z then String backslash "t"
  else if (n =? 10)%Z then String backslash "n"
  else if (n =? 12)%Z then String backslash "f"
  else if (n =? 13)%Z then String backslash "r"
  else if (n <? 32)%Z then
    String backslash ("u00" +:+ String (hex_digit (n / 16)) (String (hex_digit (n mod 16)) ""))
  else String c "".

Fixpoint escape (s : string) : string :=
  match s with
  | String c rest => escape_char c +:+ escape rest
  | EmptyString => EmptyString
  end.

Definition quote (s : string) : string := quoted (escape s).

Fixpoint join (sep : string) (l : list string) : string :=
  match l with
  | [] => ""
  | [x] => x
  | x :: rest => x +:+ sep +:+ join sep rest
  end.

(** [JSON.stringify(v)]: [None] is the [undefined] it returns for [undefined].
    In an array [undefined] prints as [null]; in an object the property is
    left out. *)
Fixpoint stringify (v : JSValue) : option string :=
  match v with
  | JUndefined => None
  | JNull => Some "null"
  | JBool true => Some "true"
  | JBool false => Some "false"
  | JNum n => Some (string_of_Z n)
  | JStr s => Some (quote s)
  | JArr items =>
      Some ("[" +:+ join ","
              (List.map (fun x => match stringify x with Some t => t | None => "null" end)
                        items) +:+ "]")
  | JObj fields =>
      let fix props (l : list (string * JSValue)) : list string :=
        match l with
        | [] => []
        | (k, x) :: rest =>
            match stringify x with
            | Some t => (quote k +:+ ":" +:+ t) :: props rest
            | None => props rest
            end
        end in
      Some ("{" +:+ join "," (props fields) +:+ "}")
  end.

(** A template literal prints [undefined] as the word. *)
Definition template (o : option string) : string :=
  match o with Some s => s | None => "undefined" end.

(** [Buffer.from(s, 'hex')]: whole pairs of hexadecimal digits, up to the
    first pair that is not one; a trailing single digit is dropped. *)
Fixpoint buffer_from_hex (s : string) : list Z :=
  match s with
  | String a (String b rest) =>
      match digit_value 16 a, digit_value 16 b with
      | Some x, Some y => (16 * x + y)%Z :: buffer_from_hex rest
      | _, _ => []
      end
  | _ => []
  end.

Definition bytes_eqb (a b : list Z) : bool :=
  bool_decide (a = b).

(** [crypto.timingSafeEqual(a, b)]: [None] is the RangeError thrown when the
    two buffers differ in byte length. *)
Definition timingSafeEqual (a b : list Z) : option bool :=
  if Nat.eqb (length a) (length b) then Some (bytes_eqb a b) else None.

End JS.

(** ** The body parser ([express.json] in [setupMiddleware])

    [JSON.parse] on the fragment of the embedding: integers for numbers,
    ASCII text with the one-letter escapes.  [None] is the parser's 400. *)

Module Parser.

Definition is_ws (c : ascii) : bool :=
  let n := code c in ((n =? 32) || (n =? 9) || (n =? 10) || (n =? 13))%Z.

Fixpoint skip_ws (s : string) : string :=
  match s with
  | String c rest => if is_ws c then skip_ws rest else s
  | EmptyString => EmptyString
  end.

Definition is_digit (c : ascii) : bool :=
  let n := code c in ((48 <=? n) && (n <=? 57))%Z.

(** An array index: a canonical numeric key, enumerated before the others. *)
Definition index_key (k : string) : option Z :=
  match k with
  | EmptyString => None
  | String "0" EmptyString => Some 0%Z
  | String "0" _ => None
  | _ =>
      if forallb is_digit (list_ascii_of_string k) then
        match JS.read_digits 10 k None with
        | Some n => if (n <? 4294967295)%Z then Some n else None
        | None => None
        end
      else None
  end.

(** Defining a property: an existing key keeps its place and takes the new
    value; a new index key goes before the larger indices and the names; a
    new name goes last. *)
Fixpoint define (k : string) (v : JSValue) (l : list (string * JSValue))
  : list (string * JSValue) :=
  match l with
  | [] => [(k, v)]
  | (k', v') :: rest =>
      if String.eqb k k' then (k, v) :: rest
      else
        let before :=
          match index_key k, index_key k' with
          | Some i, Some j => (i <? j)%Z
          | Some _, None => negb (existsb (fun p => String.eqb k (fst p)) rest)
          | None, _ => false
          end in
        if before then (k, v) :: (k', v') :: rest
        else (k', v') :: define k v rest
  end.

Definition unescape (c : ascii) : option ascii :=
  if Ascii.eqb c dquote then Some dquote
  else if Ascii.eqb c backslash then Some backslash
  else match c with
       | "/" => Some "/" | "b" => Some "008" | "f" => Some "012"
       | "n" => Some "010" | "r" => Some "013" | "t" => Some "009"
       | _ => None
       end%char.

(** The text of a string, after its opening quote. *)
Fixpoint parse_string (s : string) : option (string * string) :=
  match s with
  | EmptyString => None
  | String c rest =>
      if Ascii.eqb c dquote then Some ("", rest)
      else if Ascii.eqb c backslash then
        match rest with
        | String e rest' =>
            match unescape e, parse_string rest' with
            | Some u, Some (t, r) => Some (String u t, r)
            | _, _ => None
            end
        | EmptyString => None
        end
      else if (code c <? 32)%Z || (127 <? code c)%Z then None
      else match parse_string rest with
           | Some (t, r) => Some (String c t, r)
           | None => None
           end
  end.

Fixpoint span_digits (s : string) : string * string :=
  match s with
  | String c rest =>
      if is_digit c then let '(d, r) := span_digits rest in (String c d, r)
      else ("", s)
  | EmptyString => ("", "")
  end.

(** An integer literal; a fraction or an exponent is outside the embedding. *)
Definition parse_number (s : string) : option (JSValue * string) :=
  let '(sign, s1) := match s with String "-" r => ((-1)%Z, r) | _ => (1%Z, s) end in
  let '(ds, rest) := span_digits s1 in
  let wellformed :=
    match ds with
    | EmptyString => false
    | String "0" (String _ _) => false
    | _ => true
    end in
  let integer :=
    match rest with
    | String "." _ | String "e" _ | String "E" _ => false
    | _ => true
    end in
  if wellformed && integer then
    match JS.read_digits 10 ds None with
    | Some n => Some (JNum (sign * n), rest)
    | None => None
    end
  else None.

Fixpoint parse_value (fuel : nat) (s : string) : option (JSValue * string) :=
  match fuel with
  | O => None
  | S f =>
      match skip_ws s with
      | String "{" rest =>
          match skip_ws rest with
          | String "}" r => Some (JObj [], r)
          | _ => parse_members f rest []
          end
      | String "[" rest =>
          match skip_ws rest with
          | String "]" r => Some (JArr [], r)
          | _ => parse_elements f rest []
          end
      | String c rest as s' =>
          if Ascii.eqb c dquote then
            match parse_string rest with
            | Some (t, r) => Some (JStr t, r)
            | None => None
            end
          else match JS.strip_prefix "true" s', JS.strip_prefix "false" s',
                     JS.strip_prefix "null" s' with
               | Some r, _, _ => Some (JBool true, r)
               | _, Some r, _ => Some (JBool false, r)
               | _, _, Some r => Some (JNull, r)
               | _, _, _ => parse_number s'
               end
      | EmptyString => None
      end
  end
with parse_elements (fuel : nat) (s : string) (acc : list JSValue)
  : option (JSValue * string) :=
  match fuel with
  | O => None
  | S f =>
      match parse_value f s with
      | Some (v, r) =>
          match skip_ws r with
          | String "," r' => parse_elements f r' (acc ++ [v])
          | String "]" r' => Some (JArr (acc ++ [v]), r')
          | _ => None
          end
      | None => None
      end
  end
with parse_members (fuel : nat) (s : string) (acc : list (string * JSValue))
  : option (JSValue * string) :=
  match fuel with
  | O => None
  | S f =>
      match skip_ws s with
      | String q rest =>
          if Ascii.eqb q dquote then
            match parse_string rest with
            | Some (k, r) =>
                match skip_ws r with
                | String ":" r1 =>
                    match parse_value f r1 with
                    | Some (v, r2) =>
                        match skip_ws r2 with
                        | String "," r3 => parse_members f r3 (define k v acc)
                        | String "}" r3 => Some (JObj (define k v acc), r3)
                        | _ => None
                        end
                    | None => None
                    end
                | _ => None
                end
            | None => None
            end
          else None
      | EmptyString => None
      end
  end.

(** [JSON.parse]: one value, then only white space. *)
Definition JSON_parse (s : string) : option JSValue :=
  match parse_value (S (String.length s)) s with
  | Some (v, r) => match skip_ws r with EmptyString => Some v | _ => None end
  | None => None
  end.

(** [express.json()]: an empty body is the empty object; in strict mode the
    text must open an object or an array. *)
Definition express_json (raw : string) : option JSValue :=
  match raw with
  | EmptyString => Some (JObj [])
  | _ =>
      match skip_ws raw with
      | String "{" _ | String "[" _ => JSON_parse raw
      | _ => None
      end
  end.

End Parser.

(** ** Requests, responses, the clock *)

(** [req]: the header names are lower case, as Node delivers them; [rawBody]
    is the buffer that the [verify] hook of the body parser keeps, [body] the
    parsed value. *)
Record Request := {
  headers : gmap string string;
  rawBody : string;
  body : JSValue
}.

(** What the body parser leaves on the request for a given raw body. *)
Definition incoming (hs : gmap string string) (raw : string) : option Request :=
  match Parser.express_json raw with
  | Some b => Some {| headers := hs; rawBody := raw; body := b |}
  | None => None
  end.

(** [res.status(code).json(body)] *)
Record Response := {
  status : Z;
  json : JSValue
}.

(** A middleware either answers or calls [next()]. *)
Inductive Handled : Type :=
| Next
| Respond (r : Response).

Module Clock.
Local Open Scope Z_scope.

Fixpoint zeros (n : nat) (s : string) : string :=
  match n with
  | O => s
  | S n' => String "0" (zeros n' s)
  end.

(** [String(n).padStart(width, '0')] *)
Definition pad_left (width : nat) (s : string) : string :=
  zeros (width - String.length s) s.

(** Civil date of a day number counted from 1970-01-01. *)
Definition civil (day : Z) : Z * Z * Z :=
  let z := day + 719468 in
  let era := z / 146097 in
  let doe := z - era * 146097 in
  let yoe := (doe - doe / 1460 + doe / 36524 - doe / 146096) / 365 in
  let doy := doe - (365 * yoe + yoe / 4 - yoe / 100) in
  let mp := (5 * doy + 2) / 153 in
  let d := doy - (153 * mp + 2) / 5 + 1 in
  let m := if mp <? 10 then mp + 3 else mp - 9 in
  let y := yoe + era * 400 + (if m <=? 2 then 1 else 0) in
  (y, m, d).

(** [new Date(ms).toISOString()], for a clock within the range of [Date]. *)
Definition toISOString (ms : Z) : string :=
  let '(y, m, d) := civil (ms / 86400000) in
  let t := ms mod 86400000 in
  let p w n := pad_left w (JS.string_of_Z n) in
  let year :=
    if (0 <=? y) && (y <=? 9999) then p 4%nat y
    else if y <? 0 then String "-" (p 6%nat (- y)) else String "+" (p 6%nat y) in
  year +:+ "-" +:+ p 2%nat m +:+ "-" +:+ p 2%nat d +:+ "T"
    +:+ p 2%nat (t / 3600000) +:+ ":" +:+ p 2%nat (t / 60000 mod 60) +:+ ":"
    +:+ p 2%nat (t / 1000 mod 60) +:+ "." +:+ p 3%nat (t mod 1000) +:+ "Z".

End Clock.

(** ** The signature verifier ([src/middleware/auth.js]) *)

Definition error_body (msg : string) : JSValue := JObj [("error", JStr msg)].

(** A header that is absent or empty fails the [!header] test. *)
Definition header_value (name : string) (req : Request) : option string :=
  match headers req !! name with
  | Some "" => None
  | other => other
  end.

(** [Math.abs(now - webhookTime) > 300]; with NaN the comparison is false. *)
Definition too_old (now : Z) (webhookTime : option Z) : bool :=
  match webhookTime with
  | Some t => (300 <? Z.abs (now - t))%Z
  | None => false
  end.

(** The text that is signed: the timestamp header, a dot, and the
    re-serialised parsed body ([JSON.stringify(req.body)]). *)
Definition signed_text (timestamp : string) (req : Request) : string :=
  timestamp +:+ "." +:+ JS.template (JS.stringify (body req)).

Definition validateWebhookSignature (webhookSecret : string) (now_ms : Z) (req : Request)
  : Handled :=
  match header_value "x-webhook-signature" req, header_value "x-webhook-timestamp" req with
  | Some signature, Some timestamp =>
      let now := (now_ms / 1000)%Z in
      let webhookTime := JS.parseInt timestamp in
      if too_old now webhookTime then
        Respond {| status := 401; json := error_body "Request too old" |}
      else
        let expectedSignature := hmac_sha256_hex webhookSecret (signed_text timestamp req) in
        let providedSignature := JS.replace "sha256=" "" signature in
        match JS.timingSafeEqual (JS.buffer_from_hex expectedSignature)
                                 (JS.buffer_from_hex providedSignature) with
        | Some true => Next
        | Some false => Respond {| status := 401; json := error_body "Invalid signature" |}
        | None =>
            (* the RangeError of timingSafeEqual, caught by the catch clause *)
            Respond {| status := 500; json := error_body "Signature validation failed" |}
        end
  | _, _ => Respond {| status := 401; json := error_body "Missing signature or timestamp" |}
  end.

(** ** The payload validator ([src/utils/validation.js])

    The schemas are the ones of the source.  What [schema.validate] does with
    them is Joi's: the rules below follow Joi 17 with its defaults
    ([abortEarly]: the first error only; [convert]: numeric and boolean text
    is accepted for a number and a boolean) and with [allowUnknown]. *)

Module Joi.

Inductive Seg : Type :=
| Key (k : string)
| Index (i : nat).

(** Why a value was refused, as far as [alternatives] looks at it. *)
Inductive Kind : Type :=
| Base (type : string)
| Only (valids : list string)
| Other.

Record Detail := {
  kind : Kind;
  path : list Seg;
  message : string
}.

Inductive Presence : Type :=
| Optional
| Required
| RequiredUnlessExists (sibling : string).

Inductive Schema : Type :=
| JoiString (only : option (list string)) (allow_empty allow_null : bool)
| JoiNumber
| JoiBoolean
| JoiAlternatives (alts : list Schema) (allow_null : bool)
| JoiObject (keys : option (list (string * (Presence * Schema)))) (allow_null : bool)
| JoiArray (items : option Schema) (allow_null : bool).

Definition seg_text (s : Seg) : string :=
  match s with
  | Key k => k
  | Index i => JS.string_of_Z (Z.of_nat i)
  end.

(** [detail.path.join('.')] *)
Definition field_of (p : list Seg) : string := JS.join "." (List.map seg_text p).

(** The label of a message: the path, with an index in brackets. *)
Fixpoint label_tail (p : list Seg) : string :=
  match p with
  | [] => ""
  | Key k :: rest => "." +:+ k +:+ label_tail rest
  | Index i :: rest => "[" +:+ JS.string_of_Z (Z.of_nat i) +:+ "]" +:+ label_tail rest
  end.

Definition label (p : list Seg) : string :=
  match p with
  | [] => "value"
  | Key k :: rest => k +:+ label_tail rest
  | Index i :: rest => "[" +:+ JS.string_of_Z (Z.of_nat i) +:+ "]" +:+ label_tail rest
  end.

Definition report (k : Kind) (p : list Seg) (what : string) : option Detail :=
  Some {| kind := k; path := p; message := quoted (label p) +:+ " " +:+ what |}.

Definition one_of (l : list string) : string := "must be one of [" +:+ JS.join ", " l +:+ "]".

Definition max_safe : Z := 9007199254740991.

(** Text that is an integer: white space, a sign, digits, white space.  Joi
    converts such text to the number; it also converts text with a fraction
    or an exponent, which is outside the embedding. *)
Definition integer_text (s : string) : option Z :=
  let t := JS.trim s in
  let '(sign, ds) :=
    match t with
    | String "-" r => ((-1)%Z, r)
    | String "+" r => (1%Z, r)
    | _ => (1%Z, t)
    end in
  match ds with
  | EmptyString => None
  | _ =>
      if forallb Parser.is_digit (list_ascii_of_string ds) then
        match JS.read_digits 10 ds None with
        | Some n => Some (sign * n)%Z
        | None => None
        end
      else None
  end.

Definition lower (c : ascii) : ascii :=
  let n := code c in
  if ((65 <=? n) && (n <=? 90))%Z then ascii_of_nat (Z.to_nat (n + 32)) else c.

Definition lowercase (s : string) : string :=
  string_of_list_ascii (List.map lower (list_ascii_of_string s)).

Definition boolean_text (s : string) : bool :=
  let l := lowercase s in String.eqb l "true" || String.eqb l "false".

Fixpoint first_error (l : list (option Detail)) : option Detail :=
  match l with
  | [] => None
  | Some e :: _ => Some e
  | None :: rest => first_error rest
  end.

(** [Joi.exist()] on a sibling: the key has a value, [null] included. *)
Definition exists_key (k : string) (fields : list (string * JSValue)) : bool :=
  match JS.assoc k fields with JUndefined => false | _ => true end.

Definition required (p : Presence) (fields : list (string * JSValue)) : bool :=
  match p with
  | Optional => false
  | Required => true
  | RequiredUnlessExists sibling => negb (exists_key sibling fields)
  end.

Definition depends_on (p : Presence) : list string :=
  match p with RequiredUnlessExists sibling => [sibling] | _ => [] end.

(** The order in which the keys of an object are validated: the order of the
    declaration, a key coming after the siblings its condition refers to. *)
Fixpoint pick (declared visited : list string) (deps : string -> list string)
  : option string :=
  match declared with
  | [] => None
  | k :: rest =>
      if existsb (String.eqb k) visited then pick rest visited deps
      else if forallb (fun d => existsb (String.eqb d) visited) (deps k) then Some k
      else pick rest visited deps
  end.

Fixpoint order_from (fuel : nat) (declared visited : list string)
  (deps : string -> list string) : list string :=
  match fuel with
  | O => []
  | S f =>
      match pick declared visited deps with
      | Some k => k :: order_from f declared (k :: visited) deps
      | None => []
      end
  end.

Definition validation_order {A} (keys : list (string * (Presence * A))) : list string :=
  let names := List.map fst keys in
  let deps k :=
    match List.find (fun e => String.eqb (fst e) k) keys with
    | Some (_, (p, _)) => List.filter (fun d => existsb (String.eqb d) names) (depends_on p)
    | None => []
    end in
  order_from (length keys) names [] deps.

(** What [alternatives.try] reports when no alternative matches. *)
Definition unmatched (p : list Seg) (failures : list Detail) : option Detail :=
  match failures with
  | [] => report Other p "does not match any of the allowed types"
  | [e] => Some e
  | _ =>
      let complex :=
        List.filter (fun e =>
          negb (Nat.eqb (length (path e)) (length p))
          || match kind e with Other => true | _ => false end) failures in
      match complex with
      | [] =>
          let types :=
            List.concat (List.map (fun e =>
              match kind e with Base t => [t] | Only vs => vs | Other => [] end) failures) in
          report Other p (one_of types)
      | [e] => Some e
      | _ => report Other p "does not match any of the allowed types"
      end
  end.

(** The alternatives of [alternatives.try], in turn: [None] when one of them
    accepts the value, else the error of each. *)
Definition failures_with (V : Schema -> list Seg -> JSValue -> option Detail)
  (p : list Seg) (v : JSValue) : list Schema -> option (list Detail) :=
  fix failures (l : list Schema) : option (list Detail) :=
    match l with
    | [] => Some []
    | a :: rest =>
        match V a p v with
        | None => None
        | Some e => match failures rest with
                    | Some es => Some (e :: es)
                    | None => None
                    end
        end
    end.

(** The key [name] of an object with the given fields: its presence, then
    the schema of its value. *)
Definition child_with (V : Schema -> list Seg -> JSValue -> option Detail)
  (fields : list (string * JSValue)) (p : list Seg)
  : list (string * (Presence * Schema)) -> string -> option Detail :=
  fix child (l : list (string * (Presence * Schema))) (name : string) : option Detail :=
    match l with
    | [] => None
    | (k, (pres, s)) :: rest =>
        if String.eqb k name then
          match JS.assoc k fields with
          | JUndefined =>
              if required pres fields
              then report Other (p ++ [Key k])%list "is required" else None
          | x => V s (p ++ [Key k])%list x
          end
        else child rest name
    end.

Definition is_null (v : JSValue) : bool :=
  match v with JNull => true | _ => false end.

(** [schema.validate(value)]: the first error, or [None] for a valid value.
    The value of an absent key is never passed: presence is the object's. *)
Fixpoint validate (sch : Schema) (p : list Seg) (v : JSValue) {struct sch}
  : option Detail :=
  match sch with
  | JoiString only allow_empty allow_null =>
      match v, only with
      | JNull, _ =>
          if allow_null then None
          else match only with
               | Some vs => report (Only vs) p (one_of vs)
               | None => report (Base "string") p "must be a string"
               end
      | JStr s, Some vs =>
          if existsb (String.eqb s) vs then None else report (Only vs) p (one_of vs)
      | _, Some vs => report (Only vs) p (one_of vs)
      | JStr "", None =>
          if allow_empty then None else report Other p "is not allowed to be empty"
      | JStr _, None => None
      | _, None => report (Base "string") p "must be a string"
      end
  | JoiNumber =>
      let range n :=
        if ((- max_safe <=? n) && (n <=? max_safe))%Z then None
        else report Other p "must be a safe number" in
      match v with
      | JNum n => range n
      | JStr s =>
          match integer_text s with
          | Some n => range n
          | None => report (Base "number") p "must be a number"
          end
      | _ => report (Base "number") p "must be a number"
      end
  | JoiBoolean =>
      match v with
      | JBool _ => None
      | JStr s =>
          if boolean_text s then None else report (Base "boolean") p "must be a boolean"
      | _ => report (Base "boolean") p "must be a boolean"
      end
  | JoiAlternatives alts allow_null =>
      if allow_null && is_null v then None
      else match failures_with validate p v alts with
           | None => None
           | Some es => unmatched p es
           end
  | JoiObject keys allow_null =>
      match v with
      | JNull =>
          if allow_null then None else report (Base "object") p "must be of type object"
      | JObj fields =>
          match keys with
          | None => None
          | Some ks =>
              first_error (List.map (child_with validate fields p ks) (validation_order ks))
          end
      | _ => report (Base "object") p "must be of type object"
      end
  | JoiArray items allow_null =>
      match v with
      | JNull =>
          if allow_null then None else report (Base "array") p "must be an array"
      | JArr l =>
          match items with
          | None => None
          | Some s =>
              first_error
                (List.map (fun ix => validate s (p ++ [Index (fst ix)]) (snd ix))
                          (List.combine (List.seq 0 (length l)) l))
          end
      | _ => report (Base "array") p "must be an array"
      end
  end.

End Joi.

Import Joi.

Definition key (name : string) (p : Presence) (s : Schema) : string * (Presence * Schema) :=
  (name, (p, s)).

Definition string_ : Schema := JoiString None false false.
Definition string_allow_empty : Schema := JoiString None true false.
Definition string_allow_null : Schema := JoiString None false true.

(** Schema for conversation data *)
Definition conversationSchema : Schema :=
  JoiObject (Some [
    key "id" Required string_;
    key "title" Optional string_allow_empty;
    key "model" Optional string_;
    key "create_time" Required JoiNumber;
    key "update_time" Required JoiNumber;
    key "project_id" Optional string_allow_null;
    key "openai_thread_id" Optional string_allow_null ]) false.

Definition content_alternatives : Schema :=
  JoiAlternatives [string_; JoiObject None false; JoiArray None false] true.

(** Schema for message data *)
Definition messageSchema : Schema :=
  JoiObject (Some [
    key "id" Required string_;
    key "conversation_id" Required string_;
    key "role" Required (JoiString (Some ["user"; "assistant"; "system"]) false false);
    key "content" Optional content_alternatives;
    key "parts" Optional content_alternatives;
    key "create_time" Required JoiNumber;
    key "parent" Optional string_allow_null;
    key "children" Optional (JoiArray (Some string_) true);
    key "author" Optional (JoiObject (Some [
      key "name" Optional string_allow_null;
      key "role" Optional string_allow_null ]) true) ]) false.

(** Schema for project data *)
Definition projectSchema : Schema :=
  JoiObject (Some [
    key "id" Optional string_allow_null;
    key "name" Required string_;
    key "description" Optional string_allow_empty;
    key "is_starred" Optional JoiBoolean;
    key "chatgpt_project_id" Optional string_allow_null ]) false.

(** Schema for webhook payload: [conversation] is required unless [message]
    exists. *)
Definition webhookPayloadSchema : Schema :=
  JoiObject (Some [
    key "conversation" (RequiredUnlessExists "message") conversationSchema;
    key "message" Optional messageSchema;
    key "project" Optional projectSchema;
    key "event_type" Optional string_;
    key "timestamp" Optional JoiNumber ]) false.

(** The result of [validateWebhookPayload]; its [data] field, Joi's converted
    copy of the payload, is read nowhere and left out. *)
Inductive Validation : Type :=
| Valid
| Invalid (errors : list (string * string)).

Definition isValid (v : Validation) : bool :=
  match v with Valid => true | Invalid _ => false end.

Definition validateWebhookPayload (payload : JSValue) : Validation :=
  match payload with
  | JUndefined => Valid
  | _ =>
      match validate webhookPayloadSchema [] payload with
      | Some detail => Invalid [(field_of (path detail), message detail)]
      | None => Valid
      end
  end.

(** The [details] of the 400 response. *)
Definition details (errors : list (string * string)) : JSValue :=
  JArr (List.map (fun e => JObj [("field", JStr (fst e)); ("message", JStr (snd e))]) errors).

(** ** Outcomes and the store *)

(** The result of an [async] function: a value, or the message of the error
    it throws. *)
Inductive outcome (A : Type) : Type :=
| Ok (a : A)
| Throw (msg : string).

Arguments Ok {A} a.
Arguments Throw {A} msg.

(** A JavaScript [Date]: milliseconds since the epoch, or Invalid Date. *)
Definition Date : Type := option Z.

(** A bound parameter, as the driver sends it. *)
Inductive SqlValue : Type :=
| SqlNull
| SqlText (s : string)
| SqlNum (n : Z)
| SqlBool (b : bool).

(** Binding a parameter of a prepared statement (the driver's rule for
    [undefined]; an object or an array goes as its JSON text). *)
Definition bind_param (v : JSValue) : outcome SqlValue :=
  match v with
  | JUndefined =>
      Throw "Bind parameters must not contain undefined. To pass SQL NULL specify JS null"
  | JNull => Ok SqlNull
  | JStr s => Ok (SqlText s)
  | JNum n => Ok (SqlNum n)
  | JBool b => Ok (SqlBool b)
  | JArr _ | JObj _ => Ok (SqlText (JS.template (JS.stringify v)))
  end.

(** The value of a key column, which is text and not null. *)
Definition key_text (column : string) (v : SqlValue) : outcome string :=
  match v with
  | SqlText s => Ok s
  | SqlNum n => Ok (JS.string_of_Z n)
  | SqlBool b => Ok (if b then "1" else "0")
  | SqlNull => Throw ("Column '" +:+ column +:+ "' cannot be null")
  end.

Record ConversationRow := {
  conv_title : SqlValue;
  conv_model : SqlValue;
  conv_create_time : Date;
  conv_update_time : Date;
  conv_project_id : SqlValue;
  conv_openai_thread_id : SqlValue
}.

Record MessageRow := {
  msg_conversation_id : SqlValue;
  msg_role : SqlValue;
  msg_content : SqlValue;
  msg_parts : SqlValue;
  msg_create_time : Date;
  msg_parent : SqlValue;
  msg_children : SqlValue;
  msg_author_name : SqlValue
}.

Record ProjectRow := {
  proj_description : SqlValue;
  proj_is_starred : SqlValue;
  proj_chatgpt_project_id : SqlValue
}.

(** The statements of [DatabaseService], by table and key. *)
Inductive Statement : Type :=
| SelectConversation (conversation_id : SqlValue)
| UpsertConversation (conversation_id : string)
| UpsertMessage (id : string)
| SelectProject (name : SqlValue)
| UpsertProject (name : string).

(** The three tables, each under its unique key (conversation_id, id, name),
    and the statements executed so far, the latest first. *)
Record Store := {
  conversations : gmap string ConversationRow;
  messages : gmap string MessageRow;
  projects : gmap string ProjectRow;
  executed : list Statement
}.

Definition empty_store : Store :=
  {| conversations := ∅; messages := ∅; projects := ∅; executed := [] |}.

(** Code that reads and writes the store and may throw. *)
Definition M (A : Type) : Type := Store -> outcome A * Store.

Definition ret {A} (a : A) : M A := fun st => (Ok a, st).
Definition throw {A} (msg : string) : M A := fun st => (Throw msg, st).
Definition bind {A B} (m : M A) (k : A -> M B) : M B :=
  fun st => match m st with
            | (Ok a, st') => k a st'
            | (Throw e, st') => (Throw e, st')
            end.
(** A pure step that may throw. *)
Definition lift {A} (o : outcome A) : M A := fun st => (o, st).
(** A property read: the TypeError on [undefined] and [null]. *)
Definition prop (k : string) (o : JSValue) : M JSValue :=
  match JS.get k o with
  | Some v => ret v
  | None =>
      throw ("Cannot read properties of "
             +:+ match o with JNull => "null" | _ => "undefined" end
             +:+ " (reading '" +:+ k +:+ "')")
  end.

Notation "'do' x <- m ; k" := (bind m (fun x => k))
  (at level 10, x name, m at level 100, k at level 200).
Notation "'run' m ; k" := (bind m (fun _ => k))
  (at level 10, m at level 100, k at level 200).

(** ** The upsert store ([src/services/database.js]) *)

Module DatabaseService.

Record conversationData := {
  conversation_id : JSValue;
  title : JSValue;
  model : JSValue;
  create_time : Date;
  update_time : Date;
  project_id : JSValue;
  openai_thread_id : JSValue
}.

Record messageData := {
  m_id : JSValue;
  m_conversation_id : JSValue;
  m_role : JSValue;
  m_content : JSValue;
  m_parts : JSValue;
  m_create_time : Date;
  m_parent : JSValue;
  m_children : JSValue;
  m_author_name : JSValue
}.

Record projectData := {
  p_name : JSValue;
  p_description : JSValue;
  p_is_starred : JSValue;
  p_chatgpt_project_id : JSValue
}.

Definition log (s : Statement) : M unit :=
  fun st => (Ok tt, {| conversations := conversations st; messages := messages st;
                       projects := projects st; executed := s :: executed st |}).

(** INSERT INTO conversations ... ON DUPLICATE KEY UPDATE title, model,
    update_time, project_id, openai_thread_id. *)
Definition insertConversation (d : conversationData) : M unit :=
  do k0 <- lift (bind_param (conversation_id d));
  do t <- lift (bind_param (title d));
  do m <- lift (bind_param (model d));
  do pr <- lift (bind_param (project_id d));
  do th <- lift (bind_param (openai_thread_id d));
  do k <- lift (key_text "conversation_id" k0);
  run log (UpsertConversation k);
  fun st =>
    let row :=
      match conversations st !! k with
      | Some old =>
          {| conv_title := t; conv_model := m;
             conv_create_time := conv_create_time old;
             conv_update_time := update_time d;
             conv_project_id := pr; conv_openai_thread_id := th |}
      | None =>
          {| conv_title := t; conv_model := m;
             conv_create_time := create_time d;
             conv_update_time := update_time d;
             conv_project_id := pr; conv_openai_thread_id := th |}
      end in
    (Ok tt, {| conversations := <[k := row]> (conversations st); messages := messages st;
               projects := projects st; executed := executed st |}).

(** INSERT INTO messages ... ON DUPLICATE KEY UPDATE role, content, parts,
    create_time, parent, children, author_name. *)
Definition insertMessage (d : messageData) : M unit :=
  do k0 <- lift (bind_param (m_id d));
  do c0 <- lift (bind_param (m_conversation_id d));
  do r <- lift (bind_param (m_role d));
  do co <- lift (bind_param (m_content d));
  do pa <- lift (bind_param (m_parts d));
  do pt <- lift (bind_param (m_parent d));
  do ch <- lift (bind_param (m_children d));
  do au <- lift (bind_param (m_author_name d));
  do k <- lift (key_text "id" k0);
  run log (UpsertMessage k);
  fun st =>
    let row :=
      match messages st !! k with
      | Some old =>
          {| msg_conversation_id := msg_conversation_id old;
             msg_role := r; msg_content := co; msg_parts := pa;
             msg_create_time := m_create_time d;
             msg_parent := pt; msg_children := ch; msg_author_name := au |}
      | None =>
          {| msg_conversation_id := c0;
             msg_role := r; msg_content := co; msg_parts := pa;
             msg_create_time := m_create_time d;
             msg_parent := pt; msg_children := ch; msg_author_name := au |}
      end in
    (Ok tt, {| conversations := conversations st; messages := <[k := row]> (messages st);
               projects := projects st; executed := executed st |}).

(** The rows that [WHERE column = ?] selects on a key column: none for NULL. *)
Definition matching {A} (table : gmap string A) (k : SqlValue) : option A :=
  match key_text "" k with
  | Ok s => table !! s
  | Throw _ => None
  end.

(** SELECT * FROM conversations WHERE conversation_id = ?; [results[0] || null] *)
Definition getConversation (conversationId : JSValue) : M (option ConversationRow) :=
  do k <- lift (bind_param conversationId);
  run log (SelectConversation k);
  fun st => (Ok (matching (conversations st) k), st).

(** SELECT * FROM projects WHERE name = ? *)
Definition getProject (projectName : JSValue) : M (option ProjectRow) :=
  do k <- lift (bind_param projectName);
  run log (SelectProject k);
  fun st => (Ok (matching (projects st) k), st).

(** INSERT INTO projects ... ON DUPLICATE KEY UPDATE description,
    chatgpt_project_id. *)
Definition createProject (d : projectData) : M unit :=
  do k0 <- lift (bind_param (p_name d));
  do de <- lift (bind_param (p_description d));
  do st0 <- lift (bind_param (match p_is_starred d with JUndefined => JBool false | x => x end));
  do cg <- lift (bind_param (p_chatgpt_project_id d));
  do k <- lift (key_text "name" k0);
  run log (UpsertProject k);
  fun st =>
    let row :=
      match projects st !! k with
      | Some old =>
          {| proj_description := de; proj_is_starred := proj_is_starred old;
             proj_chatgpt_project_id := cg |}
      | None =>
          {| proj_description := de; proj_is_starred := st0;
             proj_chatgpt_project_id := cg |}
      end in
    (Ok tt, {| conversations := conversations st; messages := messages st;
               projects := <[k := row]> (projects st); executed := executed st |}).

End DatabaseService.

(** ** The event router ([src/controllers/webhook.js]) *)

Module WebhookController.
Import DatabaseService.

(** The receiver of a method.  The module exports one instance of the class;
    a method of it that is called as a plain function has no receiver. *)
Inductive This : Type :=
| ThisUndefined
| ThisController.

(** [this.name(...)] *)
Definition method {A} (this : This) (name : string) (call : M A) : M A :=
  match this with
  | ThisController => call
  | ThisUndefined =>
      throw ("Cannot read properties of undefined (reading '" +:+ name +:+ "')")
  end.

(** [const { a, b } = payload]: the TypeError on [undefined] and [null]. *)
Definition destructure (first : string) (payload : JSValue) : M unit :=
  match payload with
  | JUndefined | JNull =>
      throw ("Cannot destructure property '" +:+ first +:+ "' of 'payload' as it is "
             +:+ match payload with JNull => "null" | _ => "undefined" end +:+ ".")
  | _ => ret tt
  end.

(** ToNumber of the operand of [x * 1000].  Text is read as an integer; an
    object or an array, which no schema accepts for a time, is taken as NaN. *)
Definition to_number (v : JSValue) : option Z :=
  match v with
  | JUndefined => None
  | JNull => Some 0%Z
  | JBool b => Some (if b then 1 else 0)%Z
  | JNum n => Some n
  | JStr s => match JS.trim s with EmptyString => Some 0%Z | _ => integer_text s end
  | JArr _ | JObj _ => None
  end.

(** [new Date(seconds * 1000)] *)
Definition date_of_seconds (v : JSValue) : Date :=
  match to_number v with
  | Some n => if (Z.abs (n * 1000) <=? 8640000000000000)%Z then Some (n * 1000)%Z else None
  | None => None
  end.

(** [x ? JSON.stringify(x) : null] *)
Definition stringify_or_null (x : JSValue) : JSValue :=
  if JS.truthy x then
    match JS.stringify x with Some t => JStr t | None => JUndefined end
  else JNull.

(** Handle conversation creation *)
Definition handleConversationCreated (payload : JSValue) : M JSValue :=
  run destructure "conversation" payload;
  let conversation := JS.get_opt "conversation" payload in
  let project := JS.get_opt "project" payload in
  run (if JS.truthy project then
         do name <- prop "name" project;
         do existingProject <- getProject name;
         match existingProject with
         | Some _ => ret tt
         | None =>
             createProject {|
               p_name := name;
               p_description := JS.or (JS.get_opt "description" project) (JStr "");
               p_is_starred := JUndefined;
               p_chatgpt_project_id := JS.get_opt "id" project |}
         end
       else ret tt);
  do id <- prop "id" conversation;
  run insertConversation {|
    conversation_id := id;
    title := JS.or (JS.get_opt "title" conversation) (JStr "Untitled");
    model := JS.or (JS.get_opt "model" conversation) (JStr "gpt-4");
    create_time := date_of_seconds (JS.get_opt "create_time" conversation);
    update_time := date_of_seconds (JS.get_opt "update_time" conversation);
    project_id := if JS.truthy project then JS.get_opt "id" project else JNull;
    openai_thread_id := JS.or (JS.get_opt "openai_thread_id" conversation) JNull |};
  ret (JObj [("status", JStr "conversation_created"); ("conversationId", id)]).

(** Handle conversation updates *)
Definition handleConversationUpdated (payload : JSValue) : M JSValue :=
  run destructure "conversation" payload;
  let conversation := JS.get_opt "conversation" payload in
  do id <- prop "id" conversation;
  run insertConversation {|
    conversation_id := id;
    title := JS.or (JS.get_opt "title" conversation) (JStr "Untitled");
    model := JS.or (JS.get_opt "model" conversation) (JStr "gpt-4");
    create_time := date_of_seconds (JS.get_opt "create_time" conversation);
    update_time := date_of_seconds (JS.get_opt "update_time" conversation);
    project_id := JS.or (JS.get_opt "project_id" conversation) JNull;
    openai_thread_id := JS.or (JS.get_opt "openai_thread_id" conversation) JNull |};
  ret (JObj [("status", JStr "conversation_updated"); ("conversationId", id)]).

(** The record that both message handlers insert; [fallback] is what stands
    after [message.conversation_id ||]. *)
Definition message_record (message fallback : JSValue) : M messageData :=
  do id <- prop "id" message;
  ret {|
    m_id := id;
    m_conversation_id := JS.or (JS.get_opt "conversation_id" message) fallback;
    m_role := JS.or (JS.get_opt "role" message) (JStr "user");
    m_content := stringify_or_null (JS.get_opt "content" message);
    m_parts := stringify_or_null (JS.get_opt "parts" message);
    m_create_time := date_of_seconds (JS.get_opt "create_time" message);
    m_parent := JS.or (JS.get_opt "parent" message) JNull;
    m_children := stringify_or_null (JS.get_opt "children" message);
    m_author_name :=
      JS.or (JS.get_opt "name" (JS.get_opt "author" message)) JNull |}.

(** Handle message creation *)
Definition handleMessageCreated (this : This) (payload : JSValue) : M JSValue :=
  run destructure "message" payload;
  let message := JS.get_opt "message" payload in
  let conversation := JS.get_opt "conversation" payload in
  (* Ensure conversation exists *)
  run (if JS.truthy conversation then
         do existingConv <- getConversation (JS.get_opt "id" conversation);
         match existingConv with
         | Some _ => ret tt
         | None =>
             run method this "handleConversationCreated"
                   (handleConversationCreated (JObj [("conversation", conversation)]));
             ret tt
         end
       else ret tt);
  (* Insert message *)
  do d <- message_record message (JS.get_opt "id" conversation);
  run insertMessage d;
  ret (JObj [("status", JStr "message_created"); ("messageId", m_id d)]).

(** Handle message updates *)
Definition handleMessageUpdated (payload : JSValue) : M JSValue :=
  run destructure "message" payload;
  let message := JS.get_opt "message" payload in
  do d <- message_record message JUndefined;
  run insertMessage {|
    m_id := m_id d;
    m_conversation_id := JS.get_opt "conversation_id" message;
    m_role := m_role d; m_content := m_content d; m_parts := m_parts d;
    m_create_time := m_create_time d; m_parent := m_parent d;
    m_children := m_children d; m_author_name := m_author_name d |};
  ret (JObj [("status", JStr "message_updated"); ("messageId", m_id d)]).

(** [req.headers['x-event-type'] || 'unknown'] *)
Definition event_type (req : Request) : string :=
  match headers req !! "x-event-type" with
  | Some "" | None => "unknown"
  | Some t => t
  end.

(** The [switch] on the event type. *)
Definition dispatch (this : This) (eventType : string) (payload : JSValue) : M JSValue :=
  if String.eqb eventType "conversation.created" then
    method this "handleConversationCreated" (handleConversationCreated payload)
  else if String.eqb eventType "conversation.updated" then
    method this "handleConversationUpdated" (handleConversationUpdated payload)
  else if String.eqb eventType "message.created" then
    method this "handleMessageCreated" (handleMessageCreated this payload)
  else if String.eqb eventType "message.updated" then
    method this "handleMessageUpdated" (handleMessageUpdated payload)
  else ret (JObj [("status", JStr "ignored"); ("eventType", JStr eventType)]).

(** [logger.logWebhook(eventType, payload, ...)] ([src/services/logger.js]):
    the helper logs [JSON.stringify(payload).length], which is the TypeError
    of reading a property of [undefined] when the payload is [undefined]. *)
Definition logWebhook (payload : JSValue) : M unit :=
  match JS.stringify payload with
  | Some _ => ret tt
  | None => throw "Cannot read properties of undefined (reading 'length')"
  end.

(** Main webhook endpoint for ChatGPT events *)
Definition handleChatGPTWebhook (this : This) (now_ms : Z) (req : Request)
  : Store -> Response * Store :=
  fun st =>
    let payload := body req in
    let eventType := event_type req in
    let caught (msg : string) (st' : Store) :=
      ({| status := 500;
          json := JObj [("error", JStr "Internal server error");
                        ("message", JStr msg);
                        ("timestamp", JStr (Clock.toISOString now_ms))] |},
       st') in
    match logWebhook payload st with
    | (Throw msg, st') => caught msg st'
    | (Ok _, st0) =>
        match validateWebhookPayload payload with
        | Invalid errors =>
            ({| status := 400;
                json := JObj [("error", JStr "Invalid payload");
                              ("details", details errors)] |},
             st0)
        | Valid =>
            match dispatch this eventType payload st0 with
            | (Ok result, st') =>
                ({| status := 200;
                    json := JObj [("status", JStr "success");
                                  ("eventType", JStr eventType);
                                  ("result", result);
                                  ("timestamp", JStr (Clock.toISOString now_ms))] |},
                 st')
            | (Throw msg, st') => caught msg st'
            end
        end
    end.

End WebhookController.

(** ** The route ([src/routes/webhook.js])

    [router.post('/webhook/chatgpt', webhookRateLimit, validateWebhookSignature,
    webhookController.handleChatGPTWebhook)]: the handler is handed over as a
    function value and the router calls it without a receiver.  The rate
    limiter is left out. *)
Definition post_webhook_chatgpt (webhookSecret : string) (now_ms : Z) (req : Request)
  : Store -> Response * Store :=
  fun st =>
    match validateWebhookSignature webhookSecret now_ms req with
    | Respond r => (r, st)
    | Next =>
        WebhookController.handleChatGPTWebhook WebhookController.ThisUndefined now_ms req st
    end.

(** ** [ChatBETODatabaseService.insertMessage] ([src/services/chatbeto-database.js]) *)

Module ChatBETODatabaseService.

(** A row of [messages] as this service writes it. *)
Record Row := {
  conversation_id : SqlValue;
  role : SqlValue;
  content : SqlValue;
  content_type : SqlValue;
  author_name : SqlValue;
  parent_message_id : SqlValue;
  created_at_timestamp_ms : option Z;
  created_at : Z;
  status : SqlValue;
  updated_at : option Z
}.

(** The table under its key [id], and the keys of the INSERT statements that
    [pool.execute] has run, the latest first. *)
Record Pool := {
  rows : gmap string Row;
  executed : list string
}.

(** What the call reads besides its arguments: [uuidv4()], [Date.now()] and
    the server's [NOW()]. *)
Record Env := {
  uuid : string;
  now_ms : Z;
  db_now : Z
}.

Definition roles : list string := ["user"; "assistant"; "system"; "tool"].

(** The letter i with an acute accent, in the messages of the service. *)
Definition i_acute : ascii := "237"%char.

Definition is_string (v : JSValue) : bool :=
  match v with JStr _ => true | _ => false end.

(** [['user', 'assistant', 'system', 'tool'].includes(role)] *)
Definition includes (l : list string) (v : JSValue) : bool :=
  match v with
  | JStr s => existsb (String.eqb s) l
  | _ => false
  end.

(** The statement: INSERT ... ON DUPLICATE KEY UPDATE role, content,
    content_type, author_name, updated_at = NOW(). *)
Definition execute (env : Env) (id : string) (fresh : Row) (pool : Pool) : Pool :=
  let row :=
    match rows pool !! id with
    | Some old =>
        {| conversation_id := conversation_id old;
           role := role fresh; content := content fresh;
           content_type := content_type fresh; author_name := author_name fresh;
           parent_message_id := parent_message_id old;
           created_at_timestamp_ms := created_at_timestamp_ms old;
           created_at := created_at old; status := status old;
           updated_at := Some (db_now env) |}
    | None => fresh
    end in
  {| rows := <[id := row]> (rows pool); executed := id :: executed pool |}.

Definition wrap {A} (o : outcome A) : outcome A :=
  match o with
  | Ok a => Ok a
  | Throw msg => Throw ("Error al insertar mensaje: " +:+ msg)
  end.

(** The body of the [try] block.  Of the object returned, the two fields
    copied from the driver's result ([affectedRows], [insertId]) are left out. *)
Definition insert_checked (env : Env) (conversationId role content : JSValue)
  (cleanContent : string) (options : JSValue) (pool : Pool) : outcome JSValue * Pool :=
  match JS.get "id" options with
  | None => (Throw "Cannot read properties of null (reading 'id')", pool)
  | Some id =>
      let messageId := JS.or id (JStr (uuid env)) in
      let createTime := JS.get_opt "createTime" options in
      let authorName := JS.or (JS.get_opt "authorName" options) JNull in
      let parentMessageId := JS.or (JS.get_opt "parentMessageId" options) JNull in
      let created :=
        if JS.truthy createTime
        then option_map (fun n => n * 1000)%Z (WebhookController.to_number createTime)
        else Some (now_ms env) in
      let bound :=
        match bind_param messageId, bind_param conversationId, bind_param role,
              bind_param (JS.or (JS.get_opt "contentType" options) (JStr "text")),
              bind_param authorName, bind_param parentMessageId with
        | Ok k0, Ok c, Ok r, Ok ct, Ok au, Ok pm =>
            match key_text "id" k0 with
            | Ok k =>
                Ok (k, {| conversation_id := c; role := r; content := SqlText cleanContent;
                          content_type := ct; author_name := au; parent_message_id := pm;
                          created_at_timestamp_ms := created; created_at := db_now env;
                          status := SqlText "finished_successfully";
                          updated_at := None |})
            | Throw e => Throw e
            end
        | Throw e, _, _, _, _, _ | _, Throw e, _, _, _, _ | _, _, Throw e, _, _, _
        | _, _, _, Throw e, _, _ | _, _, _, _, Throw e, _ | _, _, _, _, _, Throw e => Throw e
        end in
      match bound with
      | Ok (k, row) =>
          (Ok (JObj [("success", JBool true); ("messageId", messageId);
                     ("conversationId", conversationId)]),
           execute env k row pool)
      | Throw e => (Throw e, pool)
      end
  end.

Definition insertMessage (env : Env) (conversationId role content options : JSValue)
  (pool : Pool) : outcome JSValue * Pool :=
  (* Validaciones de entrada *)
  if negb (JS.truthy conversationId) || negb (is_string conversationId) then
    (Throw "conversationId es requerido y debe ser un string", pool)
  else if negb (JS.truthy role) || negb (includes roles role) then
    (Throw "role debe ser uno de: user, assistant, system, tool", pool)
  else if negb (JS.truthy content) || negb (is_string content) then
    (Throw ("content es requerido y debe ser un string no vac" +:+ String i_acute "o"), pool)
  else
    (* Limpiar contenido *)
    let cleanContent := match content with JStr s => JS.trim s | _ => "" end in
    if (String.length cleanContent =? 0)%nat then
      (Throw ("El contenido del mensaje no puede estar vac" +:+ String i_acute "o"), pool)
    else
      let options := match options with JUndefined => JObj [] | o => o end in
      let '(o, pool') :=
        insert_checked env conversationId role content cleanContent options pool in
      (wrap o, pool').

End ChatBETODatabaseService.

(** ** Sample requests

    The envelope of the end-to-end scenario, once as a sender formats it
    (a space after each colon and comma of the outer objects) and once as
    [JSON.stringify] prints it. *)

Module Sample.

Definition secret : string := "test-webhook-secret".
Definition timestamp : string := "1700000000".

Definition member (k v : string) : string := quoted k +:+ ":" +:+ v.

Definition message_text : string :=
  "{" +:+ member "id" (quoted "m1") +:+ "," +:+ member "conversation_id" (quoted "c1")
      +:+ "," +:+ member "role" (quoted "user") +:+ "," +:+ member "content" (quoted "hi")
      +:+ "," +:+ member "create_time" "1700000000" +:+ "}".

Definition conversation_text : string :=
  "{" +:+ member "id" (quoted "c1") +:+ "," +:+ member "title" (quoted "T")
      +:+ "," +:+ member "create_time" "1700000000"
      +:+ "," +:+ member "update_time" "1700000000" +:+ "}".

(** The body as sent: white space between the tokens of the envelope. *)
Definition raw : string :=
  "{ " +:+ quoted "message" +:+ ": " +:+ message_text +:+ ", "
       +:+ quoted "conversation" +:+ ": " +:+ conversation_text +:+ " }".

(** The same envelope with no white space. *)
Definition compact : string :=
  "{" +:+ member "message" message_text +:+ ","
      +:+ member "conversation" conversation_text +:+ "}".

Definition message : JSValue :=
  JObj [("id", JStr "m1"); ("conversation_id", JStr "c1"); ("role", JStr "user");
        ("content", JStr "hi"); ("create_time", JNum 1700000000)].

Definition conversation : JSValue :=
  JObj [("id", JStr "c1"); ("title", JStr "T");
        ("create_time", JNum 1700000000); ("update_time", JNum 1700000000)].

Definition envelope : JSValue :=
  JObj [("message", message); ("conversation", conversation)].

(** The signature a sender computes over the text it sends. *)
Definition sign (text : string) : string :=
  "sha256=" +:+ hmac_sha256_hex secret (timestamp +:+ "." +:+ text).

Definition headers_with (signature eventType : string) : gmap string string :=
  <["x-webhook-signature" := signature]>
    (<["x-webhook-timestamp" := timestamp]> (<["x-event-type" := eventType]> ∅)).

Definition request (signature eventType rawText : string) (parsed : JSValue) : Request :=
  {| headers := headers_with signature eventType; rawBody := rawText; body := parsed |}.

(** Ten seconds after the signed timestamp. *)
Definition now_ms : Z := 1700000010000.

(** A message event whose message names another conversation than the one
    embedded with it. *)
Definition message_elsewhere : JSValue :=
  JObj [("id", JStr "m1"); ("conversation_id", JStr "c2"); ("role", JStr "user");
        ("content", JStr "hi"); ("create_time", JNum 1700000000)].

Definition envelope_elsewhere : JSValue :=
  JObj [("message", message_elsewhere); ("conversation", conversation)].

(** A message with no content. *)
Definition message_without_content : JSValue :=
  JObj [("id", JStr "m2"); ("conversation_id", JStr "c1"); ("role", JStr "assistant");
        ("create_time", JNum 1700000000)].

Definition envelope_without_content : JSValue :=
  JObj [("message", message_without_content)].


End Sample.

(** Two deliveries of one message record, the second with later values. *)
Module Redelivery.
Import DatabaseService.

Definition first : messageData :=
  {| m_id := JStr "m1"; m_conversation_id := JStr "c1"; m_role := JStr "user";
     m_content := JStr (quoted "hi"); m_parts := JNull;
     m_create_time := Some 1700000000000%Z;
     m_parent := JNull; m_children := JNull; m_author_name := JNull |}.

Definition second : messageData :=
  {| m_id := JStr "m1"; m_conversation_id := JStr "c1"; m_role := JStr "assistant";
     m_content := JStr (quoted "hello"); m_parts := JNull;
     m_create_time := Some 1700000060000%Z;
     m_parent := JNull; m_children := JNull; m_author_name := JStr "Beto" |}.

End Redelivery.

(** ** Vocabulary of the statements *)

(** The three answers of the verifier after the header test. *)
Definition too_old_response : Response :=
  {| status := 401; json := error_body "Request too old" |}.
Definition invalid_signature_response : Response :=
  {| status := 401; json := error_body "Invalid signature" |}.
Definition validation_failed_response : Response :=
  {| status := 500; json := error_body "Signature validation failed" |}.

Ltac responses :=
  unfold too_old_response, invalid_signature_response, validation_failed_response,
         error_body.

Definition byte (b : Z) : Prop := (0 <= b < 256)%Z.

(** A parameter binds unless it is [undefined]. *)
Definition defined (v : JSValue) : Prop := v <> JUndefined.

(** The fields of a message record that the statement binds, all defined. *)
Definition bindable (d : DatabaseService.messageData) : Prop :=
  defined (DatabaseService.m_conversation_id d) /\ defined (DatabaseService.m_role d)
  /\ defined (DatabaseService.m_content d) /\ defined (DatabaseService.m_parts d)
  /\ defined (DatabaseService.m_parent d) /\ defined (DatabaseService.m_children d)
  /\ defined (DatabaseService.m_author_name d).

(** The row that the message statement leaves under the key. *)
Definition upserted (old : option MessageRow) (c r co pa : SqlValue) (t : Date)
  (pt ch au : SqlValue) : MessageRow :=
  {| msg_conversation_id := match old with Some o => msg_conversation_id o | None => c end;
     msg_role := r; msg_content := co; msg_parts := pa; msg_create_time := t;
     msg_parent := pt; msg_children := ch; msg_author_name := au |}.

(** What a defined parameter is bound to. *)
Definition sql_of (v : JSValue) : SqlValue :=
  match bind_param v with
  | Ok x => x
  | Throw _ => SqlNull
  end.

(** The row that [handleConversationCreated] inserts for an embedded
    conversation with the given fields, with no project. *)
Definition created_conversation (cf : list (string * JSValue)) : ConversationRow :=
  {| conv_title := sql_of (JS.or (JS.assoc "title" cf) (JStr "Untitled"));
     conv_model := sql_of (JS.or (JS.assoc "model" cf) (JStr "gpt-4"));
     conv_create_time := WebhookController.date_of_seconds (JS.assoc "create_time" cf);
     conv_update_time := WebhookController.date_of_seconds (JS.assoc "update_time" cf);
     conv_project_id := SqlNull;
     conv_openai_thread_id := sql_of (JS.or (JS.assoc "openai_thread_id" cf) JNull) |}.

(** The row that the message handlers leave for a message with the given
    fields, conversation and role. *)
Definition stored_message (old : option MessageRow) (mf : list (string * JSValue))
  (cid r : string) : MessageRow :=
  upserted old (SqlText cid) (SqlText r)
    (sql_of (WebhookController.stringify_or_null (JS.assoc "content" mf)))
    (sql_of (WebhookController.stringify_or_null (JS.assoc "parts" mf)))
    (WebhookController.date_of_seconds (JS.assoc "create_time" mf))
    (sql_of (JS.or (JS.assoc "parent" mf) JNull))
    (sql_of (WebhookController.stringify_or_null (JS.assoc "children" mf)))
    (sql_of (JS.or (JS.get_opt "name" (JS.assoc "author" mf)) JNull)).



(** The 200 of a handled event. *)
Definition success_response (now_ms : Z) (eventType : string) (result : JSValue) : Response :=
  {| status := 200;
     json := JObj [("status", JStr "success");
                   ("eventType", JStr eventType);
                   ("result", result);
                   ("timestamp", JStr (Clock.toISOString now_ms))] |}.

(** What the validator guarantees of a message and of a conversation. *)
Definition valid_message (m : JSValue) (mf : list (string * JSValue)) (mid cid r : string)
  : Prop :=
  m = JObj mf
  /\ JS.assoc "id" mf = JStr mid /\ mid <> ""
  /\ JS.assoc "conversation_id" mf = JStr cid /\ cid <> ""
  /\ JS.assoc "role" mf = JStr r /\ In r ["user"; "assistant"; "system"].

Definition valid_conversation (c : JSValue) (cf : list (string * JSValue)) (id : string)
  : Prop :=
  c = JObj cf /\ JS.assoc "id" cf = JStr id /\ id <> "".




(** The content of a message that the validator accepts: absent, null, text
    that is not empty, an object or an array. *)
Definition accepted_content (v : JSValue) : Prop :=
  v = JUndefined \/ v = JNull \/ (exists s, v = JStr s /\ s <> "")
  \/ (exists l, v = JObj l) \/ (exists l, v = JArr l).

(** The closed set of roles of the data model. *)
Definition closed_roles : list string := ["user"; "assistant"; "system"; "tool"].

(** Stored content that is text, and not the empty text. *)
Definition nonempty_text (v : SqlValue) : Prop := exists s, v = SqlText s /\ s <> "".

(** The conversations after a message handler has made sure that the
    embedded conversation exists. *)
Definition ensured_conversations (conversation : JSValue)
  (convs : gmap string ConversationRow) : gmap string ConversationRow :=
  match conversation with
  | JObj cf =>
      match JS.assoc "id" cf with
      | JStr id =>
          match convs !! id with
          | Some _ => convs
          | None => <[id := created_conversation cf]> convs
          end
      | _ => convs
      end
  | _ => convs
  end.

(** ** Further vocabulary: the verifier *)

Definition missing_credentials_response : Response :=
  {| status := 401; json := error_body "Missing signature or timestamp" |}.

(** Every number in a value is a safe integer ([Number.isSafeInteger]), so
    that [JSON.stringify] prints it with all its digits. *)
Fixpoint safe_numbers (v : JSValue) : bool :=
  match v with
  | JNum n => (Z.abs n <=? Joi.max_safe)%Z
  | JArr items => forallb safe_numbers items
  | JObj fields => forallb (fun '(_, x) => safe_numbers x) fields
  | _ => true
  end.

(** A hexadecimal digit, of either case. *)
Definition hex_char (c : ascii) : Prop := JS.digit_value 16 c <> None.

(** ** The access guard ([validateApiKey] in [src/middleware/auth.js]) *)

(** [s.includes(pat)] *)
Fixpoint occurs (pat s : string) : bool :=
  match JS.strip_prefix pat s with
  | Some _ => true
  | None =>
      match s with
      | String _ s' => occurs pat s'
      | EmptyString => false
      end
  end.

(** [req.headers['x-api-key'] || req.headers['authorization']] *)
Definition supplied_api_key (req : Request) : option string :=
  match header_value "x-api-key" req with
  | Some k => Some k
  | None => header_value "authorization" req
  end.

(** [apiKey.replace('Bearer ', '').replace('ApiKey ', '')] *)
Definition cleanApiKey (apiKey : string) : string :=
  JS.replace "ApiKey " "" (JS.replace "Bearer " "" apiKey).

(** Validate API key for internal endpoints; [apiKey] is
    [config.security.apiKey]. *)
Definition validateApiKey (apiKey : string) (req : Request) : Handled :=
  match supplied_api_key req with
  | None => Respond {| status := 401; json := error_body "Missing API key" |}
  | Some supplied =>
      if String.eqb (cleanApiKey supplied) apiKey then Next
      else Respond {| status := 401; json := error_body "Invalid API key" |}
  end.

Definition missing_api_key_response : Response :=
  {| status := 401; json := error_body "Missing API key" |}.
Definition invalid_api_key_response : Response :=
  {| status := 401; json := error_body "Invalid API key" |}.

(** ** [getValidationSummary] ([src/utils/validation.js]) *)

Module Summary.

(** The result of a validator: [isValid], and [errors] when it has them. *)
Record result (E : Type) := {
  r_isValid : bool;
  r_errors : option (list E)
}.
Arguments r_isValid {E} r.
Arguments r_errors {E} r.

Record summary (E : Type) := {
  isValid : bool;
  totalValidations : nat;
  failedValidations : nat;
  errors : list E
}.
Arguments isValid {E} s.
Arguments totalValidations {E} s.
Arguments failedValidations {E} s.
Arguments errors {E} s.

(** [validations.filter(v => !v.isValid)] *)
Definition failed {E} (validations : list (result E)) : list (result E) :=
  List.filter (fun v => negb (r_isValid v)) validations.

(** Generate validation summary *)
Definition getValidationSummary {E} (validations : list (result E)) : summary E :=
  {| isValid := Nat.eqb (length (failed validations)) 0;
     totalValidations := length validations;
     failedValidations := length (failed validations);
     errors :=
       List.flat_map (fun v => match r_errors v with Some es => es | None => [] end)
                     (failed validations) |}.

End Summary.

(** ** Further vocabulary: the store *)

(** Two stores with the same rows in the three tables. *)
Definition same_tables (a b : Store) : Prop :=
  conversations a = conversations b /\ messages a = messages b /\ projects a = projects b.

(** The fields of a conversation record and of a project record that the
    statements bind, all defined. *)
Definition bindable_conversation (d : DatabaseService.conversationData) : Prop :=
  defined (DatabaseService.title d) /\ defined (DatabaseService.model d)
  /\ defined (DatabaseService.project_id d) /\ defined (DatabaseService.openai_thread_id d).

Definition bindable_project (d : DatabaseService.projectData) : Prop :=
  defined (DatabaseService.p_description d) /\ defined (DatabaseService.p_chatgpt_project_id d).

(** [is_starred = false] in the destructuring of [createProject]. *)
Definition starred_or_default (d : DatabaseService.projectData) : JSValue :=
  match DatabaseService.p_is_starred d with
  | JUndefined => JBool false
  | x => x
  end.

(** ** Manual sync ([manualSync] in [src/controllers/webhook.js]) *)

(** [const { type, data } = req.body]: the TypeError on [undefined] and
    [null]. *)
Definition destructure_body (b : JSValue) : M unit :=
  match b with
  | JUndefined | JNull =>
      throw ("Cannot destructure property 'type' of 'req.body' as it is "
             +:+ match b with JNull => "null" | _ => "undefined" end +:+ ".")
  | _ => ret tt
  end.

(** The [switch] on the sync type; [None] is the default arm. *)
Definition sync_switch (this : WebhookController.This) (type data : JSValue)
  : M (option JSValue) :=
  match type with
  | JStr t =>
      if String.eqb t "conversation" then
        do result <- WebhookController.method this "handleConversationCreated"
                       (WebhookController.handleConversationCreated data);
        ret (Some result)
      else if String.eqb t "message" then
        do result <- WebhookController.method this "handleMessageCreated"
                       (WebhookController.handleMessageCreated this data);
        ret (Some result)
      else ret None
  | _ => ret None
  end.

(** Manual sync endpoint *)
Definition manualSync (this : WebhookController.This) (now_ms : Z) (req : Request)
  : Store -> Response * Store :=
  fun st =>
    let type := JS.get_opt "type" (body req) in
    let data := JS.get_opt "data" (body req) in
    match (run destructure_body (body req); sync_switch this type data) st with
    | (Ok (Some result), st') =>
        ({| status := 200;
            json := JObj [("status", JStr "success");
                          ("result", result);
                          ("timestamp", JStr (Clock.toISOString now_ms))] |},
         st')
    | (Ok None, st') =>
        ({| status := 400; json := error_body "Invalid sync type" |}, st')
    | (Throw msg, st') =>
        ({| status := 500;
            json := JObj [("error", JStr "Sync failed"); ("message", JStr msg)] |},
         st')
    end.

(** [router.post('/sync/manual', manualRateLimit, validateApiKey,
    webhookController.manualSync)], the rate limit apart: the method is passed
    as a plain function. *)
Definition post_sync_manual (apiKey : string) (now_ms : Z) (req : Request)
  : Store -> Response * Store :=
  fun st =>
    match validateApiKey apiKey req with
    | Respond r => (r, st)
    | Next => manualSync WebhookController.ThisUndefined now_ms req st
    end.

(** ** Further vocabulary: the controller *)





(** The project row that [handleConversationCreated] creates. *)
Definition created_project (pf : list (string * JSValue)) : ProjectRow :=
  {| proj_description := sql_of (JS.or (JS.assoc "description" pf) (JStr ""));
     proj_is_starred := SqlBool false;
     proj_chatgpt_project_id := sql_of (JS.assoc "id" pf) |}.

(** ** Further vocabulary: the messages service *)

(** The row that [ChatBETODatabaseService.insertMessage] binds for a new id. *)
Definition chatbeto_fresh (env : ChatBETODatabaseService.Env) (c r s : string)
  (options : list (string * JSValue)) : ChatBETODatabaseService.Row :=
  {| ChatBETODatabaseService.conversation_id := SqlText c;
     ChatBETODatabaseService.role := SqlText r;
     ChatBETODatabaseService.content := SqlText (JS.trim s);
     ChatBETODatabaseService.content_type :=
       sql_of (JS.or (JS.assoc "contentType" options) (JStr "text"));
     ChatBETODatabaseService.author_name :=
       sql_of (JS.or (JS.assoc "authorName" options) JNull);
     ChatBETODatabaseService.parent_message_id :=
       sql_of (JS.or (JS.assoc "parentMessageId" options) JNull);
     ChatBETODatabaseService.created_at_timestamp_ms :=
       if JS.truthy (JS.assoc "createTime" options)
       then option_map (fun n => n * 1000)%Z
              (WebhookController.to_number (JS.assoc "createTime" options))
       else Some (ChatBETODatabaseService.now_ms env);
     ChatBETODatabaseService.created_at := ChatBETODatabaseService.db_now env;
     ChatBETODatabaseService.status := SqlText "finished_successfully";
     ChatBETODatabaseService.updated_at := None |}.

(** The object that [insertMessage] returns. *)
Definition chatbeto_inserted (k c : string) : JSValue :=
  JObj [("success", JBool true); ("messageId", JStr k); ("conversationId", JStr c)].

(** ** The report of messages ([src/services/chatbeto-database.js]) *)

Module Report.

Definition LF : ascii := "010"%char.
Definition CR : ascii := "013"%char.

(** The text of a template literal that spans several lines. *)
Fixpoint lines (l : list string) : string :=
  match l with
  | [] => EmptyString
  | [x] => x
  | x :: rest => x +:+ String LF (lines rest)
  end.

(** The text that [sql] starts as, by lines. *)
Definition select_lines : list string := [
    "";
    "        SELECT ";
    "          -- Datos del mensaje (contenido real, NO t" +:+ (String "237"%char "tulo)");
    "          m.id as message_id,";
    "          m.role as message_role,";
    "          m.content as message_content,  -- CONTENIDO REAL del mensaje";
    "          m.created_at as message_created_at,";
    "          m.created_at_timestamp_ms as message_timestamp,";
    "          ";
    "          -- Datos de la conversaci" +:+ (String "243"%char "n (t" +:+ (String "237"%char "tulo, NO contenido)"));
    "          c.id as conversation_id,";
    "          c.title as conversation_title,      -- T" +:+ (String "205"%char "TULO de la conversaci" +:+ (String "243"%char "n"));
    "          c.created_at as conversation_created_at,";
    "          ";
    "          -- Datos del proyecto";
    "          p.id as project_id,";
    "          p.name as project_name";
    "          ";
    "        FROM messages m";
    "        INNER JOIN conversations c ON m.conversation_id = c.id";
    "        LEFT JOIN projects p ON c.project_id = p.id";
    "        WHERE 1=1";
    "          AND m.content IS NOT NULL ";
    "          AND m.content != ''";
    "          AND m.content NOT LIKE '%[object Object]%'";
    "          AND LENGTH(TRIM(m.content)) > 3";
    "          AND m.role IN ('user', 'assistant', 'system')";
    "      " ].

(** The condition of the search filter, by lines. *)
Definition search_lines : list string := [
    " AND (";
    "          m.content LIKE ? OR ";
    "          c.title LIKE ? OR";
    "          p.name LIKE ?";
    "        )" ].

(** The end of the statement, by lines. *)
Definition order_lines : list string := [
    " ";
    "        ORDER BY ";
    "          COALESCE(m.created_at_timestamp_ms, UNIX_TIMESTAMP(m.created_at)*1000) DESC,";
    "          m.created_at DESC";
    "        LIMIT ?";
    "      " ].

(** [sql] and [params], which the filters extend together. *)
Record Query := {
  sql : string;
  params : list JSValue
}.

(** [sql += fragment; params.push(...values)] *)
Definition extend (fragment : string) (values : list JSValue) (q : Query) : Query :=
  {| sql := sql q +:+ fragment; params := (params q ++ values)%list |}.

(** [filters.searchQuery && filters.searchQuery.trim().length > 0]: the text
    to search for, if any; a search query that is truthy and has no [trim]
    is a TypeError. *)
Definition search_text (searchQuery : JSValue) : outcome (option string) :=
  if JS.truthy searchQuery then
    match searchQuery with
    | JStr q => Ok (if (0 <? String.length (JS.trim q))%nat then Some (JS.trim q) else None)
    | _ => Throw "filters.searchQuery.trim is not a function"
    end
  else Ok None.

(** The statement and the parameters that [getMessagesForReport] hands to
    [pool.execute], or the error thrown before the call (which the [catch]
    rethrows under its own heading). *)
Definition getMessagesForReport_query (projectId filters : JSValue) : outcome Query :=
  let projectId := match projectId with JUndefined => JNull | p => p end in
  let filters := match filters with JUndefined => JObj [] | f => f end in
  let q := {| sql := lines select_lines; params := [] |} in
  (* Filtro por proyecto si se especifica *)
  let q :=
    match projectId with
    | JNum n => if JS.truthy projectId then extend " AND c.project_id = ?" [projectId] q else q
    | _ => q
    end in
  (* Filtros adicionales *)
  match JS.get "searchQuery" filters with
  | None => Throw "Cannot read properties of null (reading 'searchQuery')"
  | Some searchQuery =>
      match search_text searchQuery with
      | Throw e => Throw e
      | Ok found =>
          let q :=
            match found with
            | Some text =>
                let searchPattern := JStr ("%" +:+ text +:+ "%") in
                extend (lines search_lines) [searchPattern; searchPattern; searchPattern] q
            | None => q
            end in
          let messageRole := JS.get_opt "messageRole" filters in
          let q :=
            if JS.truthy messageRole
               && ChatBETODatabaseService.includes ["user"; "assistant"; "system"] messageRole
            then extend " AND m.role = ?" [messageRole] q else q in
          let dateFrom := JS.get_opt "dateFrom" filters in
          let q := if JS.truthy dateFrom then extend " AND m.created_at >= ?" [dateFrom] q
                   else q in
          let dateTo := JS.get_opt "dateTo" filters in
          let q := if JS.truthy dateTo then extend " AND m.created_at <= ?" [dateTo] q
                   else q in
          Ok (extend (lines order_lines) [JS.or (JS.get_opt "limit" filters) (JNum 100)] q)
      end
  end.

(** [/[\x00-\x1F\x7F]/] *)
Definition is_control (ch : ascii) : bool :=
  ((code ch <=? 31) || (code ch =? 127))%Z.

(** [s.replace(/[\x00-\x1F\x7F]/g, '')] *)
Fixpoint remove_controls (s : string) : string :=
  match s with
  | EmptyString => EmptyString
  | String ch rest =>
      if is_control ch then remove_controls rest else String ch (remove_controls rest)
  end.

(** [s.replace(/\r\n/g, '\n')] *)
Fixpoint crlf_to_lf (s : string) : string :=
  match s with
  | String a (String b rest as tail) =>
      if Ascii.eqb a CR && Ascii.eqb b LF then String LF (crlf_to_lf rest)
      else String a (crlf_to_lf tail)
  | String a EmptyString => String a EmptyString
  | EmptyString => EmptyString
  end.

(** [s.replace(/\r/g, '\n')] *)
Fixpoint cr_to_lf (s : string) : string :=
  match s with
  | EmptyString => EmptyString
  | String ch rest => String (if Ascii.eqb ch CR then LF else ch) (cr_to_lf rest)
  end.

(** [buf.toString('utf8')] on the bytes of a text of code units below 256: a
    byte below 128 stands for itself, and a lead byte takes one continuation
    byte. *)
Fixpoint utf8_toString (bs : list Z) : string :=
  match bs with
  | [] => EmptyString
  | b :: rest =>
      if (b <? 128)%Z then String (ascii_of_nat (Z.to_nat b)) (utf8_toString rest)
      else
        match rest with
        | b2 :: rest' =>
            String (ascii_of_nat
                      (Z.to_nat (Z.lor (Z.shiftl (Z.land b 31) 6) (Z.land b2 63))))
                   (utf8_toString rest')
        | [] => EmptyString
        end
  end.

(** The content of a message as the report shows it; [content] is the text
    of the column, and the empty text is what [!content] catches. *)
Definition cleanMessageContent (content : string) : string :=
  if String.eqb content "" then ""
  else
    (* Limpiar caracteres de control y asegurar UTF-8 *)
    let cleaned := cr_to_lf (crlf_to_lf (remove_controls (JS.trim content))) in
    utf8_toString (utf8 cleaned).

(** [new Date(value).toISOString()]: the RangeError of a time outside the
    range of [Date]. *)
Definition iso (value : Date) : outcome string :=
  match value with
  | Some ms =>
      if (Z.abs ms <=? 8640000000000000)%Z then Ok (Clock.toISOString ms)
      else Throw "Invalid time value"
  | None => Throw "Invalid time value"
  end.

(** The date of a message as the report shows it.  [createdAt] is the
    [Date] that the driver returns for the column, if it is not null;
    [now_ms] is the clock. *)
Definition formatMessageDate (now_ms : Z) (createdAt : option Date) (createTime : JSValue)
  : string :=
  let from_created_at :=
    match createdAt with
    | Some d => iso d
    | None => Ok (Clock.toISOString now_ms)
    end in
  let attempt :=
    match createTime with
    | JNum t =>
        if JS.truthy createTime then
          let tsMs := if (1000000000000 <? t)%Z then t else (t * 1000)%Z in
          iso (Some tsMs)
        else from_created_at
    | _ => from_created_at
    end in
  match attempt with
  | Ok text => text
  | Throw _ => Clock.toISOString now_ms
  end.

(** The number that the driver returns for the column
    [created_at_timestamp_ms] of a row. *)
Definition timestamp_column (row : ChatBETODatabaseService.Row) : JSValue :=
  match ChatBETODatabaseService.created_at_timestamp_ms row with
  | Some n => JNum n
  | None => JNull
  end.

(** The occurrences of a character in a text. *)
Fixpoint count (ch : ascii) (s : string) : nat :=
  match s with
  | EmptyString => 0
  | String a rest => (if Ascii.eqb a ch then 1 else 0) + count ch rest
  end.

(** The statement has a placeholder for every parameter, the parameters are
    all defined, and there are at most [n] of them. *)
Definition prepared (n : nat) (q : Query) : Prop :=
  count "?" (sql q) = length (params q)
  /\ Forall defined (params q)
  /\ (length (params q) <= n)%nat.

End Report.

(** * Properties *)

(** ** The built-ins on known values *)

Example sha256_constants :
  List.firstn 2 SHA256.K = [1116352408; 1899447441]%Z
  /\ List.last SHA256.K 0%Z = 3329325298%Z
  /\ List.firstn 2 SHA256.H0 = [1779033703; 3144134277]%Z
  /\ length SHA256.K = 64%nat.
Proof. vm_compute. repeat split. Qed.

Example sha256_abc :
  hex_of_bytes (SHA256.sha256 (utf8 "abc"))
  = "ba7816bf8f01cfea414140de5dae2223b00361a396177a9cb410ff61f20015ad"%string.
Proof. vm_compute. reflexivity. Qed.

Example hmac_fox :
  hmac_sha256_hex "key" "The quick brown fox jumps over the lazy dog"
  = "f7bc83f430538424b13298e6aa6fb143ef4d59a14946175997479dbc2d1a3cd8"%string.
Proof. vm_compute. reflexivity. Qed.

Example stringify_obj :
  JS.stringify (JObj [("a", JNum 1); ("b", JArr [JStr "x"; JNull; JNum (-20)])])
  = Some ("{" +:+ quoted "a" +:+ ":1," +:+ quoted "b" +:+ ":[" +:+ quoted "x" +:+ ",null,-20]}").
Proof. vm_compute. reflexivity. Qed.

Example parseInt_examples :
  JS.parseInt "1700000000" = Some 1700000000%Z /\ JS.parseInt " -12abc" = Some (-12)%Z
  /\ JS.parseInt "0x1f" = Some 31%Z /\ JS.parseInt "abc" = None /\ JS.parseInt "" = None.
Proof. vm_compute. repeat split. Qed.

Example replace_first :
  JS.replace "sha256=" "" "sha256=ab" = "ab" /\ JS.replace "sha256=" "" "ab" = "ab"
  /\ JS.replace "a" "" "banana" = "bnana".
Proof. vm_compute. repeat split. Qed.

Example trim_example : JS.trim "  a b  " = "a b" /\ JS.trim "   " = "".
Proof. vm_compute. split; reflexivity. Qed.

Example parse_spaced :
  Parser.express_json ("{ " +:+ quoted "b" +:+ " : [1, true], " +:+ quoted "a" +:+ ": "
                       +:+ quoted "x" +:+ " }")
  = Some (JObj [("b", JArr [JNum 1; JBool true]); ("a", JStr "x")]).
Proof. vm_compute. reflexivity. Qed.

Example parse_reorders_indices :
  Parser.express_json ("{" +:+ quoted "b" +:+ ":1," +:+ quoted "2" +:+ ":2,"
                       +:+ quoted "1" +:+ ":3," +:+ quoted "b" +:+ ":4}")
  = Some (JObj [("1", JNum 3); ("2", JNum 2); ("b", JNum 4)]).
Proof. vm_compute. reflexivity. Qed.

Example iso_example :
  Clock.toISOString 1700000000123 = "2023-11-14T22:13:20.123Z"
  /\ Clock.toISOString 951782400000 = "2000-02-29T00:00:00.000Z"
  /\ Clock.toISOString (-1) = "1969-12-31T23:59:59.999Z".
Proof. vm_compute. repeat split. Qed.

(** ** The validator and the route on known payloads *)

Example validate_envelope : validateWebhookPayload Sample.envelope = Valid.
Proof. vm_compute. reflexivity. Qed.

Example validate_role_tool :
  validateWebhookPayload
    (JObj [("message",
            JObj [("id", JStr "m1"); ("conversation_id", JStr "c1"); ("role", JStr "tool");
                  ("create_time", JNum 1700000000)])])
  = Invalid [("message.role",
              quoted "message.role" +:+ " must be one of [user, assistant, system]")].
Proof. vm_compute. reflexivity. Qed.

Example validate_empty_object :
  validateWebhookPayload (JObj [])
  = Invalid [("conversation", quoted "conversation" +:+ " is required")].
Proof. vm_compute. reflexivity. Qed.

Example validate_empty_content :
  validateWebhookPayload
    (JObj [("message",
            JObj [("id", JStr "m1"); ("conversation_id", JStr "c1"); ("role", JStr "user");
                  ("content", JStr ""); ("create_time", JNum 1700000000)])])
  = Invalid [("message.content",
              quoted "message.content" +:+ " is not allowed to be empty")].
Proof. vm_compute. reflexivity. Qed.

Example route_without_receiver :
  fst (post_webhook_chatgpt Sample.secret Sample.now_ms
         (Sample.request (Sample.sign Sample.compact) "message.created"
                         Sample.compact Sample.envelope) empty_store)
  = {| status := 500;
       json := JObj [("error", JStr "Internal server error");
                     ("message",
                      JStr "Cannot read properties of undefined (reading 'handleMessageCreated')");
                     ("timestamp", JStr "2023-11-14T22:13:30.000Z")] |}.
Proof. vm_compute. reflexivity. Qed.

(** ** The digest and its hexadecimal text *)

Section Digest.
Local Open Scope Z_scope.

Lemma hex_digit_value (n : Z) :
  0 <= n < 16 -> JS.digit_value 16 (hex_digit n) = Some n.
Proof.
  intros H. rewrite <- (Z2Nat.id n) by lia.
  assert (Z.to_nat n < 16)%nat as Hm by lia.
  revert Hm. generalize (Z.to_nat n). intros m Hm.
  do 16 (destruct m as [| m]; [reflexivity |]). lia.
Qed.

Lemma buffer_from_hex_of_bytes (bs : list Z) :
  Forall byte bs -> JS.buffer_from_hex (hex_of_bytes bs) = bs.
Proof.
  induction 1 as [| b bs Hb _ IH]; [reflexivity |].
  unfold byte in Hb. cbn [hex_of_bytes JS.buffer_from_hex].
  rewrite !hex_digit_value, IH.
  - f_equal. pose proof (Z.div_mod b 16). lia.
  - apply Z.mod_pos_bound. lia.
  - split; [apply Z.div_pos; lia | apply Z.div_lt_upper_bound; lia].
Qed.

Lemma bytes_of_word_bytes (w : Z) : Forall byte (SHA256.bytes_of_word w).
Proof.
  unfold SHA256.bytes_of_word, byte.
  repeat constructor; apply Z.mod_pos_bound; lia.
Qed.

Lemma words_bytes (ws : list Z) :
  Forall byte (List.concat (List.map SHA256.bytes_of_word ws))
  /\ length (List.concat (List.map SHA256.bytes_of_word ws)) = (4 * length ws)%nat.
Proof.
  induction ws as [| w ws [IHb IHl]]; [split; [constructor | reflexivity] |].
  cbn [List.map List.concat]. split.
  - apply Forall_app. split; [apply bytes_of_word_bytes | exact IHb].
  - rewrite length_app, IHl. cbn [SHA256.bytes_of_word length]. lia.
Qed.

Lemma compress_length (h block : list Z) :
  length h = 8%nat -> length (SHA256.compress h block) = 8%nat.
Proof.
  intros Hh. unfold SHA256.compress.
  destruct (fold_left SHA256.round SHA256.K _) as [r w].
  rewrite length_map, length_combine, Hh. reflexivity.
Qed.

Lemma fold_left_invariant {A B} (f : A -> B -> A) (P : A -> Prop) (l : list B) (a : A) :
  P a -> (forall x b, P x -> P (f x b)) -> P (fold_left f l a).
Proof.
  intros Ha Hf. revert a Ha.
  induction l as [| b l IH]; intros a Ha; [exact Ha |].
  apply IH, Hf, Ha.
Qed.

Lemma fold_compress_length (bl : list (list Z)) (h : list Z) :
  length h = 8%nat -> length (fold_left SHA256.compress bl h) = 8%nat.
Proof.
  intros Hh.
  apply (fold_left_invariant SHA256.compress (fun x => length x = 8%nat)); [exact Hh |].
  intros x b Hx. apply compress_length, Hx.
Qed.

Lemma sha256_digest (msg : list Z) :
  Forall byte (SHA256.sha256 msg) /\ length (SHA256.sha256 msg) = 32%nat.
Proof.
  unfold SHA256.sha256.
  destruct (words_bytes (fold_left SHA256.compress
              (SHA256.blocks (length (SHA256.pad msg) / 64) (SHA256.pad msg)) SHA256.H0))
    as [Hb Hl].
  split; [exact Hb |].
  rewrite Hl, fold_compress_length; reflexivity.
Qed.

(** The expected signature always decodes to the 32 bytes of the digest. *)
Lemma expected_signature_bytes (key msg : string) :
  JS.buffer_from_hex (hmac_sha256_hex key msg)
  = SHA256.hmac_sha256 (utf8 key) (utf8 msg)
  /\ length (JS.buffer_from_hex (hmac_sha256_hex key msg)) = 32%nat.
Proof.
  unfold hmac_sha256_hex, SHA256.hmac_sha256.
  destruct (sha256_digest
    (List.map (fun b => Z.lxor b 92) (SHA256.hmac_key (utf8 key)) ++
     SHA256.sha256 (List.map (fun b => Z.lxor b 54) (SHA256.hmac_key (utf8 key)) ++ utf8 msg))%list)
    as [Hb Hl].
  rewrite buffer_from_hex_of_bytes by exact Hb.
  split; [reflexivity | exact Hl].
Qed.

End Digest.

(** ** The signature verifier *)

Section Verifier.
Local Open Scope Z_scope.

(** With both headers there, the verdict is the freshness test followed by
    the comparison of the decoded buffers. *)
Lemma validateWebhookSignature_present (secret : string) (now_ms : Z) (req : Request)
  (signature timestamp : string) :
  header_value "x-webhook-signature" req = Some signature ->
  header_value "x-webhook-timestamp" req = Some timestamp ->
  validateWebhookSignature secret now_ms req =
    if too_old (now_ms / 1000) (JS.parseInt timestamp) then Respond too_old_response
    else match JS.timingSafeEqual
                 (JS.buffer_from_hex (hmac_sha256_hex secret (signed_text timestamp req)))
                 (JS.buffer_from_hex (JS.replace "sha256=" "" signature)) with
         | Some true => Next
         | Some false => Respond invalid_signature_response
         | None => Respond validation_failed_response
         end.
Proof.
  intros Hs Ht. unfold validateWebhookSignature. rewrite Hs, Ht. reflexivity.
Qed.

Lemma too_old_spec (now : Z) (webhookTime : option Z) :
  too_old now webhookTime = true <-> exists t, webhookTime = Some t /\ Z.abs (now - t) > 300.
Proof.
  unfold too_old. destruct webhookTime as [t |].
  - rewrite Z.ltb_lt. split.
    + intros H. exists t. split; [reflexivity | lia].
    + intros (t' & [= <-] & H). lia.
  - split; [discriminate | intros (t & [=] & _)].
Qed.

(** The verifier accepts exactly the signatures that decode to the digest of
    the timestamp, a dot and the re-serialised body. *)
Lemma signature_accepted_iff (secret : string) (now_ms : Z) (req : Request)
  (signature timestamp : string) :
  header_value "x-webhook-signature" req = Some signature ->
  header_value "x-webhook-timestamp" req = Some timestamp ->
  too_old (now_ms / 1000) (JS.parseInt timestamp) = false ->
  (validateWebhookSignature secret now_ms req = Next <->
   JS.buffer_from_hex (JS.replace "sha256=" "" signature)
   = SHA256.hmac_sha256 (utf8 secret) (utf8 (signed_text timestamp req))).
Proof.
  intros Hs Ht Hfresh.
  rewrite (validateWebhookSignature_present _ _ _ _ _ Hs Ht), Hfresh.
  destruct (expected_signature_bytes secret (signed_text timestamp req)) as [Hb _].
  rewrite Hb. unfold JS.timingSafeEqual, JS.bytes_eqb.
  destruct (Nat.eqb_spec
    (length (SHA256.hmac_sha256 (utf8 secret) (utf8 (signed_text timestamp req))))
    (length (JS.buffer_from_hex (JS.replace "sha256=" "" signature)))) as [El | El].
  - case_bool_decide as E.
    + split; [intros _; symmetry; exact E | reflexivity].
    + split; [discriminate | intros E'; destruct E; symmetry; exact E'].
  - split; [discriminate | intros E'; destruct El; rewrite E'; reflexivity].
Qed.

(** C6: for a request that carries both headers, the verifier answers 401
    "Request too old" if and only if the timestamp parses to a time more than
    300 seconds away from the current time; so a timestamp T is refused from
    T + 301 on, and at T + 299 it passes the freshness test. *)
Theorem C6_replay_window (secret : string) (now_ms : Z) (req : Request)
  (signature timestamp : string) :
  header_value "x-webhook-signature" req = Some signature ->
  header_value "x-webhook-timestamp" req = Some timestamp ->
  (validateWebhookSignature secret now_ms req = Respond too_old_response <->
   exists t, JS.parseInt timestamp = Some t /\ Z.abs (now_ms / 1000 - t) > 300)
  /\ (forall T, JS.parseInt timestamp = Some T -> T + 301 <= now_ms / 1000 ->
       validateWebhookSignature secret now_ms req = Respond too_old_response)
  /\ (forall T, JS.parseInt timestamp = Some T -> now_ms / 1000 = T + 299 ->
       too_old (now_ms / 1000) (JS.parseInt timestamp) = false
       /\ validateWebhookSignature secret now_ms req <> Respond too_old_response).
Proof.
  intros Hs Ht.
  assert (validateWebhookSignature secret now_ms req = Respond too_old_response <->
          too_old (now_ms / 1000) (JS.parseInt timestamp) = true) as Hiff.
  { rewrite (validateWebhookSignature_present _ _ _ _ _ Hs Ht).
    destruct (too_old _ _); [split; reflexivity |].
    split; [| discriminate].
    destruct (JS.timingSafeEqual _ _) as [[|] |]; responses; discriminate. }
  split; [| split].
  - rewrite Hiff. apply too_old_spec.
  - intros T HT Hlate. apply Hiff, too_old_spec. exists T. split; [exact HT | lia].
  - intros T HT Hnow.
    assert (too_old (now_ms / 1000) (JS.parseInt timestamp) = false) as Hfresh.
    { rewrite HT. unfold too_old. apply Z.ltb_ge. lia. }
    split; [exact Hfresh |].
    intros H. apply Hiff in H. congruence.
Qed.

(** The number of bytes that [Buffer.from(s, 'hex')] decodes from text made
    of hexadecimal digits only. *)
Lemma buffer_from_hex_length (s : string) :
  Forall (fun c => JS.digit_value 16 c <> None) (list_ascii_of_string s) ->
  length (JS.buffer_from_hex s) = Nat.div2 (String.length s).
Proof.
  assert (forall n s, (String.length s <= n)%nat ->
            Forall (fun c => JS.digit_value 16 c <> None) (list_ascii_of_string s) ->
            length (JS.buffer_from_hex s) = Nat.div2 (String.length s)) as H.
  { intros n. induction n as [| n IH]; intros [| a [| b t]] Hn Hall; try reflexivity.
    - cbn in Hn. lia.
    - cbn [list_ascii_of_string] in Hall.
      apply Forall_cons_1 in Hall as [Ha Hall]. apply Forall_cons_1 in Hall as [Hb Hall].
      cbn [JS.buffer_from_hex String.length Nat.div2].
      destruct (JS.digit_value 16 a); [| congruence].
      destruct (JS.digit_value 16 b); [| congruence].
      cbn [length]. f_equal. apply IH; [cbn in Hn; lia | exact Hall]. }
  apply (H (String.length s)). lia.
Qed.

(** C2 (the code at a length mismatch): for a fresh request, a supplied
    signature that decodes to another number of bytes than the 32 of the
    digest makes [timingSafeEqual] throw, and the catch clause answers 500
    "Signature validation failed", not 401 "Invalid signature". *)
Theorem C2_length_mismatch_answers_500 (secret : string) (now_ms : Z) (req : Request)
  (signature timestamp : string) :
  header_value "x-webhook-signature" req = Some signature ->
  header_value "x-webhook-timestamp" req = Some timestamp ->
  too_old (now_ms / 1000) (JS.parseInt timestamp) = false ->
  length (JS.buffer_from_hex (JS.replace "sha256=" "" signature)) <> 32%nat ->
  validateWebhookSignature secret now_ms req = Respond validation_failed_response.
Proof.
  intros Hs Ht Hfresh Hlen.
  rewrite (validateWebhookSignature_present _ _ _ _ _ Hs Ht), Hfresh.
  unfold JS.timingSafeEqual.
  rewrite (proj2 (expected_signature_bytes secret (signed_text timestamp req))).
  destruct (Nat.eqb_spec 32 (length (JS.buffer_from_hex (JS.replace "sha256=" "" signature))))
    as [E | E].
  - destruct Hlen. symmetry. exact E.
  - reflexivity.
Qed.

(** A buffer of another length than the digest makes the comparison throw. *)
Lemma length_mismatch_throws (secret : string) (now_ms : Z) (req : Request)
  (signature timestamp : string) :
  header_value "x-webhook-signature" req = Some signature ->
  header_value "x-webhook-timestamp" req = Some timestamp ->
  too_old (now_ms / 1000) (JS.parseInt timestamp) = false ->
  length (JS.buffer_from_hex (JS.replace "sha256=" "" signature)) <> 32%nat ->
  validateWebhookSignature secret now_ms req = Respond validation_failed_response.
Proof.
  intros Hs Ht Hfresh Hlen.
  rewrite (validateWebhookSignature_present _ _ _ _ _ Hs Ht), Hfresh.
  destruct (expected_signature_bytes secret (signed_text timestamp req)) as [_ Hl].
  unfold JS.timingSafeEqual. rewrite Hl.
  destruct (Nat.eqb_spec 32 (length (JS.buffer_from_hex (JS.replace "sha256=" "" signature))))
    as [E | E]; [congruence | reflexivity].
Qed.

(** In terms of the text supplied: hexadecimal digits whose count is not 64
    or 65 decode to another number of bytes than 32, and the answer is 500. *)
Lemma hex_signature_of_other_length (secret : string) (now_ms : Z) (req : Request)
  (signature timestamp : string) :
  header_value "x-webhook-signature" req = Some signature ->
  header_value "x-webhook-timestamp" req = Some timestamp ->
  too_old (now_ms / 1000) (JS.parseInt timestamp) = false ->
  Forall (fun c => JS.digit_value 16 c <> None)
         (list_ascii_of_string (JS.replace "sha256=" "" signature)) ->
  Nat.div2 (String.length (JS.replace "sha256=" "" signature)) <> 32%nat ->
  validateWebhookSignature secret now_ms req = Respond validation_failed_response.
Proof.
  intros Hs Ht Hfresh Hhex Hlen.
  apply (length_mismatch_throws secret now_ms req signature timestamp Hs Ht Hfresh).
  rewrite (buffer_from_hex_length _ Hhex). exact Hlen.
Qed.

Lemma C6_replay_window_witness :
  let req := Sample.request (Sample.sign Sample.compact) "message.created"
                            Sample.compact Sample.envelope in
  header_value "x-webhook-signature" req = Some (Sample.sign Sample.compact)
  /\ header_value "x-webhook-timestamp" req = Some Sample.timestamp
  /\ JS.parseInt Sample.timestamp = Some 1700000000
  /\ validateWebhookSignature Sample.secret 1700000301000 req = Respond too_old_response.
Proof.
  intros req.
  assert (header_value "x-webhook-signature" req = Some (Sample.sign Sample.compact)) as Hs
    by (vm_compute; reflexivity).
  assert (header_value "x-webhook-timestamp" req = Some Sample.timestamp) as Ht
    by (vm_compute; reflexivity).
  assert (JS.parseInt Sample.timestamp = Some 1700000000) as Hp by (vm_compute; reflexivity).
  split; [exact Hs |]. split; [exact Ht |]. split; [exact Hp |].
  apply (proj1 (proj2 (C6_replay_window Sample.secret 1700000301000 req _ _ Hs Ht))
               1700000000 Hp).
  vm_compute. discriminate.
Defined.

Lemma C2_length_mismatch_answers_500_witness :
  let req := Sample.request "sha256=abcd" "message.created" Sample.compact Sample.envelope in
  header_value "x-webhook-signature" req = Some "sha256=abcd"
  /\ header_value "x-webhook-timestamp" req = Some Sample.timestamp
  /\ too_old (Sample.now_ms / 1000) (JS.parseInt Sample.timestamp) = false
  /\ length (JS.buffer_from_hex (JS.replace "sha256=" "" "sha256=abcd")) <> 32%nat
  /\ validateWebhookSignature Sample.secret Sample.now_ms req
     = Respond validation_failed_response.
Proof.
  intros req.
  assert (header_value "x-webhook-signature" req = Some "sha256=abcd") as Hs
    by (vm_compute; reflexivity).
  assert (header_value "x-webhook-timestamp" req = Some Sample.timestamp) as Ht
    by (vm_compute; reflexivity).
  assert (too_old (Sample.now_ms / 1000) (JS.parseInt Sample.timestamp) = false) as Hf
    by (vm_compute; reflexivity).
  assert (length (JS.buffer_from_hex (JS.replace "sha256=" "" "sha256=abcd")) <> 32%nat)
    as Hl by (vm_compute; discriminate).
  split; [exact Hs |]. split; [exact Ht |]. split; [exact Hf |]. split; [exact Hl |].
  exact (C2_length_mismatch_answers_500 Sample.secret Sample.now_ms req _ _ Hs Ht Hf Hl).
Defined.

Lemma replace_prefix (rest : string) : JS.replace "sha256=" "" ("sha256=" +:+ rest) = rest.
Proof.
  change ("sha256=" +:+ rest)
    with (String "s" (String "h" (String "a" (String "2" (String "5" (String "6"
           (String "=" rest))))))).
  destruct rest; reflexivity.
Qed.

(** A signature computed over the raw body is accepted exactly when its
    digest is also the digest of the re-serialised body; in particular when
    the body was sent in the form that [JSON.stringify] prints. *)
Lemma raw_signature_accepted_iff (secret : string) (now_ms : Z) (req : Request)
  (timestamp : string) :
  header_value "x-webhook-signature" req
  = Some ("sha256=" +:+ hmac_sha256_hex secret (timestamp +:+ "." +:+ rawBody req)) ->
  header_value "x-webhook-timestamp" req = Some timestamp ->
  too_old (now_ms / 1000) (JS.parseInt timestamp) = false ->
  (validateWebhookSignature secret now_ms req = Next <->
   SHA256.hmac_sha256 (utf8 secret) (utf8 (timestamp +:+ "." +:+ rawBody req))
   = SHA256.hmac_sha256 (utf8 secret) (utf8 (signed_text timestamp req)))
  /\ (JS.stringify (body req) = Some (rawBody req) ->
      validateWebhookSignature secret now_ms req = Next).
Proof.
  intros Hs Ht Hfresh.
  pose proof (signature_accepted_iff secret now_ms req _ _ Hs Ht Hfresh) as Hiff.
  rewrite replace_prefix in Hiff.
  rewrite (proj1 (expected_signature_bytes secret (timestamp +:+ "." +:+ rawBody req)))
    in Hiff.
  split; [exact Hiff |].
  intros Hsame. apply Hiff. unfold signed_text. rewrite Hsame. reflexivity.
Qed.

(** The raw body that the parser keeps on the request plays no part. *)
Lemma validateWebhookSignature_ignores_rawBody (secret : string) (now_ms : Z)
  (hs : gmap string string) (raw raw' : string) (parsed : JSValue) :
  validateWebhookSignature secret now_ms {| headers := hs; rawBody := raw; body := parsed |}
  = validateWebhookSignature secret now_ms {| headers := hs; rawBody := raw'; body := parsed |}.
Proof. reflexivity. Qed.

(** C1 (the code on a body sent with white space): the sample envelope,
    signed by its sender over the timestamp, a dot and the exact bytes sent,
    is parsed to an object whose [JSON.stringify] text has other bytes; the
    verifier hashes that text and answers 401 "Invalid signature", while it
    accepts the signature computed over the re-serialised text. *)
Theorem C1_signature_over_raw_body_rejected :
  let req := Sample.request (Sample.sign Sample.raw) "message.created"
                            Sample.raw Sample.envelope in
  let req' := Sample.request (Sample.sign Sample.compact) "message.created"
                             Sample.raw Sample.envelope in
  incoming (headers req) Sample.raw = Some req
  /\ JS.stringify (body req) = Some Sample.compact
  /\ Sample.compact <> Sample.raw
  /\ validateWebhookSignature Sample.secret Sample.now_ms req
     = Respond invalid_signature_response
  /\ validateWebhookSignature Sample.secret Sample.now_ms req' = Next.
Proof.
  intros req req'.
  split; [vm_compute; reflexivity |].
  split; [vm_compute; reflexivity |].
  split; [vm_compute; discriminate |].
  split; vm_compute; reflexivity.
Qed.

End Verifier.

(** ** The upsert store *)

Section UpsertStore.
Import DatabaseService.

Lemma bind_param_defined (v : JSValue) : defined v -> exists x, bind_param v = Ok x.
Proof. destruct v; intros H; try (eexists; reflexivity). destruct H. reflexivity. Qed.

Lemma insertMessage_run (d : messageData) (st : Store) (k : string)
  (c r co pa pt ch au : SqlValue) :
  m_id d = JStr k ->
  bind_param (m_conversation_id d) = Ok c -> bind_param (m_role d) = Ok r ->
  bind_param (m_content d) = Ok co -> bind_param (m_parts d) = Ok pa ->
  bind_param (m_parent d) = Ok pt -> bind_param (m_children d) = Ok ch ->
  bind_param (m_author_name d) = Ok au ->
  insertMessage d st =
    (Ok tt,
     {| conversations := conversations st;
        messages := <[k := upserted (messages st !! k) c r co pa (m_create_time d) pt ch au]>
                      (messages st);
        projects := projects st;
        executed := UpsertMessage k :: executed st |}).
Proof.
  intros Hk Hc Hr Hco Hpa Hpt Hch Hau.
  unfold insertMessage, bind, lift, log.
  rewrite Hk, Hc, Hr, Hco, Hpa, Hpt, Hch, Hau. cbn.
  unfold upserted. destruct (messages st !! k); reflexivity.
Qed.

(** C3 (as amended): a message record delivered twice with the same id is
    stored, after the second delivery, with the second delivery's role,
    content, parts, create_time, parent, children and author name: the
    statement overwrites create_time on conflict.  Only conversation_id keeps
    the value it had after the first delivery. *)
Theorem C3_redelivery_takes_second_values (d1 d2 : messageData) (st : Store) (k : string) :
  m_id d1 = JStr k -> m_id d2 = JStr k -> bindable d1 -> bindable d2 ->
  exists st1 st2 row1 row,
    insertMessage d1 st = (Ok tt, st1)
    /\ insertMessage d2 st1 = (Ok tt, st2)
    /\ messages st1 !! k = Some row1
    /\ messages st2 !! k = Some row
    /\ msg_create_time row = m_create_time d2
    /\ bind_param (m_role d2) = Ok (msg_role row)
    /\ bind_param (m_content d2) = Ok (msg_content row)
    /\ bind_param (m_parts d2) = Ok (msg_parts row)
    /\ bind_param (m_parent d2) = Ok (msg_parent row)
    /\ bind_param (m_children d2) = Ok (msg_children row)
    /\ bind_param (m_author_name d2) = Ok (msg_author_name row)
    /\ msg_conversation_id row = msg_conversation_id row1.
Proof.
  intros Hk1 Hk2 (Hc1 & Hr1 & Hco1 & Hpa1 & Hpt1 & Hch1 & Hau1)
         (Hc2 & Hr2 & Hco2 & Hpa2 & Hpt2 & Hch2 & Hau2).
  destruct (bind_param_defined _ Hc1) as [c1 Ec1]. destruct (bind_param_defined _ Hr1) as [r1 Er1].
  destruct (bind_param_defined _ Hco1) as [co1 Eco1].
  destruct (bind_param_defined _ Hpa1) as [pa1 Epa1].
  destruct (bind_param_defined _ Hpt1) as [pt1 Ept1].
  destruct (bind_param_defined _ Hch1) as [ch1 Ech1].
  destruct (bind_param_defined _ Hau1) as [au1 Eau1].
  destruct (bind_param_defined _ Hc2) as [c2 Ec2]. destruct (bind_param_defined _ Hr2) as [r2 Er2].
  destruct (bind_param_defined _ Hco2) as [co2 Eco2].
  destruct (bind_param_defined _ Hpa2) as [pa2 Epa2].
  destruct (bind_param_defined _ Hpt2) as [pt2 Ept2].
  destruct (bind_param_defined _ Hch2) as [ch2 Ech2].
  destruct (bind_param_defined _ Hau2) as [au2 Eau2].
  eexists _, _, _, _.
  split; [exact (insertMessage_run d1 st k _ _ _ _ _ _ _ Hk1 Ec1 Er1 Eco1 Epa1 Ept1 Ech1 Eau1) |].
  split; [exact (insertMessage_run d2 _ k _ _ _ _ _ _ _ Hk2 Ec2 Er2 Eco2 Epa2 Ept2 Ech2 Eau2) |].
  cbn [messages]. rewrite !lookup_insert_eq.
  split; [reflexivity |]. split; [reflexivity |].
  cbn [upserted msg_create_time msg_role msg_content msg_parts msg_parent msg_children
       msg_author_name msg_conversation_id].
  repeat (split; [first [reflexivity | assumption] |]). reflexivity.
Qed.

Lemma C3_redelivery_takes_second_values_witness :
  m_id Redelivery.first = JStr "m1" /\ m_id Redelivery.second = JStr "m1"
  /\ bindable Redelivery.first /\ bindable Redelivery.second
  /\ exists st1 st2 row1 row,
       insertMessage Redelivery.first empty_store = (Ok tt, st1)
       /\ insertMessage Redelivery.second st1 = (Ok tt, st2)
       /\ messages st1 !! "m1" = Some row1
       /\ messages st2 !! "m1" = Some row
       /\ msg_create_time row = m_create_time Redelivery.second
       /\ bind_param (m_role Redelivery.second) = Ok (msg_role row)
       /\ bind_param (m_content Redelivery.second) = Ok (msg_content row)
       /\ bind_param (m_parts Redelivery.second) = Ok (msg_parts row)
       /\ bind_param (m_parent Redelivery.second) = Ok (msg_parent row)
       /\ bind_param (m_children Redelivery.second) = Ok (msg_children row)
       /\ bind_param (m_author_name Redelivery.second) = Ok (msg_author_name row)
       /\ msg_conversation_id row = msg_conversation_id row1.
Proof.
  assert (bindable Redelivery.first) as H1 by (repeat split; discriminate).
  assert (bindable Redelivery.second) as H2 by (repeat split; discriminate).
  split; [reflexivity |]. split; [reflexivity |]. split; [exact H1 |]. split; [exact H2 |].
  exact (C3_redelivery_takes_second_values Redelivery.first Redelivery.second empty_store
           "m1" eq_refl eq_refl H1 H2).
Defined.

(** C3 (as stated) fails: after the two sample deliveries the stored
    create_time is the second delivery's, not the first's. *)
Lemma C3_create_time_overwritten :
  ~ (forall row,
       messages (snd (insertMessage Redelivery.second
                        (snd (insertMessage Redelivery.first empty_store)))) !! "m1"
       = Some row ->
       msg_create_time row = m_create_time Redelivery.first).
Proof.
  intros H.
  specialize (H (upserted (Some (upserted None (SqlText "c1") (SqlText "user")
                                   (SqlText (quoted "hi")) SqlNull
                                   (Some 1700000000000%Z) SqlNull SqlNull SqlNull))
                          (SqlText "c1") (SqlText "assistant") (SqlText (quoted "hello"))
                          SqlNull (Some 1700000060000%Z) SqlNull SqlNull (SqlText "Beto"))).
  assert (Some 1700000060000%Z = Some 1700000000000%Z) as E; [| discriminate E].
  apply H. vm_compute. reflexivity.
Qed.

End UpsertStore.

(** ** The payload validator *)

Section Validator.

Lemma validate_object (ks : list (string * (Presence * Schema))) (an : bool) (p : list Seg)
  (fields : list (string * JSValue)) :
  validate (JoiObject (Some ks) an) p (JObj fields)
  = first_error (List.map (child_with validate fields p ks) (validation_order ks)).
Proof. reflexivity. Qed.

Lemma webhook_order :
  validation_order
    [key "conversation" (RequiredUnlessExists "message") conversationSchema;
     key "message" Optional messageSchema; key "project" Optional projectSchema;
     key "event_type" Optional string_; key "timestamp" Optional JoiNumber]
  = ["message"; "conversation"; "project"; "event_type"; "timestamp"].
Proof. vm_compute. reflexivity. Qed.

Lemma first_error_cons_none (e : option Detail) (l : list (option Detail)) :
  first_error (e :: l) = None -> e = None /\ first_error l = None.
Proof. destruct e; [discriminate | intros H; split; [reflexivity | exact H]]. Qed.

Lemma validate_string_inv (p : list Seg) (v : JSValue) :
  validate string_ p v = None -> exists s, v = JStr s /\ s <> "".
Proof.
  unfold string_.
  destruct v as [| | b | n | s | l | l]; cbn [validate]; unfold report; try discriminate.
  destruct s as [| a s]; [discriminate |]. intros _. exists (String a s).
  split; [reflexivity | intros E; discriminate E].
Qed.

Lemma validate_role_inv (p : list Seg) (v : JSValue) :
  validate (JoiString (Some ["user"; "assistant"; "system"]) false false) p v = None ->
  exists r, v = JStr r /\ In r ["user"; "assistant"; "system"].
Proof.
  destruct v as [| | b | n | s | l | l]; cbn [validate]; unfold report; try discriminate.
  destruct s as [| a s']; cbv beta iota;
    (destruct (existsb _ _) eqn:E; [| discriminate]); intros _;
    eexists; (split; [reflexivity |]);
    apply existsb_exists in E as (x & Hx & Heq); apply String.eqb_eq in Heq;
    subst x; exact Hx.
Qed.

(** A message that passes the schema is an object with a text id, a text
    conversation_id and one of the three roles. *)
Lemma valid_message_inv (p : list Seg) (m : JSValue) :
  validate messageSchema p m = None ->
  exists mf mid cid r, valid_message m mf mid cid r.
Proof.
  destruct m as [| | b | n | s | l | mf]; try discriminate.
  unfold messageSchema. rewrite validate_object.
  replace (validation_order _)
    with ["id"; "conversation_id"; "role"; "content"; "parts"; "create_time"; "parent";
          "children"; "author"] by (vm_compute; reflexivity).
  cbn [List.map child_with key String.eqb Ascii.eqb Bool.eqb].
  intros H.
  apply first_error_cons_none in H as [Hid H].
  apply first_error_cons_none in H as [Hcid H].
  apply first_error_cons_none in H as [Hrole _].
  destruct (JS.assoc "id" mf) eqn:Eid; try discriminate;
    apply validate_string_inv in Hid as (mid & [= ->] & Hmid).
  destruct (JS.assoc "conversation_id" mf) eqn:Ecid; try discriminate;
    apply validate_string_inv in Hcid as (cid & [= ->] & Hcid).
  destruct (JS.assoc "role" mf) eqn:Er; try discriminate;
    apply validate_role_inv in Hrole as (r & [= ->] & Hr).
  exists mf, mid, cid, r. repeat split; assumption.
Qed.

Lemma unmatched_some (p : list Seg) (failures : list Detail) : unmatched p failures <> None.
Proof.
  unfold unmatched, report.
  destruct failures as [| e [| e' rest]]; try discriminate.
  destruct (List.filter _ _) as [| x [| y l]]; discriminate.
Qed.

Lemma validate_content_inv (p : list Seg) (v : JSValue) :
  validate content_alternatives p v = None -> v <> JUndefined -> accepted_content v.
Proof.
  unfold content_alternatives, accepted_content.
  destruct v as [| | b | n | s | l | l]; intros H Hdef.
  - destruct Hdef. reflexivity.
  - right. left. reflexivity.
  - exfalso. cbn [validate andb is_null failures_with] in H. unfold report in H.
    exact (unmatched_some _ _ H).
  - exfalso. cbn [validate andb is_null failures_with] in H. unfold report in H.
    exact (unmatched_some _ _ H).
  - destruct s as [| a s].
    + exfalso. cbn [validate andb is_null failures_with] in H. unfold report in H.
      exact (unmatched_some _ _ H).
    + right. right. left. exists (String a s). split; [reflexivity | discriminate].
  - right. right. right. right. exists l. reflexivity.
  - right. right. right. left. exists l. reflexivity.
Qed.

(** The content of a message that passes the schema. *)
Lemma valid_message_content (p : list Seg) (mf : list (string * JSValue)) :
  validate messageSchema p (JObj mf) = None -> accepted_content (JS.assoc "content" mf).
Proof.
  unfold messageSchema. rewrite validate_object.
  replace (validation_order _)
    with ["id"; "conversation_id"; "role"; "content"; "parts"; "create_time"; "parent";
          "children"; "author"] by (vm_compute; reflexivity).
  cbn [List.map child_with key String.eqb Ascii.eqb Bool.eqb].
  intros H.
  apply first_error_cons_none in H as [_ H].
  apply first_error_cons_none in H as [_ H].
  apply first_error_cons_none in H as [_ H].
  apply first_error_cons_none in H as [Hcontent _].
  destruct (JS.assoc "content" mf) eqn:Ec; [left; reflexivity | ..];
    (apply validate_content_inv in Hcontent; [exact Hcontent | discriminate]).
Qed.

Lemma valid_conversation_inv (p : list Seg) (c : JSValue) :
  validate conversationSchema p c = None ->
  exists cf id, valid_conversation c cf id.
Proof.
  destruct c as [| | b | n | s | l | cf]; try discriminate.
  unfold conversationSchema. rewrite validate_object.
  replace (validation_order _)
    with ["id"; "title"; "model"; "create_time"; "update_time"; "project_id";
          "openai_thread_id"] by (vm_compute; reflexivity).
  cbn [List.map child_with key String.eqb Ascii.eqb Bool.eqb].
  intros H. apply first_error_cons_none in H as [Hid _].
  destruct (JS.assoc "id" cf) eqn:Eid; try discriminate;
    apply validate_string_inv in Hid as (id & [= ->] & Hid).
  exists cf, id. repeat split; assumption.
Qed.

(** What [validateWebhookPayload] guarantees of the payload it accepts. *)
Lemma valid_payload_inv (fields : list (string * JSValue)) :
  validateWebhookPayload (JObj fields) = Valid ->
  (JS.assoc "message" fields = JUndefined
   \/ exists mf mid cid r, valid_message (JS.assoc "message" fields) mf mid cid r)
  /\ (JS.assoc "conversation" fields = JUndefined
      \/ exists cf id, valid_conversation (JS.assoc "conversation" fields) cf id).
Proof.
  unfold validateWebhookPayload.
  destruct (validate webhookPayloadSchema [] (JObj fields)) eqn:E; [discriminate |].
  intros _. revert E. unfold webhookPayloadSchema.
  rewrite validate_object, webhook_order.
  cbn [List.map child_with key String.eqb Ascii.eqb Bool.eqb].
  intros H.
  apply first_error_cons_none in H as [Hm H].
  apply first_error_cons_none in H as [Hc _].
  split.
  - destruct (JS.assoc "message" fields) eqn:Em; [left; reflexivity | right ..];
      apply valid_message_inv in Hm; exact Hm.
  - destruct (JS.assoc "conversation" fields) eqn:Ec; [left; reflexivity | right ..];
      apply valid_conversation_inv in Hc; exact Hc.
Qed.

Lemma valid_payload_content (fields mf : list (string * JSValue)) :
  validateWebhookPayload (JObj fields) = Valid ->
  JS.assoc "message" fields = JObj mf ->
  accepted_content (JS.assoc "content" mf).
Proof.
  unfold validateWebhookPayload.
  destruct (validate webhookPayloadSchema [] (JObj fields)) eqn:E; [discriminate |].
  intros _ Hm. revert E. unfold webhookPayloadSchema.
  rewrite validate_object, webhook_order.
  cbn [List.map child_with key String.eqb Ascii.eqb Bool.eqb].
  rewrite Hm. intros H.
  apply first_error_cons_none in H as [H _].
  exact (valid_message_content _ _ H).
Qed.

Lemma valid_payload_object (payload : JSValue) :
  validateWebhookPayload payload = Valid -> payload <> JUndefined ->
  exists fields, payload = JObj fields.
Proof.
  destruct payload as [| | b | n | s | l | fields]; intros H Hu;
    try discriminate; [destruct Hu; reflexivity | eexists; reflexivity].
Qed.

End Validator.

(** ** The event router *)

Section Router.
Import DatabaseService WebhookController.

Lemma defined_or (x d : JSValue) : defined d -> defined (JS.or x d).
Proof.
  unfold JS.or, defined. intros Hd.
  destruct x as [| | b | n | s | l | l]; cbn; try exact Hd; try discriminate.
  - destruct b; [discriminate | exact Hd].
  - destruct (negb _); [discriminate | exact Hd].
  - destruct (negb _); [discriminate | exact Hd].
Qed.

Lemma bind_sql_of (v : JSValue) : defined v -> bind_param v = Ok (sql_of v).
Proof.
  intros H. destruct (bind_param_defined v H) as [x E]. unfold sql_of. rewrite E. reflexivity.
Qed.

Lemma digits_nonempty (fuel : nat) (n : Z) (acc : string) : JS.digits fuel n acc <> "".
Proof.
  revert n acc. induction fuel as [| f IH]; intros n acc; cbn [JS.digits].
  - discriminate.
  - destruct (n / 10 =? 0)%Z; [discriminate | apply IH].
Qed.

Lemma string_of_Z_nonempty (n : Z) : JS.string_of_Z n <> "".
Proof.
  unfold JS.string_of_Z. destruct (n <? 0)%Z; [discriminate | apply digits_nonempty].
Qed.

(** [JSON.stringify] gives text, and never the empty text, for every value
    but [undefined]. *)
Lemma stringify_nonempty (x : JSValue) :
  x <> JUndefined -> exists t, JS.stringify x = Some t /\ t <> "".
Proof.
  destruct x as [| | b | n | s | l | l]; intros H; cbn [JS.stringify].
  - destruct H. reflexivity.
  - eexists. split; [reflexivity | discriminate].
  - destruct b; eexists; (split; [reflexivity | discriminate]).
  - eexists. split; [reflexivity | apply string_of_Z_nonempty].
  - eexists. split; [reflexivity | discriminate].
  - eexists. split; [reflexivity | discriminate].
  - eexists. split; [reflexivity | discriminate].
Qed.

Lemma truthy_defined (x : JSValue) : JS.truthy x = true -> x <> JUndefined.
Proof. destruct x; [discriminate | discriminate ..]. Qed.

(** What the handlers store for content, parts and children: NULL, or the
    JSON text of the value, which is not empty. *)
Lemma stringify_or_null_cases (x : JSValue) :
  stringify_or_null x = JNull \/ exists t, stringify_or_null x = JStr t /\ t <> "".
Proof.
  unfold stringify_or_null. destruct (JS.truthy x) eqn:E; [right | left; reflexivity].
  destruct (stringify_nonempty x (truthy_defined x E)) as (t & -> & Ht).
  exists t. split; [reflexivity | exact Ht].
Qed.

Lemma stringify_or_null_defined (x : JSValue) : defined (stringify_or_null x).
Proof.
  destruct (stringify_or_null_cases x) as [-> | (t & -> & _)]; discriminate.
Qed.

Lemma insertConversation_run (d : conversationData) (st : Store) (k : string) :
  conversation_id d = JStr k -> defined (title d) -> defined (model d) ->
  defined (project_id d) -> defined (openai_thread_id d) ->
  insertConversation d st =
    (Ok tt,
     {| conversations :=
          <[k := {| conv_title := sql_of (title d); conv_model := sql_of (model d);
                    conv_create_time :=
                      match conversations st !! k with
                      | Some old => conv_create_time old
                      | None => create_time d
                      end;
                    conv_update_time := update_time d;
                    conv_project_id := sql_of (project_id d);
                    conv_openai_thread_id := sql_of (openai_thread_id d) |}]>
            (conversations st);
        messages := messages st;
        projects := projects st;
        executed := UpsertConversation k :: executed st |}).
Proof.
  intros Hk Ht Hm Hp Ho.
  unfold insertConversation, bind, lift, log.
  rewrite Hk, (bind_sql_of _ Ht), (bind_sql_of _ Hm), (bind_sql_of _ Hp), (bind_sql_of _ Ho).
  cbn. destruct (conversations st !! k); reflexivity.
Qed.

Lemma getConversation_text (k : string) (st : Store) :
  getConversation (JStr k) st =
    (Ok (conversations st !! k),
     {| conversations := conversations st; messages := messages st;
        projects := projects st;
        executed := SelectConversation (SqlText k) :: executed st |}).
Proof. reflexivity. Qed.

(** The conversation that a message handler synthesises from the embedded
    sub-object. *)
Lemma handleConversationCreated_embedded (cf : list (string * JSValue)) (id : string)
  (st : Store) :
  JS.assoc "id" cf = JStr id ->
  handleConversationCreated (JObj [("conversation", JObj cf)]) st =
    (Ok (JObj [("status", JStr "conversation_created"); ("conversationId", JStr id)]),
     {| conversations :=
          <[id := {| conv_title := conv_title (created_conversation cf);
                     conv_model := conv_model (created_conversation cf);
                     conv_create_time :=
                       match conversations st !! id with
                       | Some old => conv_create_time old
                       | None => conv_create_time (created_conversation cf)
                       end;
                     conv_update_time := conv_update_time (created_conversation cf);
                     conv_project_id := SqlNull;
                     conv_openai_thread_id :=
                       conv_openai_thread_id (created_conversation cf) |}]>
            (conversations st);
        messages := messages st;
        projects := projects st;
        executed := UpsertConversation id :: executed st |}).
Proof.
  intros Hid.
  unfold handleConversationCreated, bind, destructure, prop, ret.
  cbn [JS.get_opt JS.get JS.assoc String.eqb Ascii.eqb Bool.eqb JS.truthy].
  rewrite Hid. cbv beta iota.
  erewrite insertConversation_run.
  - reflexivity.
  - reflexivity.
  - apply defined_or. discriminate.
  - apply defined_or. discriminate.
  - discriminate.
  - apply defined_or. discriminate.
Qed.

Lemma or_text (s : string) (x : JSValue) : s <> "" -> JS.or (JStr s) x = JStr s.
Proof. intros H. unfold JS.or. cbn. destruct s; [destruct H; reflexivity | reflexivity]. Qed.

Lemma role_nonempty (r : string) : In r ["user"; "assistant"; "system"] -> r <> "".
Proof. intros [<- | [<- | [<- | []]]]; discriminate. Qed.

(** The message handler on a payload that the validator accepts, called as
    a method of the controller: it returns, the message row is upserted, and
    the embedded conversation is inserted if it was not there. *)
Lemma handleMessageCreated_valid (fields mf : list (string * JSValue)) (mid cid r : string)
  (st : Store) :
  valid_message (JS.assoc "message" fields) mf mid cid r ->
  (JS.assoc "conversation" fields = JUndefined
   \/ exists cf id, valid_conversation (JS.assoc "conversation" fields) cf id) ->
  exists st',
    handleMessageCreated ThisController (JObj fields) st
    = (Ok (JObj [("status", JStr "message_created"); ("messageId", JStr mid)]), st')
    /\ messages st' = <[mid := stored_message (messages st !! mid) mf cid r]> (messages st)
    /\ conversations st'
       = ensured_conversations (JS.assoc "conversation" fields) (conversations st)
    /\ projects st' = projects st.
Proof.
  intros (Hm & Hmid & _ & Hcid & Hcne & Hr & Hrin) Hconv.
  assert (forall (fallback : JSValue) (st1 : Store),
    (do d <- message_record (JS.assoc "message" fields) fallback;
     run insertMessage d;
     ret (JObj [("status", JStr "message_created"); ("messageId", m_id d)])) st1
    = (Ok (JObj [("status", JStr "message_created"); ("messageId", JStr mid)]),
       {| conversations := conversations st1;
          messages := <[mid := stored_message (messages st1 !! mid) mf cid r]> (messages st1);
          projects := projects st1;
          executed := UpsertMessage mid :: executed st1 |})) as Hinsert.
  { intros fallback st1. rewrite Hm.
    unfold message_record, bind, prop, ret.
    cbn [JS.get_opt JS.get]. rewrite Hmid, Hcid, Hr.
    rewrite (or_text cid _ Hcne), (or_text r _ (role_nonempty r Hrin)).
    cbv beta iota.
    erewrite insertMessage_run; cbn [m_id m_conversation_id m_role m_content m_parts
      m_create_time m_parent m_children m_author_name].
    - reflexivity.
    - reflexivity.
    - reflexivity.
    - reflexivity.
    - apply bind_sql_of, stringify_or_null_defined.
    - apply bind_sql_of, stringify_or_null_defined.
    - apply bind_sql_of, defined_or. discriminate.
    - apply bind_sql_of, stringify_or_null_defined.
    - apply bind_sql_of, defined_or. discriminate. }
  unfold handleMessageCreated.
  change (JS.get_opt "message" (JObj fields)) with (JS.assoc "message" fields).
  change (JS.get_opt "conversation" (JObj fields)) with (JS.assoc "conversation" fields).
  unfold bind at 1. unfold destructure, ret at 1. cbv beta iota.
  unfold bind at 1.
  destruct Hconv as [Hc | (cf & id & Hc & Hid & Hne)]; rewrite Hc.
  - cbn [JS.truthy]. unfold ret at 1. cbv beta iota.
    rewrite Hinsert. eexists. split; [reflexivity |].
    cbn [messages conversations projects ensured_conversations].
    repeat split; reflexivity.
  - cbn [JS.truthy JS.get_opt JS.get]. rewrite Hid.
    unfold bind at 1. rewrite getConversation_text.
    destruct (conversations st !! id) as [row |] eqn:Erow.
    + unfold ret at 1. cbv beta iota. rewrite Hinsert. eexists. split; [reflexivity |].
      cbn [messages conversations projects ensured_conversations].
      rewrite Hid, Erow. repeat split; reflexivity.
    + unfold bind at 1. unfold method.
      rewrite (handleConversationCreated_embedded cf id _ Hid).
      unfold ret at 1. cbv beta iota. rewrite Hinsert. eexists. split; [reflexivity |].
      cbn [messages conversations projects ensured_conversations].
      rewrite Hid, Erow. repeat split; reflexivity.
Qed.

Lemma handleMessageUpdated_valid (fields mf : list (string * JSValue)) (mid cid r : string)
  (st : Store) :
  valid_message (JS.assoc "message" fields) mf mid cid r ->
  handleMessageUpdated (JObj fields) st
  = (Ok (JObj [("status", JStr "message_updated"); ("messageId", JStr mid)]),
     {| conversations := conversations st;
        messages := <[mid := stored_message (messages st !! mid) mf cid r]> (messages st);
        projects := projects st;
        executed := UpsertMessage mid :: executed st |}).
Proof.
  intros (Hm & Hmid & _ & Hcid & Hcne & Hr & Hrin).
  unfold handleMessageUpdated.
  change (JS.get_opt "message" (JObj fields)) with (JS.assoc "message" fields).
  rewrite Hm.
  unfold message_record, bind, destructure, prop, ret.
  cbn [JS.get_opt JS.get]. rewrite Hmid, Hcid, Hr.
  rewrite (or_text r _ (role_nonempty r Hrin)).
  cbv beta iota.
  cbn [m_id m_conversation_id m_role m_content m_parts
       m_create_time m_parent m_children m_author_name].
  erewrite insertMessage_run; cbn [m_id m_conversation_id m_role m_content m_parts
    m_create_time m_parent m_children m_author_name].
  - reflexivity.
  - reflexivity.
  - reflexivity.
  - reflexivity.
  - apply bind_sql_of, stringify_or_null_defined.
  - apply bind_sql_of, stringify_or_null_defined.
  - apply bind_sql_of, defined_or. discriminate.
  - apply bind_sql_of, stringify_or_null_defined.
  - apply bind_sql_of, defined_or. discriminate.
Qed.


(** The logging helper lets every payload but [undefined] through. *)
Lemma logWebhook_defined (payload : JSValue) (st : Store) :
  payload <> JUndefined -> logWebhook payload st = (Ok tt, st).
Proof.
  intros H. unfold logWebhook.
  destruct (stringify_nonempty payload H) as (t & -> & _). reflexivity.
Qed.







(** The router on a message.created event that the validator accepts. *)
Lemma handleChatGPTWebhook_message_created (now_ms : Z) (req : Request) (st : Store)
  (fields mf : list (string * JSValue)) (mid cid r : string) :
  body req = JObj fields ->
  validateWebhookPayload (body req) = Valid ->
  event_type req = "message.created" ->
  valid_message (JS.assoc "message" fields) mf mid cid r ->
  exists st',
    handleChatGPTWebhook ThisController now_ms req st
    = (success_response now_ms "message.created"
         (JObj [("status", JStr "message_created"); ("messageId", JStr mid)]), st')
    /\ messages st' = <[mid := stored_message (messages st !! mid) mf cid r]> (messages st)
    /\ conversations st'
       = ensured_conversations (JS.assoc "conversation" fields) (conversations st)
    /\ projects st' = projects st.
Proof.
  intros Hbody Hvalid Hevent Hmsg.
  assert (JS.assoc "conversation" fields = JUndefined
          \/ exists cf id, valid_conversation (JS.assoc "conversation" fields) cf id) as Hconv.
  { rewrite Hbody in Hvalid. exact (proj2 (valid_payload_inv fields Hvalid)). }
  destruct (handleMessageCreated_valid fields mf mid cid r st Hmsg Hconv)
    as (st' & Hrun & Hmessages & Hconversations & Hprojects).
  exists st'. split; [| repeat split; assumption].
  unfold handleChatGPTWebhook.
  rewrite logWebhook_defined by (rewrite Hbody; discriminate).
  rewrite Hvalid, Hevent, Hbody.
  unfold dispatch. cbn [String.eqb Ascii.eqb Bool.eqb method]. rewrite Hrun. reflexivity.
Qed.

(** C4 (as amended): for a message.created event that the validator accepts,
    whose message names the embedded conversation as its conversation_id,
    whose embedded conversation is not in the store and whose message id is
    not in the store, the handler of the controller answers with success and
    creates a conversation row and a message row, the message row carrying the
    id of the new conversation. *)
Theorem C4_message_before_conversation (now_ms : Z) (req : Request) (st : Store)
  (fields mf cf : list (string * JSValue)) (mid id : string) :
  body req = JObj fields ->
  validateWebhookPayload (body req) = Valid ->
  event_type req = "message.created" ->
  JS.assoc "message" fields = JObj mf -> JS.assoc "id" mf = JStr mid ->
  JS.assoc "conversation" fields = JObj cf -> JS.assoc "id" cf = JStr id ->
  JS.assoc "conversation_id" mf = JStr id ->
  conversations st !! id = None -> messages st !! mid = None ->
  exists st' mrow,
    handleChatGPTWebhook ThisController now_ms req st
    = (success_response now_ms "message.created"
         (JObj [("status", JStr "message_created"); ("messageId", JStr mid)]), st')
    /\ conversations st' !! id = Some (created_conversation cf)
    /\ messages st' !! mid = Some mrow
    /\ msg_conversation_id mrow = SqlText id.
Proof.
  intros Hbody Hvalid Hevent Hm Hmid Hc Hid Hlink Hnoconv Hnomsg.
  assert (exists cid r, valid_message (JS.assoc "message" fields) mf mid cid r)
    as (cid & r & Hmsg).
  { pose proof Hvalid as Hv. rewrite Hbody in Hv.
    destruct (proj1 (valid_payload_inv fields Hv))
      as [Hu | (mf' & mid' & cid' & r' & Hvm)]; [congruence |].
    pose proof Hvm as (E & Emid & Hne & Ecid & Hcne & Er & Hrin).
    rewrite Hm in E. injection E as <-.
    rewrite Hmid in Emid. injection Emid as <-.
    exists cid', r'. exact Hvm. }
  assert (cid = id) as ->.
  { destruct Hmsg as (_ & _ & _ & Ecid & _). rewrite Hlink in Ecid. congruence. }
  destruct (handleChatGPTWebhook_message_created now_ms req st fields mf mid id r
              Hbody Hvalid Hevent Hmsg)
    as (st' & Hrun & Hmessages & Hconversations & _).
  exists st', (stored_message (messages st !! mid) mf id r).
  split; [exact Hrun |]. split; [| split].
  - rewrite Hconversations, Hc. cbn [ensured_conversations]. rewrite Hid, Hnoconv.
    apply lookup_insert_eq.
  - rewrite Hmessages. apply lookup_insert_eq.
  - rewrite Hnomsg. reflexivity.
Qed.

Lemma C4_message_before_conversation_witness :
  let req := Sample.request (Sample.sign Sample.compact) "message.created"
                            Sample.compact Sample.envelope in
  validateWebhookPayload (body req) = Valid
  /\ event_type req = "message.created"
  /\ exists st' mrow,
       handleChatGPTWebhook ThisController Sample.now_ms req empty_store
       = (success_response Sample.now_ms "message.created"
            (JObj [("status", JStr "message_created"); ("messageId", JStr "m1")]), st')
       /\ conversations st' !! "c1"
          = Some (created_conversation
                    [("id", JStr "c1"); ("title", JStr "T");
                     ("create_time", JNum 1700000000); ("update_time", JNum 1700000000)])
       /\ messages st' !! "m1" = Some mrow
       /\ msg_conversation_id mrow = SqlText "c1".
Proof.
  intros req.
  assert (validateWebhookPayload (body req) = Valid) as Hv by (vm_compute; reflexivity).
  assert (event_type req = "message.created") as He by (vm_compute; reflexivity).
  split; [exact Hv |]. split; [exact He |].
  exact (C4_message_before_conversation Sample.now_ms req empty_store
           [("message", Sample.message); ("conversation", Sample.conversation)]
           [("id", JStr "m1"); ("conversation_id", JStr "c1"); ("role", JStr "user");
            ("content", JStr "hi"); ("create_time", JNum 1700000000)]
           [("id", JStr "c1"); ("title", JStr "T");
            ("create_time", JNum 1700000000); ("update_time", JNum 1700000000)]
           "m1" "c1" eq_refl Hv He eq_refl eq_refl eq_refl eq_refl eq_refl eq_refl eq_refl).
Defined.

(** C4 (as stated) fails: the sample event embeds the conversation c1, not
    yet stored, and its message names c2; the validator accepts it, the
    handler creates the conversation row c1 and a message row m1 whose
    conversation_id is c2. *)
Lemma C4_message_linked_elsewhere :
  let st' := snd (handleMessageCreated ThisController Sample.envelope_elsewhere empty_store) in
  validateWebhookPayload Sample.envelope_elsewhere = Valid
  /\ conversations empty_store !! "c1" = None
  /\ conversations st' !! "c1" <> None
  /\ exists mrow, messages st' !! "m1" = Some mrow
                  /\ msg_conversation_id mrow = SqlText "c2"
                  /\ msg_conversation_id mrow <> SqlText "c1".
Proof.
  intros st'.
  split; [vm_compute; reflexivity |].
  split; [vm_compute; reflexivity |].
  split; [vm_compute; discriminate |].
  eexists. split; [vm_compute; reflexivity |].
  split; [reflexivity | discriminate].
Qed.

(** C5 (as amended): the envelope of the end-to-end scenario, handled as a
    message.created event by the controller from a store with no conversation
    c1, leaves a conversation row c1 with title T and a message row m1 with
    role user whose stored content is the JSON text of the content, the two
    letters between double quotes; the answer is 200 with status success, the
    event type, and the result message_created for m1. *)
Theorem C5_end_to_end (now_ms : Z) (req : Request) (st : Store) :
  body req = Sample.envelope ->
  event_type req = "message.created" ->
  conversations st !! "c1" = None ->
  exists st' crow mrow,
    handleChatGPTWebhook ThisController now_ms req st
    = (success_response now_ms "message.created"
         (JObj [("status", JStr "message_created"); ("messageId", JStr "m1")]), st')
    /\ conversations st' !! "c1" = Some crow
    /\ conv_title crow = SqlText "T"
    /\ messages st' !! "m1" = Some mrow
    /\ msg_content mrow = SqlText (quoted "hi")
    /\ msg_role mrow = SqlText "user".
Proof.
  intros Hbody Hevent Hnoconv.
  assert (validateWebhookPayload (body req) = Valid) as Hvalid
    by (rewrite Hbody; vm_compute; reflexivity).
  assert (valid_message
            (JS.assoc "message" [("message", Sample.message);
                                 ("conversation", Sample.conversation)])
            [("id", JStr "m1"); ("conversation_id", JStr "c1"); ("role", JStr "user");
             ("content", JStr "hi"); ("create_time", JNum 1700000000)]
            "m1" "c1" "user") as Hmsg.
  { repeat split; try reflexivity; try discriminate. left. reflexivity. }
  destruct (handleChatGPTWebhook_message_created now_ms req st _ _ _ _ _
              Hbody Hvalid Hevent Hmsg)
    as (st' & Hrun & Hmessages & Hconversations & _).
  eexists st', _, _.
  split; [exact Hrun |].
  split; [rewrite Hconversations; cbn [JS.assoc String.eqb Ascii.eqb Bool.eqb
            Sample.conversation ensured_conversations]; rewrite Hnoconv;
          apply lookup_insert_eq |].
  split; [reflexivity |].
  split; [rewrite Hmessages; apply lookup_insert_eq |].
  split; reflexivity.
Qed.

Lemma C5_end_to_end_witness :
  let req := Sample.request (Sample.sign Sample.compact) "message.created"
                            Sample.compact Sample.envelope in
  body req = Sample.envelope
  /\ event_type req = "message.created"
  /\ conversations empty_store !! "c1" = None
  /\ exists st' crow mrow,
       handleChatGPTWebhook ThisController Sample.now_ms req empty_store
       = (success_response Sample.now_ms "message.created"
            (JObj [("status", JStr "message_created"); ("messageId", JStr "m1")]), st')
       /\ conversations st' !! "c1" = Some crow
       /\ conv_title crow = SqlText "T"
       /\ messages st' !! "m1" = Some mrow
       /\ msg_content mrow = SqlText (quoted "hi")
       /\ msg_role mrow = SqlText "user".
Proof.
  intros req.
  assert (event_type req = "message.created") as He by (vm_compute; reflexivity).
  split; [reflexivity |]. split; [exact He |]. split; [reflexivity |].
  exact (C5_end_to_end Sample.now_ms req empty_store eq_refl He eq_refl).
Defined.

(** C5 (as stated) fails twice on the sample request, whose signature is
    valid and whose timestamp is in the window.  Through the route the handler
    runs without a receiver: the answer is 500 and nothing is stored.  Called
    on the controller, the handler stores as content the JSON text of the
    content, which is not the two letters of the content. *)
Lemma C5_post_fails_and_content_is_json_text :
  let req := Sample.request (Sample.sign Sample.compact) "message.created"
                            Sample.compact Sample.envelope in
  incoming (headers req) Sample.compact = Some req
  /\ validateWebhookSignature Sample.secret Sample.now_ms req = Next
  /\ status (fst (post_webhook_chatgpt Sample.secret Sample.now_ms req empty_store)) = 500%Z
  /\ snd (post_webhook_chatgpt Sample.secret Sample.now_ms req empty_store) = empty_store
  /\ exists mrow,
       messages (snd (handleChatGPTWebhook ThisController Sample.now_ms req empty_store))
         !! "m1" = Some mrow
       /\ msg_content mrow = SqlText (quoted "hi")
       /\ msg_content mrow <> SqlText "hi".
Proof.
  intros req.
  split; [vm_compute; reflexivity |].
  split; [vm_compute; reflexivity |].
  split; [vm_compute; reflexivity |].
  split; [vm_compute; reflexivity |].
  eexists. split; [vm_compute; reflexivity |].
  split; [reflexivity | vm_compute; discriminate].
Qed.

(** The content that a message handler stores: NULL or non-empty text. *)
Lemma stored_content_cases (old : option MessageRow) (mf : list (string * JSValue))
  (cid r : string) :
  msg_content (stored_message old mf cid r) = SqlNull
  \/ nonempty_text (msg_content (stored_message old mf cid r)).
Proof.
  unfold stored_message, upserted, nonempty_text. cbn [msg_content].
  destruct (stringify_or_null_cases (JS.assoc "content" mf)) as [-> | (t & -> & Ht)].
  - left. reflexivity.
  - right. exists t. split; [reflexivity | exact Ht].
Qed.

(** What [ChatBETODatabaseService.insertMessage] leaves when it returns. *)
Lemma chatbeto_insert_row (env : ChatBETODatabaseService.Env)
  (conversationId role content options : JSValue)
  (pool pool' : ChatBETODatabaseService.Pool) (result : JSValue) :
  ChatBETODatabaseService.insertMessage env conversationId role content options pool
  = (Ok result, pool') ->
  exists id row r s,
    ChatBETODatabaseService.rows pool' !! id = Some row
    /\ role = JStr r /\ In r ChatBETODatabaseService.roles
    /\ ChatBETODatabaseService.role row = SqlText r
    /\ content = JStr s /\ JS.trim s <> ""
    /\ ChatBETODatabaseService.content row = SqlText (JS.trim s)
    /\ ChatBETODatabaseService.executed pool'
       = id :: ChatBETODatabaseService.executed pool.
Proof.
  unfold ChatBETODatabaseService.insertMessage.
  destruct (negb (JS.truthy conversationId)
            || negb (ChatBETODatabaseService.is_string conversationId)); [discriminate |].
  destruct (negb (JS.truthy role)
            || negb (ChatBETODatabaseService.includes ChatBETODatabaseService.roles role))
    eqn:Erole; [discriminate |].
  destruct (negb (JS.truthy content) || negb (ChatBETODatabaseService.is_string content))
    eqn:Econtent; [discriminate |].
  apply orb_false_elim in Erole as [_ Erole]. apply negb_false_iff in Erole.
  apply orb_false_elim in Econtent as [_ Econtent]. apply negb_false_iff in Econtent.
  destruct role as [| | | | r | |]; try discriminate Erole.
  destruct content as [| | | | s | |]; try discriminate Econtent.
  cbn [ChatBETODatabaseService.includes] in Erole.
  apply existsb_exists in Erole as (x & Hx & Heq). apply String.eqb_eq in Heq. subst x.
  destruct (String.length (JS.trim s) =? 0)%nat eqn:Elen; [discriminate |].
  assert (JS.trim s <> "") as Hne.
  { intros E. rewrite E in Elen. discriminate Elen. }
  unfold ChatBETODatabaseService.insert_checked.
  destruct (JS.get "id" _) as [id |]; [| discriminate].
  cbn [bind_param].
  destruct (bind_param (JS.or id _)) as [k0 |]; [| discriminate].
  destruct (bind_param conversationId) as [c |]; [| discriminate].
  destruct (bind_param (JS.or (JS.get_opt "contentType" _) _)) as [ct |]; [| discriminate].
  destruct (bind_param (JS.or (JS.get_opt "authorName" _) _)) as [au |]; [| discriminate].
  destruct (bind_param (JS.or (JS.get_opt "parentMessageId" _) _)) as [pm |];
    [| discriminate].
  destruct (key_text "id" k0) as [k |]; [| discriminate].
  cbn [ChatBETODatabaseService.wrap].
  intros [= _ <-].
  unfold ChatBETODatabaseService.execute.
  cbn [ChatBETODatabaseService.rows ChatBETODatabaseService.executed].
  exists k. eexists. exists r, s.
  split; [apply lookup_insert_eq |].
  destruct (ChatBETODatabaseService.rows pool !! k);
    cbn [ChatBETODatabaseService.role ChatBETODatabaseService.content];
    repeat split; try reflexivity; assumption.
Qed.

(** The content that a message handler stores for a content that the
    validator accepts: NULL exactly for an absent or a null content, and
    otherwise the JSON text of the content, which is not empty. *)
Lemma stored_content_of_accepted (old : option MessageRow) (mf : list (string * JSValue))
  (cid r : string) :
  accepted_content (JS.assoc "content" mf) ->
  (msg_content (stored_message old mf cid r) = SqlNull
   <-> JS.assoc "content" mf = JUndefined \/ JS.assoc "content" mf = JNull)
  /\ (forall t, JS.stringify (JS.assoc "content" mf) = Some t ->
      JS.assoc "content" mf <> JNull ->
      msg_content (stored_message old mf cid r) = SqlText t).
Proof.
  unfold stored_message, upserted. cbn [msg_content]. unfold stringify_or_null.
  intros [-> | [-> | [(s & -> & Hs) | [(l & ->) | (l & ->)]]]].
  - split; [split; [left |]; reflexivity | discriminate].
  - split; [split; [right |]; reflexivity |]. intros t _ H. destruct H. reflexivity.
  - destruct s as [| a s]; [destruct Hs; reflexivity |].
    cbn [JS.truthy String.eqb negb].
    split; [split; [discriminate | intros [E | E]; discriminate E] |].
    intros t Ht _. rewrite Ht. reflexivity.
  - cbn [JS.truthy].
    split; [split; [| intros [E | E]; discriminate E] |].
    + destruct (JS.stringify (JObj l)) eqn:E; [discriminate | discriminate E].
    + intros t Ht _. rewrite Ht. reflexivity.
  - cbn [JS.truthy].
    split; [split; [| intros [E | E]; discriminate E] |].
    + destruct (JS.stringify (JArr l)) eqn:E; [discriminate | discriminate E].
    + intros t Ht _. rewrite Ht. reflexivity.
Qed.

(** C9 (as amended): a message that the validator accepts and that a message
    handler of the controller persists is stored under its id with its own
    role, one of user, assistant, system; its stored content is NULL exactly
    when the message has no content or a null one, and otherwise text that
    is not empty, the JSON text of the content (for a content whose numbers
    are safe integers).  A message that
    [ChatBETODatabaseService.insertMessage] persists is stored by the one
    statement the call executes, with its own role, one of the closed set,
    and with its trimmed content, which is not empty. *)
Theorem C9_stored_role_and_content :
  (forall (now_ms : Z) (req : Request) (st : Store) (fields : list (string * JSValue)),
     body req = JObj fields ->
     validateWebhookPayload (body req) = Valid ->
     JS.assoc "message" fields <> JUndefined ->
     event_type req = "message.created" \/ event_type req = "message.updated" ->
     exists mf mid r result st' mrow,
       JS.assoc "message" fields = JObj mf
       /\ JS.assoc "id" mf = JStr mid /\ JS.assoc "role" mf = JStr r
       /\ handleChatGPTWebhook ThisController now_ms req st
          = (success_response now_ms (event_type req) result, st')
       /\ JS.get_opt "messageId" result = JStr mid
       /\ messages st' !! mid = Some mrow
       /\ msg_role mrow = SqlText r /\ In r ["user"; "assistant"; "system"]
       /\ (msg_content mrow = SqlNull \/ nonempty_text (msg_content mrow))
       /\ (msg_content mrow = SqlNull
           <-> JS.assoc "content" mf = JUndefined \/ JS.assoc "content" mf = JNull)
       /\ (safe_numbers (JS.assoc "content" mf) = true ->
           forall t, JS.stringify (JS.assoc "content" mf) = Some t ->
                     JS.assoc "content" mf <> JNull ->
                     msg_content mrow = SqlText t))
  /\ (forall env conversationId role content options pool result pool',
        ChatBETODatabaseService.insertMessage env conversationId role content options pool
        = (Ok result, pool') ->
        exists id row r s,
          role = JStr r /\ content = JStr s
          /\ ChatBETODatabaseService.executed pool'
             = id :: ChatBETODatabaseService.executed pool
          /\ ChatBETODatabaseService.rows pool' !! id = Some row
          /\ ChatBETODatabaseService.role row = SqlText r /\ In r closed_roles
          /\ ChatBETODatabaseService.content row = SqlText (JS.trim s)
          /\ JS.trim s <> ""
          /\ nonempty_text (ChatBETODatabaseService.content row)).
Proof.
  split.
  - intros now_ms req st fields Hbody Hvalid Hpresent Hevent.
    pose proof Hvalid as Hv. rewrite Hbody in Hv.
    destruct (proj1 (valid_payload_inv fields Hv))
      as [Hu | (mf & mid & cid & r & Hmsg)]; [contradiction |].
    pose proof Hmsg as (Hmf & Hmid & _ & _ & _ & Hr & Hrin).
    pose proof (valid_payload_content fields mf Hv Hmf) as Hcontent.
    assert (exists result st',
              handleChatGPTWebhook ThisController now_ms req st
              = (success_response now_ms (event_type req) result, st')
              /\ JS.get_opt "messageId" result = JStr mid
              /\ messages st' !! mid = Some (stored_message (messages st !! mid) mf cid r))
      as (result & st' & Hrun & Hresult & Hrow).
    { destruct Hevent as [Hevent | Hevent].
      - destruct (handleChatGPTWebhook_message_created now_ms req st fields mf mid cid r
                    Hbody Hvalid Hevent Hmsg) as (st' & Hrun & Hmessages & _).
        eexists _, st'. rewrite Hevent. split; [exact Hrun |].
        split; [reflexivity | rewrite Hmessages; apply lookup_insert_eq].
      - eexists _, _. split; [| split].
        + unfold handleChatGPTWebhook.
          rewrite logWebhook_defined by (rewrite Hbody; discriminate).
          rewrite Hvalid, Hevent, Hbody.
          unfold dispatch. cbn [String.eqb Ascii.eqb Bool.eqb method].
          rewrite (handleMessageUpdated_valid fields mf mid cid r st Hmsg). reflexivity.
        + reflexivity.
        + cbn [messages]. apply lookup_insert_eq. }
    destruct (stored_content_of_accepted (messages st !! mid) mf cid r Hcontent)
      as [Hnull Htext].
    exists mf, mid, r, result, st', (stored_message (messages st !! mid) mf cid r).
    split; [exact Hmf |]. split; [exact Hmid |]. split; [exact Hr |].
    split; [exact Hrun |]. split; [exact Hresult |]. split; [exact Hrow |].
    split; [reflexivity |]. split; [exact Hrin |].
    split; [apply stored_content_cases |]. split; [exact Hnull |].
    intros _. exact Htext.
  - intros env conversationId role content options pool result pool' Hrun.
    destruct (chatbeto_insert_row _ _ _ _ _ _ _ _ Hrun)
      as (id & row & r & s & Hrow & Hr & Hrin & Hrole & Hs & Hne & Hcontent & Hexec).
    exists id, row, r, s.
    split; [exact Hr |]. split; [exact Hs |]. split; [exact Hexec |].
    split; [exact Hrow |]. split; [exact Hrole |]. split; [exact Hrin |].
    split; [exact Hcontent |]. split; [exact Hne |].
    exists (JS.trim s). split; [exact Hcontent | exact Hne].
Qed.

Lemma C9_stored_role_and_content_witness :
  let req := Sample.request (Sample.sign Sample.compact) "message.created"
                            Sample.compact Sample.envelope in
  validateWebhookPayload (body req) = Valid
  /\ exists result st' mrow,
       handleChatGPTWebhook ThisController Sample.now_ms req empty_store
       = (success_response Sample.now_ms (event_type req) result, st')
       /\ messages st' !! "m1" = Some mrow
       /\ msg_role mrow = SqlText "user"
       /\ msg_content mrow = SqlText (quoted "hi").
Proof.
  intros req.
  assert (validateWebhookPayload (body req) = Valid) as Hv by (vm_compute; reflexivity).
  split; [exact Hv |].
  destruct (proj1 C9_stored_role_and_content Sample.now_ms req empty_store
              [("message", Sample.message); ("conversation", Sample.conversation)]
              eq_refl Hv)
    as (mf & mid & r & result & st' & mrow & Hmf & Hmid & Hr & Hrun & _ & Hrow & Hrole
        & _ & _ & _ & Htext).
  - discriminate.
  - left. vm_compute. reflexivity.
  - injection Hmf as <-. injection Hmid as <-. injection Hr as <-.
    exists result, st', mrow. split; [exact Hrun |]. split; [exact Hrow |].
    split; [exact Hrole |].
    apply Htext; [reflexivity | reflexivity | discriminate].
Defined.

(** C9 (as stated) fails: the validator accepts the sample message that has
    no content, the handler persists it, and its stored content is NULL. *)
Lemma C9_content_may_be_null :
  let st' := snd (handleMessageCreated ThisController Sample.envelope_without_content
                    empty_store) in
  validateWebhookPayload Sample.envelope_without_content = Valid
  /\ exists mrow, messages st' !! "m2" = Some mrow
                  /\ msg_content mrow = SqlNull
                  /\ ~ nonempty_text (msg_content mrow).
Proof.
  intros st'.
  split; [vm_compute; reflexivity |].
  eexists. split; [vm_compute; reflexivity |].
  split; [reflexivity |].
  intros (s & E & _). discriminate E.
Qed.

End Router.

(** ** [ChatBETODatabaseService.insertMessage] *)

Section ChatBETO.
Import ChatBETODatabaseService.

Lemma truthy_string (v : JSValue) :
  negb (JS.truthy v) || negb (is_string v) = false -> exists s, v = JStr s /\ s <> "".
Proof.
  intros H. apply orb_false_elim in H as [Ht Hs].
  apply negb_false_iff in Ht, Hs.
  destruct v as [| | | | s | |]; try discriminate Hs.
  exists s. split; [reflexivity |]. intros ->. discriminate Ht.
Qed.

(** C10: when conversationId is not a non-empty string, or role is outside
    user, assistant, system, tool, or content is not a string or trims to the
    empty string, [insertMessage] throws and the pool is as it was: no row
    changed and no statement executed. *)
Theorem C10_invalid_input_throws_before_sql (env : Env)
  (conversationId role content options : JSValue) (pool : Pool) :
  ~ (exists s, conversationId = JStr s /\ s <> "")
  \/ ~ (exists r, role = JStr r /\ In r roles)
  \/ ~ (exists s, content = JStr s)
  \/ (exists s, content = JStr s /\ JS.trim s = "") ->
  exists msg, insertMessage env conversationId role content options pool = (Throw msg, pool).
Proof.
  intros H. unfold insertMessage.
  destruct (negb (JS.truthy conversationId) || negb (is_string conversationId)) eqn:E1;
    [eexists; reflexivity |].
  destruct (negb (JS.truthy role) || negb (includes roles role)) eqn:E2;
    [eexists; reflexivity |].
  destruct (negb (JS.truthy content) || negb (is_string content)) eqn:E3;
    [eexists; reflexivity |].
  destruct (truthy_string _ E1) as (c & -> & Hc).
  destruct (truthy_string _ E3) as (s & -> & Hs).
  apply orb_false_elim in E2 as [_ E2]. apply negb_false_iff in E2.
  destruct role as [| | | | r | |]; try discriminate E2.
  cbn [includes] in E2.
  apply existsb_exists in E2 as (x & Hx & Heq). apply String.eqb_eq in Heq. subst x.
  destruct H as [H | [H | [H | (s' & [= <-] & Htrim)]]].
  - destruct H. exists c. split; [reflexivity | exact Hc].
  - destruct H. exists r. split; [reflexivity | exact Hx].
  - destruct H. exists s. reflexivity.
  - rewrite Htrim. cbn [String.length Nat.eqb]. eexists. reflexivity.
Qed.

Lemma C10_invalid_input_throws_before_sql_witness :
  let env := {| uuid := "00000000-0000-4000-8000-000000000000";
                now_ms := Sample.now_ms; db_now := Sample.now_ms |} in
  let pool := {| rows := ∅; executed := [] |} in
  (~ (exists r, JStr "admin" = JStr r /\ In r roles))
  /\ exists msg,
       insertMessage env (JStr "c1") (JStr "admin") (JStr "hi") JUndefined pool
       = (Throw msg, pool).
Proof.
  intros env pool.
  assert (~ (exists r, JStr "admin" = JStr r /\ In r roles)) as H.
  { intros (r & [= <-] & [E | [E | [E | [E | []]]]]); discriminate E. }
  split; [exact H |].
  apply C10_invalid_input_throws_before_sql. right. left. exact H.
Defined.

End ChatBETO.

(** * Further properties *)

(** ** The signature verifier, beyond the replay window *)

Section VerifierEdges.
Local Open Scope Z_scope.

Lemma append_cons (a : ascii) (s t : string) : String a s +:+ t = String a (s +:+ t).
Proof. reflexivity. Qed.

Lemma hex_of_bytes_hex (bs : list Z) :
  Forall byte bs -> Forall hex_char (list_ascii_of_string (hex_of_bytes bs)).
Proof.
  induction 1 as [| b bs Hb _ IH]; [constructor |].
  unfold byte in Hb. cbn [hex_of_bytes list_ascii_of_string].
  constructor; [| constructor; [| exact IH]]; unfold hex_char.
  - rewrite hex_digit_value; [discriminate |].
    split; [apply Z.div_pos; lia | apply Z.div_lt_upper_bound; lia].
  - rewrite hex_digit_value; [discriminate | apply Z.mod_pos_bound; lia].
Qed.

(** No hexadecimal text contains the marker that the verifier strips. *)
Lemma replace_marker_hex (s : string) :
  Forall hex_char (list_ascii_of_string s) -> JS.replace "sha256=" "" s = s.
Proof.
  induction s as [| c s IH]; intros H; [reflexivity |].
  cbn [list_ascii_of_string] in H. apply Forall_cons_1 in H as [Hc Hs].
  assert (Ascii.eqb "s" c = false) as Hne.
  { destruct (Ascii.eqb_spec "s"%char c) as [<- |]; [| reflexivity].
    destruct Hc. reflexivity. }
  cbn [JS.replace JS.strip_prefix]. rewrite Hne. f_equal. exact (IH Hs).
Qed.

Lemma buffer_from_hex_trailing (bs : list Z) (c : ascii) :
  Forall byte bs -> JS.buffer_from_hex (hex_of_bytes bs +:+ String c "") = bs.
Proof.
  induction 1 as [| b bs Hb _ IH]; [reflexivity |].
  unfold byte in Hb. cbn [hex_of_bytes]. rewrite !append_cons.
  cbn [JS.buffer_from_hex]. rewrite !hex_digit_value, IH.
  - f_equal. pose proof (Z.div_mod b 16). lia.
  - apply Z.mod_pos_bound. lia.
  - split; [apply Z.div_pos; lia | apply Z.div_lt_upper_bound; lia].
Qed.

Lemma hmac_bytes (key msg : list Z) : Forall byte (SHA256.hmac_sha256 key msg).
Proof. unfold SHA256.hmac_sha256. apply sha256_digest. Qed.

(** X1: the verifier answers 401 "Missing signature or timestamp" exactly
    when one of the two headers is absent or empty, whatever the clock, the
    secret and the body. *)
Theorem X1_missing_credentials (secret : string) (now_ms : Z) (req : Request) :
  validateWebhookSignature secret now_ms req = Respond missing_credentials_response
  <-> header_value "x-webhook-signature" req = None
      \/ header_value "x-webhook-timestamp" req = None.
Proof.
  unfold validateWebhookSignature.
  destruct (header_value "x-webhook-signature" req) as [signature |];
    [| split; [intros _; left; reflexivity | reflexivity]].
  destruct (header_value "x-webhook-timestamp" req) as [timestamp |];
    [| split; [intros _; right; reflexivity | reflexivity]].
  split; [| intros [H | H]; discriminate H].
  destruct (too_old _ _); [discriminate |].
  destruct (JS.timingSafeEqual _ _) as [[|] |]; discriminate.
Qed.

(** X2: for a request with a fresh timestamp and a body whose numbers are
    safe integers (so that the JSON text of the body is the text that the
    verifier hashes), the verdict is decided by the bytes that the supplied
    signature decodes to: accepted when they are the 32 bytes of the HMAC of
    the timestamp, a dot and the re-serialised body; 401 "Invalid signature"
    when they are 32 other bytes; 500 otherwise. *)
Theorem X2_verdict_by_decoded_bytes (secret : string) (now_ms : Z) (req : Request)
  (signature timestamp : string) :
  header_value "x-webhook-signature" req = Some signature ->
  header_value "x-webhook-timestamp" req = Some timestamp ->
  too_old (now_ms / 1000) (JS.parseInt timestamp) = false ->
  safe_numbers (body req) = true ->
  let supplied := JS.buffer_from_hex (JS.replace "sha256=" "" signature) in
  let digest := SHA256.hmac_sha256 (utf8 secret) (utf8 (signed_text timestamp req)) in
  (supplied = digest -> validateWebhookSignature secret now_ms req = Next)
  /\ (supplied <> digest -> length supplied = 32%nat ->
      validateWebhookSignature secret now_ms req = Respond invalid_signature_response)
  /\ (length supplied <> 32%nat ->
      validateWebhookSignature secret now_ms req = Respond validation_failed_response).
Proof.
  intros Hs Ht Hfresh _ supplied digest.
  rewrite (validateWebhookSignature_present _ _ _ _ _ Hs Ht), Hfresh.
  destruct (expected_signature_bytes secret (signed_text timestamp req)) as [Hb Hl].
  rewrite Hb in *. fold digest supplied in Hl |- *.
  unfold JS.timingSafeEqual, JS.bytes_eqb. rewrite Hl.
  split; [| split].
  - intros E. rewrite E, Hl, Nat.eqb_refl.
    rewrite bool_decide_eq_true_2; reflexivity.
  - intros Hne Hlen. rewrite Hlen, Nat.eqb_refl.
    rewrite bool_decide_eq_false_2; [reflexivity | congruence].
  - intros Hlen. destruct (Nat.eqb_spec 32 (length supplied)); [congruence | reflexivity].
Qed.

Lemma X2_verdict_by_decoded_bytes_witness :
  let req := Sample.request "sha256=00" "message.created" Sample.compact Sample.envelope in
  header_value "x-webhook-signature" req = Some "sha256=00"
  /\ header_value "x-webhook-timestamp" req = Some Sample.timestamp
  /\ too_old (Sample.now_ms / 1000) (JS.parseInt Sample.timestamp) = false
  /\ safe_numbers (body req) = true
  /\ length (JS.buffer_from_hex (JS.replace "sha256=" "" "sha256=00")) <> 32%nat
  /\ validateWebhookSignature Sample.secret Sample.now_ms req
     = Respond validation_failed_response.
Proof.
  intros req.
  assert (safe_numbers (body req) = true) as Hn by reflexivity.
  assert (header_value "x-webhook-signature" req = Some "sha256=00") as Hs
    by (vm_compute; reflexivity).
  assert (header_value "x-webhook-timestamp" req = Some Sample.timestamp) as Ht
    by (vm_compute; reflexivity).
  assert (too_old (Sample.now_ms / 1000) (JS.parseInt Sample.timestamp) = false) as Hf
    by (vm_compute; reflexivity).
  assert (length (JS.buffer_from_hex (JS.replace "sha256=" "" "sha256=00")) <> 32%nat)
    as Hl by (vm_compute; discriminate).
  split; [exact Hs |]. split; [exact Ht |]. split; [exact Hf |]. split; [exact Hn |].
  split; [exact Hl |].
  exact (proj2 (proj2 (X2_verdict_by_decoded_bytes Sample.secret Sample.now_ms req _ _
                         Hs Ht Hf Hn)) Hl).
Defined.

(** X3: the "sha256=" marker is optional, and a stray character after the
    64 digits is ignored: for a fresh request with a body whose numbers are
    safe integers, the expected hexadecimal digest is accepted bare, with the
    marker, and with the marker and any one more character appended. *)
Theorem X3_accepted_forms (secret : string) (now_ms : Z) (req : Request)
  (signature timestamp : string) (c : ascii) :
  header_value "x-webhook-signature" req = Some signature ->
  header_value "x-webhook-timestamp" req = Some timestamp ->
  too_old (now_ms / 1000) (JS.parseInt timestamp) = false ->
  safe_numbers (body req) = true ->
  let expected := hmac_sha256_hex secret (signed_text timestamp req) in
  signature = expected
  \/ signature = "sha256=" +:+ expected
  \/ signature = "sha256=" +:+ (expected +:+ String c "") ->
  validateWebhookSignature secret now_ms req = Next.
Proof.
  intros Hs Ht Hfresh _ expected Hform.
  apply (signature_accepted_iff secret now_ms req signature timestamp Hs Ht Hfresh).
  destruct (expected_signature_bytes secret (signed_text timestamp req)) as [Hb _].
  fold expected in Hb.
  destruct Hform as [-> | [-> | ->]].
  - rewrite replace_marker_hex; [exact Hb |].
    apply hex_of_bytes_hex, hmac_bytes.
  - rewrite replace_prefix. exact Hb.
  - rewrite replace_prefix. apply buffer_from_hex_trailing, hmac_bytes.
Qed.

Lemma X3_accepted_forms_witness :
  let expected := hmac_sha256_hex Sample.secret
                    (Sample.timestamp +:+ "." +:+ Sample.compact) in
  let signature := "sha256=" +:+ (expected +:+ "f") in
  let req := Sample.request signature "message.created" Sample.compact Sample.envelope in
  header_value "x-webhook-signature" req = Some signature
  /\ header_value "x-webhook-timestamp" req = Some Sample.timestamp
  /\ too_old (Sample.now_ms / 1000) (JS.parseInt Sample.timestamp) = false
  /\ safe_numbers (body req) = true
  /\ validateWebhookSignature Sample.secret Sample.now_ms req = Next.
Proof.
  intros expected signature req.
  assert (safe_numbers (body req) = true) as Hn by reflexivity.
  assert (header_value "x-webhook-signature" req = Some signature) as Hs
    by (vm_compute; reflexivity).
  assert (header_value "x-webhook-timestamp" req = Some Sample.timestamp) as Ht
    by (vm_compute; reflexivity).
  assert (too_old (Sample.now_ms / 1000) (JS.parseInt Sample.timestamp) = false) as Hf
    by (vm_compute; reflexivity).
  split; [exact Hs |]. split; [exact Ht |]. split; [exact Hf |]. split; [exact Hn |].
  apply (X3_accepted_forms Sample.secret Sample.now_ms req signature Sample.timestamp "f"
           Hs Ht Hf Hn).
  right. right. vm_compute. reflexivity.
Defined.

(** X4: a timestamp header that does not start with a number is never too
    old: the freshness test compares with NaN, so the verdict is the same at
    every time of the clock. *)
Theorem X4_unparsable_timestamp_never_expires (secret : string) (req : Request)
  (signature timestamp : string) :
  header_value "x-webhook-signature" req = Some signature ->
  header_value "x-webhook-timestamp" req = Some timestamp ->
  JS.parseInt timestamp = None ->
  forall now_ms now_ms',
    validateWebhookSignature secret now_ms req = validateWebhookSignature secret now_ms' req
    /\ validateWebhookSignature secret now_ms req <> Respond too_old_response.
Proof.
  intros Hs Ht Hnan now_ms now_ms'.
  rewrite !(validateWebhookSignature_present _ _ _ _ _ Hs Ht), Hnan.
  cbn [too_old]. split; [reflexivity |].
  destruct (JS.timingSafeEqual _ _) as [[|] |]; responses; discriminate.
Qed.

Lemma X4_unparsable_timestamp_never_expires_witness :
  let signature := "sha256=" +:+ hmac_sha256_hex Sample.secret ("soon." +:+ Sample.compact) in
  let req := {| headers := <["x-webhook-signature" := signature]>
                             (<["x-webhook-timestamp" := "soon"]> ∅);
                rawBody := Sample.compact; body := Sample.envelope |} in
  header_value "x-webhook-signature" req = Some signature
  /\ header_value "x-webhook-timestamp" req = Some "soon"
  /\ JS.parseInt "soon" = None
  /\ validateWebhookSignature Sample.secret 0 req
     = validateWebhookSignature Sample.secret 4102444800000 req
  /\ validateWebhookSignature Sample.secret 0 req = Next.
Proof.
  intros signature req.
  assert (header_value "x-webhook-signature" req = Some signature) as Hs
    by (vm_compute; reflexivity).
  assert (header_value "x-webhook-timestamp" req = Some "soon") as Ht
    by (vm_compute; reflexivity).
  assert (JS.parseInt "soon" = None) as Hp by (vm_compute; reflexivity).
  split; [exact Hs |]. split; [exact Ht |]. split; [exact Hp |].
  split; [| vm_compute; reflexivity].
  exact (proj1 (X4_unparsable_timestamp_never_expires Sample.secret req _ _ Hs Ht Hp
                  0 4102444800000)).
Defined.

End VerifierEdges.

(** ** The access guard *)

Section AccessGuard.

Lemma replace_unfold (pat rep s : string) :
  JS.replace pat rep s =
  match JS.strip_prefix pat s with
  | Some rest => rep +:+ rest
  | None => match s with
            | String c s' => String c (JS.replace pat rep s')
            | EmptyString => EmptyString
            end
  end.
Proof. destruct s; reflexivity. Qed.

Lemma occurs_unfold (pat s : string) :
  occurs pat s =
  match JS.strip_prefix pat s with
  | Some _ => true
  | None => match s with
            | String _ s' => occurs pat s'
            | EmptyString => false
            end
  end.
Proof. destruct s; reflexivity. Qed.

(** Replacing a pattern that does not occur changes nothing. *)
Lemma replace_absent (pat rep s : string) :
  occurs pat s = false -> JS.replace pat rep s = s.
Proof.
  induction s as [| c s IH]; intros H; rewrite replace_unfold; rewrite occurs_unfold in H.
  - destruct (JS.strip_prefix pat ""); [discriminate | reflexivity].
  - destruct (JS.strip_prefix pat (String c s)); [discriminate |].
    f_equal. exact (IH H).
Qed.

Lemma strip_own_prefix (p rest : string) : JS.strip_prefix p (p +:+ rest) = Some rest.
Proof.
  induction p as [| a p IH]; [destruct rest; reflexivity |].
  rewrite append_cons. cbn [JS.strip_prefix]. rewrite Ascii.eqb_refl. exact IH.
Qed.

Lemma replace_own_prefix (p rest : string) : JS.replace p "" (p +:+ rest) = rest.
Proof. rewrite replace_unfold, strip_own_prefix. reflexivity. Qed.

Lemma cleanApiKey_forms (key : string) :
  occurs "Bearer " key = false -> occurs "ApiKey " key = false ->
  cleanApiKey key = key
  /\ cleanApiKey ("Bearer " +:+ key) = key
  /\ cleanApiKey ("ApiKey " +:+ key) = key.
Proof.
  intros Hb Ha. unfold cleanApiKey. split; [| split].
  - rewrite (replace_absent _ _ _ Hb). exact (replace_absent _ _ _ Ha).
  - rewrite replace_own_prefix. exact (replace_absent _ _ _ Ha).
  - rewrite (replace_absent "Bearer " "" ("ApiKey " +:+ key)).
    + apply replace_own_prefix.
    + change ("ApiKey " +:+ key)
        with (String "A" (String "p" (String "i" (String "K" (String "e"
               (String "y" (String " " key))))))).
      do 7 (rewrite occurs_unfold; cbn [JS.strip_prefix Ascii.eqb Bool.eqb]).
      exact Hb.
Qed.

(** X5: with a configured key that contains neither "Bearer " nor "ApiKey ",
    the guard lets a request pass when the credential it reads is the key,
    bare or after one of the two prefixes; the credential is the x-api-key
    header when that is not empty and the authorization header otherwise, so
    a wrong x-api-key is refused with 401 "Invalid API key" even beside a
    right authorization header; with neither header the answer is 401
    "Missing API key". *)
Theorem X5_api_key_guard (apiKey : string) (req : Request) :
  occurs "Bearer " apiKey = false -> occurs "ApiKey " apiKey = false ->
  (forall supplied,
     supplied_api_key req = Some supplied ->
     supplied = apiKey \/ supplied = "Bearer " +:+ apiKey \/ supplied = "ApiKey " +:+ apiKey ->
     validateApiKey apiKey req = Next)
  /\ (forall wrong,
        header_value "x-api-key" req = Some wrong -> cleanApiKey wrong <> apiKey ->
        validateApiKey apiKey req = Respond invalid_api_key_response)
  /\ (header_value "x-api-key" req = None -> header_value "authorization" req = None ->
      validateApiKey apiKey req = Respond missing_api_key_response).
Proof.
  intros Hb Ha.
  destruct (cleanApiKey_forms apiKey Hb Ha) as (Hbare & Hbearer & Hkey).
  split; [| split].
  - intros supplied Hs Hform. unfold validateApiKey. rewrite Hs.
    destruct Hform as [-> | [-> | ->]];
      [rewrite Hbare | rewrite Hbearer | rewrite Hkey]; rewrite String.eqb_refl; reflexivity.
  - intros wrong Hw Hne. unfold validateApiKey, supplied_api_key. rewrite Hw.
    destruct (String.eqb_spec (cleanApiKey wrong) apiKey); [contradiction | reflexivity].
  - intros Hx Hauth. unfold validateApiKey, supplied_api_key. rewrite Hx, Hauth. reflexivity.
Qed.

Lemma X5_api_key_guard_witness :
  let req := {| headers := <["authorization" := "Bearer test-api-key"]> ∅;
                rawBody := ""; body := JObj [] |} in
  occurs "Bearer " "test-api-key" = false /\ occurs "ApiKey " "test-api-key" = false
  /\ supplied_api_key req = Some "Bearer test-api-key"
  /\ validateApiKey "test-api-key" req = Next.
Proof.
  intros req.
  assert (occurs "Bearer " "test-api-key" = false) as Hb by (vm_compute; reflexivity).
  assert (occurs "ApiKey " "test-api-key" = false) as Ha by (vm_compute; reflexivity).
  assert (supplied_api_key req = Some "Bearer test-api-key") as Hs
    by (vm_compute; reflexivity).
  split; [exact Hb |]. split; [exact Ha |]. split; [exact Hs |].
  apply (proj1 (X5_api_key_guard "test-api-key" req Hb Ha) _ Hs).
  right. left. reflexivity.
Defined.

End AccessGuard.

(** ** The validation summary *)

Section ValidationSummary.
Import Summary.
Local Open Scope list_scope.

Lemma failed_app {E} (a b : list (result E)) : failed (a ++ b) = failed a ++ failed b.
Proof. apply List.filter_app. Qed.

(** X6: the summary counts every validation and the failed ones among them,
    so the failed are at most the total; it is valid exactly when every
    validation is, and then it carries no error; the summary of two lists put
    together adds the counts and joins the errors in order. *)
Theorem X6_validation_summary {E} (a b : list (result E)) :
  (isValid (getValidationSummary a) = true <-> Forall (fun v => r_isValid v = true) a)
  /\ (failedValidations (getValidationSummary a) <= totalValidations (getValidationSummary a))%nat
  /\ (isValid (getValidationSummary a) = true -> errors (getValidationSummary a) = [])
  /\ totalValidations (getValidationSummary (a ++ b))
     = (totalValidations (getValidationSummary a) + totalValidations (getValidationSummary b))%nat
  /\ failedValidations (getValidationSummary (a ++ b))
     = (failedValidations (getValidationSummary a)
        + failedValidations (getValidationSummary b))%nat
  /\ errors (getValidationSummary (a ++ b))
     = errors (getValidationSummary a) ++ errors (getValidationSummary b).
Proof.
  cbn [isValid totalValidations failedValidations errors getValidationSummary].
  assert (forall l : list (result E),
            length (failed l) = 0%nat <-> Forall (fun v => r_isValid v = true) l) as Hzero.
  { induction l as [| v l IH]; [split; [constructor | reflexivity] |].
    unfold failed in *. cbn [List.filter].
    destruct (r_isValid v) eqn:Ev; cbn [negb].
    - rewrite IH. split; [intros H; constructor; assumption |].
      intros H. apply Forall_cons_1 in H as [_ H]. exact H.
    - cbn [length]. split; [discriminate |].
      intros H. apply Forall_cons_1 in H as [H _]. congruence. }
  split; [rewrite Nat.eqb_eq; apply Hzero |].
  split; [apply List.filter_length_le |].
  split.
  - rewrite Nat.eqb_eq. intros H.
    destruct (failed a); [reflexivity | discriminate H].
  - rewrite failed_app, !length_app, List.flat_map_app. repeat split; reflexivity.
Qed.

End ValidationSummary.

(** ** The upsert store: conversations and projects *)

Section UpsertStoreMore.
Import DatabaseService.

Lemma insertMessage_bindable (d : messageData) (st : Store) (k : string) :
  m_id d = JStr k -> bindable d ->
  insertMessage d st =
    (Ok tt,
     {| conversations := conversations st;
        messages :=
          <[k := upserted (messages st !! k) (sql_of (m_conversation_id d))
                   (sql_of (m_role d)) (sql_of (m_content d)) (sql_of (m_parts d))
                   (m_create_time d) (sql_of (m_parent d)) (sql_of (m_children d))
                   (sql_of (m_author_name d))]> (messages st);
        projects := projects st;
        executed := UpsertMessage k :: executed st |}).
Proof.
  intros Hk (Hc & Hr & Hco & Hpa & Hpt & Hch & Hau).
  apply insertMessage_run; [exact Hk | apply bind_sql_of; assumption ..].
Qed.

Lemma insertConversation_bindable (d : conversationData) (st : Store) (k : string) :
  conversation_id d = JStr k -> bindable_conversation d ->
  exists row,
    insertConversation d st =
      (Ok tt,
       {| conversations := <[k := row]> (conversations st);
          messages := messages st; projects := projects st;
          executed := UpsertConversation k :: executed st |})
    /\ conv_title row = sql_of (title d) /\ conv_model row = sql_of (model d)
    /\ conv_update_time row = update_time d
    /\ conv_project_id row = sql_of (project_id d)
    /\ conv_openai_thread_id row = sql_of (openai_thread_id d)
    /\ conv_create_time row = match conversations st !! k with
                              | Some old => conv_create_time old
                              | None => create_time d
                              end.
Proof.
  intros Hk (Ht & Hm & Hp & Ho).
  eexists. split; [exact (insertConversation_run d st k Hk Ht Hm Hp Ho) |].
  repeat split; reflexivity.
Qed.

Lemma createProject_bindable (d : projectData) (st : Store) (k : string) :
  p_name d = JStr k -> bindable_project d ->
  exists row,
    createProject d st =
      (Ok tt,
       {| conversations := conversations st; messages := messages st;
          projects := <[k := row]> (projects st);
          executed := UpsertProject k :: executed st |})
    /\ proj_description row = sql_of (p_description d)
    /\ proj_chatgpt_project_id row = sql_of (p_chatgpt_project_id d)
    /\ proj_is_starred row = match projects st !! k with
                             | Some old => proj_is_starred old
                             | None => sql_of (starred_or_default d)
                             end.
Proof.
  intros Hk (Hd & Hc).
  assert (defined (starred_or_default d)) as Hs.
  { unfold starred_or_default, defined. destruct (p_is_starred d); discriminate. }
  unfold createProject, bind, lift, log.
  rewrite Hk, (bind_sql_of _ Hd), (bind_sql_of _ Hc).
  fold (starred_or_default d). rewrite (bind_sql_of _ Hs). cbn.
  destruct (projects st !! k); eexists; (split; [reflexivity |]); repeat split; reflexivity.
Qed.

(** X7: a conversation record delivered twice with the same conversation_id
    is one row that, after the second delivery, has the second delivery's
    title, model, update_time, project_id and openai_thread_id and still the
    create_time it had after the first; when the id was new, that is the
    first delivery's create_time. *)
Theorem X7_conversation_redelivery (d1 d2 : conversationData) (st : Store) (k : string) :
  conversation_id d1 = JStr k -> conversation_id d2 = JStr k ->
  bindable_conversation d1 -> bindable_conversation d2 ->
  exists st1 st2 row1 row,
    insertConversation d1 st = (Ok tt, st1)
    /\ insertConversation d2 st1 = (Ok tt, st2)
    /\ conversations st1 !! k = Some row1
    /\ conversations st2 !! k = Some row
    /\ conv_title row = sql_of (title d2) /\ conv_model row = sql_of (model d2)
    /\ conv_update_time row = update_time d2
    /\ conv_project_id row = sql_of (project_id d2)
    /\ conv_openai_thread_id row = sql_of (openai_thread_id d2)
    /\ conv_create_time row = conv_create_time row1
    /\ (conversations st !! k = None -> conv_create_time row = create_time d1)
    /\ dom (conversations st2) = dom (conversations st1).
Proof.
  intros Hk1 Hk2 Hb1 Hb2.
  destruct (insertConversation_bindable d1 st k Hk1 Hb1)
    as (row1 & Hrun1 & _ & _ & _ & _ & _ & Hct1).
  destruct (insertConversation_bindable d2
              {| conversations := <[k := row1]> (conversations st);
                 messages := messages st; projects := projects st;
                 executed := UpsertConversation k :: executed st |} k Hk2 Hb2)
    as (row & Hrun2 & Ht & Hm & Hu & Hp & Ho & Hct).
  cbn [conversations] in Hct. rewrite lookup_insert_eq in Hct.
  eexists _, _, row1, row.
  split; [exact Hrun1 |]. split; [exact Hrun2 |]. cbn [conversations].
  split; [apply lookup_insert_eq |]. split; [apply lookup_insert_eq |].
  repeat (split; [assumption |]).
  split; [intros Hnew; rewrite Hct, Hct1, Hnew; reflexivity |].
  rewrite !dom_insert_L, (assoc_L (∪)), (idemp_L (∪)). reflexivity.
Qed.

Lemma X7_conversation_redelivery_witness :
  let d1 := {| conversation_id := JStr "c1"; title := JStr "T"; model := JStr "gpt-4";
               create_time := Some 1700000000000%Z; update_time := Some 1700000000000%Z;
               project_id := JNull; openai_thread_id := JNull |} in
  let d2 := {| conversation_id := JStr "c1"; title := JStr "T2"; model := JStr "gpt-4o";
               create_time := Some 1700000500000%Z; update_time := Some 1700000500000%Z;
               project_id := JNull; openai_thread_id := JStr "thread_1" |} in
  bindable_conversation d1 /\ bindable_conversation d2
  /\ exists st2 row,
       snd (insertConversation d2 (snd (insertConversation d1 empty_store))) = st2
       /\ conversations st2 !! "c1" = Some row
       /\ conv_title row = SqlText "T2"
       /\ conv_create_time row = Some 1700000000000%Z.
Proof.
  intros d1 d2.
  assert (bindable_conversation d1) as H1 by (repeat split; discriminate).
  assert (bindable_conversation d2) as H2 by (repeat split; discriminate).
  split; [exact H1 |]. split; [exact H2 |].
  destruct (X7_conversation_redelivery d1 d2 empty_store "c1" eq_refl eq_refl H1 H2)
    as (st1 & st2 & row1 & row & Hrun1 & Hrun2 & _ & Hrow & Ht & _ & _ & _ & _ & _ & Hct & _).
  exists st2, row. rewrite Hrun1. cbn [snd]. rewrite Hrun2. cbn [snd].
  split; [reflexivity |]. split; [exact Hrow |]. split; [exact Ht |].
  apply Hct. reflexivity.
Defined.

(** X8: redelivery of an identical record is idempotent on the tables: for
    each of the three upserts, running the statement a second time with the
    same record leaves every table as the first run left it. *)
Theorem X8_identical_redelivery_is_idempotent (st : Store) (k : string) :
  (forall d, m_id d = JStr k -> bindable d ->
     exists st1 st2, insertMessage d st = (Ok tt, st1)
                     /\ insertMessage d st1 = (Ok tt, st2) /\ same_tables st1 st2)
  /\ (forall d, conversation_id d = JStr k -> bindable_conversation d ->
        exists st1 st2, insertConversation d st = (Ok tt, st1)
                        /\ insertConversation d st1 = (Ok tt, st2) /\ same_tables st1 st2)
  /\ (forall d, p_name d = JStr k -> bindable_project d ->
        exists st1 st2, createProject d st = (Ok tt, st1)
                        /\ createProject d st1 = (Ok tt, st2) /\ same_tables st1 st2).
Proof.
  split; [| split].
  - intros d Hk Hb. eexists _, _.
    split; [exact (insertMessage_bindable d st k Hk Hb) |].
    split; [exact (insertMessage_bindable d _ k Hk Hb) |].
    unfold same_tables. cbn [conversations messages projects].
    rewrite lookup_insert_eq, insert_insert_eq.
    split; [reflexivity |]. split; [| reflexivity].
    f_equal.
  - intros d Hk Hb.
    destruct (insertConversation_bindable d st k Hk Hb)
      as (row1 & Hrun1 & Ht1 & Hm1 & Hu1 & Hp1 & Ho1 & Hc1).
    destruct (insertConversation_bindable d
                {| conversations := <[k := row1]> (conversations st);
                   messages := messages st; projects := projects st;
                   executed := UpsertConversation k :: executed st |} k Hk Hb)
      as (row2 & Hrun2 & Ht2 & Hm2 & Hu2 & Hp2 & Ho2 & Hc2).
    cbn [conversations] in Hc2. rewrite lookup_insert_eq in Hc2.
    eexists _, _. split; [exact Hrun1 |]. split; [exact Hrun2 |].
    unfold same_tables. cbn [conversations messages projects].
    rewrite insert_insert_eq. split; [| split; reflexivity]. f_equal.
    destruct row1, row2. cbn in *. congruence.
  - intros d Hk Hb.
    destruct (createProject_bindable d st k Hk Hb) as (row1 & Hrun1 & Hd1 & Hc1 & Hs1).
    destruct (createProject_bindable d
                {| conversations := conversations st; messages := messages st;
                   projects := <[k := row1]> (projects st);
                   executed := UpsertProject k :: executed st |} k Hk Hb)
      as (row2 & Hrun2 & Hd2 & Hc2 & Hs2).
    cbn [projects] in Hs2. rewrite lookup_insert_eq in Hs2.
    eexists _, _. split; [exact Hrun1 |]. split; [exact Hrun2 |].
    unfold same_tables. cbn [conversations messages projects].
    rewrite insert_insert_eq. split; [reflexivity |]. split; [reflexivity |]. f_equal.
    destruct row1, row2. cbn in *. congruence.
Qed.

Lemma X8_identical_redelivery_is_idempotent_witness :
  bindable Redelivery.first
  /\ exists st1 st2,
       insertMessage Redelivery.first empty_store = (Ok tt, st1)
       /\ insertMessage Redelivery.first st1 = (Ok tt, st2) /\ same_tables st1 st2.
Proof.
  assert (bindable Redelivery.first) as H by (repeat split; discriminate).
  split; [exact H |].
  exact (proj1 (X8_identical_redelivery_is_idempotent empty_store "m1")
               Redelivery.first eq_refl H).
Defined.

(** X9: what an upsert writes can be read back, and it writes nothing else:
    after [insertConversation], [getConversation] with the same id returns the
    row with the record's title; the rows under every other conversation_id,
    and the messages and the projects, are as before. *)
Theorem X9_insert_then_get (d : conversationData) (st : Store) (k : string) :
  conversation_id d = JStr k -> bindable_conversation d ->
  exists st1 st2 row,
    insertConversation d st = (Ok tt, st1)
    /\ getConversation (JStr k) st1 = (Ok (Some row), st2)
    /\ conv_title row = sql_of (title d)
    /\ same_tables st1 st2
    /\ (forall k', k' <> k -> conversations st1 !! k' = conversations st !! k')
    /\ messages st1 = messages st /\ projects st1 = projects st.
Proof.
  intros Hk Hb.
  destruct (insertConversation_bindable d st k Hk Hb) as (row & Hrun & Ht & _).
  eexists _, _, row. split; [exact Hrun |].
  rewrite getConversation_text. cbn [conversations messages projects].
  rewrite lookup_insert_eq.
  split; [reflexivity |]. split; [exact Ht |].
  split; [repeat split |].
  split; [intros k' Hne; apply lookup_insert_ne; congruence |].
  split; reflexivity.
Qed.

Lemma X9_insert_then_get_witness :
  let d := {| conversation_id := JStr "c1"; title := JStr "T"; model := JStr "gpt-4";
              create_time := Some 1700000000000%Z; update_time := Some 1700000000000%Z;
              project_id := JNull; openai_thread_id := JNull |} in
  bindable_conversation d
  /\ exists st1 st2 row,
       insertConversation d empty_store = (Ok tt, st1)
       /\ getConversation (JStr "c1") st1 = (Ok (Some row), st2)
       /\ conv_title row = SqlText "T".
Proof.
  intros d.
  assert (bindable_conversation d) as H by (repeat split; discriminate).
  split; [exact H |].
  destruct (X9_insert_then_get d empty_store "c1" eq_refl H)
    as (st1 & st2 & row & Hrun & Hget & Ht & _).
  exists st1, st2, row. split; [exact Hrun |]. split; [exact Hget |]. exact Ht.
Defined.

(** X10: [createProject] on a name that is already stored replaces the
    description and the external project id and keeps the starred flag of
    the stored row, whatever flag the record carries; on a new name the flag
    is the record's, false when it has none. *)
Theorem X10_project_conflict_keeps_flag (d : projectData) (st : Store) (k : string) :
  p_name d = JStr k -> bindable_project d ->
  exists st1 row,
    createProject d st = (Ok tt, st1)
    /\ projects st1 !! k = Some row
    /\ proj_description row = sql_of (p_description d)
    /\ proj_chatgpt_project_id row = sql_of (p_chatgpt_project_id d)
    /\ (forall old, projects st !! k = Some old -> proj_is_starred row = proj_is_starred old)
    /\ (projects st !! k = None ->
        proj_is_starred row = sql_of (starred_or_default d)
        /\ (p_is_starred d = JUndefined -> proj_is_starred row = SqlBool false))
    /\ conversations st1 = conversations st /\ messages st1 = messages st.
Proof.
  intros Hk Hb.
  destruct (createProject_bindable d st k Hk Hb) as (row & Hrun & Hd & Hc & Hs).
  eexists _, row. split; [exact Hrun |]. cbn [projects conversations messages].
  split; [apply lookup_insert_eq |].
  split; [exact Hd |]. split; [exact Hc |].
  split; [intros old Hold; rewrite Hs, Hold; reflexivity |].
  split; [| split; reflexivity].
  intros Hnew. rewrite Hs, Hnew. split; [reflexivity |].
  intros Hu. unfold starred_or_default. rewrite Hu. reflexivity.
Qed.

Lemma X10_project_conflict_keeps_flag_witness :
  let d := {| p_name := JStr "P"; p_description := JStr "second"; p_is_starred := JBool false;
              p_chatgpt_project_id := JStr "g2" |} in
  let stored := {| proj_description := SqlText "first"; proj_is_starred := SqlBool true;
                   proj_chatgpt_project_id := SqlText "g1" |} in
  let st := {| conversations := ∅; messages := ∅; projects := {["P" := stored]};
               executed := [] |} in
  bindable_project d
  /\ exists st1 row,
       createProject d st = (Ok tt, st1)
       /\ projects st1 !! "P" = Some row
       /\ proj_description row = SqlText "second"
       /\ proj_is_starred row = SqlBool true.
Proof.
  intros d stored st.
  assert (bindable_project d) as H by (repeat split; discriminate).
  split; [exact H |].
  destruct (X10_project_conflict_keeps_flag d st "P" eq_refl H)
    as (st1 & row & Hrun & Hrow & Hd & _ & Hold & _).
  exists st1, row. split; [exact Hrun |]. split; [exact Hrow |]. split; [exact Hd |].
  apply (Hold stored). reflexivity.
Defined.

End UpsertStoreMore.

(** ** The controller: receivers, projects, updates and manual sync *)

Section ControllerMore.
Import DatabaseService WebhookController.




Lemma getProject_text (k : string) (st : Store) :
  getProject (JStr k) st =
    (Ok (projects st !! k),
     {| conversations := conversations st; messages := messages st;
        projects := projects st;
        executed := SelectProject (SqlText k) :: executed st |}).
Proof. reflexivity. Qed.

Lemma insertConversation_unbound_project (d : conversationData) (st : Store) (k : string) :
  conversation_id d = JStr k -> defined (title d) -> defined (model d) ->
  project_id d = JUndefined ->
  exists msg, insertConversation d st = (Throw msg, st).
Proof.
  intros Hk Ht Hm Hp.
  unfold insertConversation, bind, lift.
  rewrite Hk, (bind_sql_of _ Ht), (bind_sql_of _ Hm), Hp. cbn. eexists. reflexivity.
Qed.

Lemma createProject_unbound_id (d : projectData) (st : Store) (k : string) :
  p_name d = JStr k -> defined (p_description d) -> p_chatgpt_project_id d = JUndefined ->
  exists msg, createProject d st = (Throw msg, st).
Proof.
  intros Hk Hd Hc.
  unfold createProject, bind, lift.
  rewrite Hk, (bind_sql_of _ Hd), Hc.
  destruct (p_is_starred d); cbn; eexists; reflexivity.
Qed.

(** X12: [handleConversationCreated] on a payload with a project.  When the
    project has an id (a text or null), the conversation is stored with that
    id as project_id; a project of that name that is already stored is left
    as it is, description included, and otherwise a row is created for it,
    not starred.  When the project has no id, the handler throws and no table
    has changed. *)
Theorem X12_conversation_created_with_project (fields cf pf : list (string * JSValue))
  (id pn : string) (st : Store) :
  JS.assoc "conversation" fields = JObj cf -> JS.assoc "id" cf = JStr id ->
  JS.assoc "project" fields = JObj pf -> JS.assoc "name" pf = JStr pn ->
  (defined (JS.assoc "id" pf) ->
   exists st' row,
     handleConversationCreated (JObj fields) st
     = (Ok (JObj [("status", JStr "conversation_created"); ("conversationId", JStr id)]), st')
     /\ conversations st' !! id = Some row
     /\ conv_project_id row = sql_of (JS.assoc "id" pf)
     /\ messages st' = messages st
     /\ (forall old, projects st !! pn = Some old -> projects st' = projects st)
     /\ (projects st !! pn = None ->
         projects st' = <[pn := created_project pf]> (projects st)))
  /\ (JS.assoc "id" pf = JUndefined ->
      exists msg st',
        handleConversationCreated (JObj fields) st = (Throw msg, st')
        /\ same_tables st st').
Proof.
  intros Hc Hid Hp Hn.
  assert (
    handleConversationCreated (JObj fields) st
    = match (if JS.truthy (JObj pf) then
               do name <- prop "name" (JObj pf);
               do existingProject <- getProject name;
               match existingProject with
               | Some _ => ret tt
               | None =>
                   createProject {|
                     p_name := name;
                     p_description := JS.or (JS.get_opt "description" (JObj pf)) (JStr "");
                     p_is_starred := JUndefined;
                     p_chatgpt_project_id := JS.get_opt "id" (JObj pf) |}
               end
             else ret tt) st with
      | (Ok _, st2) =>
          (do id0 <- prop "id" (JObj cf);
           run insertConversation {|
             conversation_id := id0;
             title := JS.or (JS.get_opt "title" (JObj cf)) (JStr "Untitled");
             model := JS.or (JS.get_opt "model" (JObj cf)) (JStr "gpt-4");
             create_time := date_of_seconds (JS.get_opt "create_time" (JObj cf));
             update_time := date_of_seconds (JS.get_opt "update_time" (JObj cf));
             project_id := if JS.truthy (JObj pf) then JS.get_opt "id" (JObj pf) else JNull;
             openai_thread_id := JS.or (JS.get_opt "openai_thread_id" (JObj cf)) JNull |};
           ret (JObj [("status", JStr "conversation_created"); ("conversationId", id0)])) st2
      | (Throw e, st2) => (Throw e, st2)
      end) as Hsteps.
  { unfold handleConversationCreated.
    change (JS.get_opt "conversation" (JObj fields)) with (JS.assoc "conversation" fields).
    change (JS.get_opt "project" (JObj fields)) with (JS.assoc "project" fields).
    rewrite Hc, Hp. reflexivity. }
  rewrite Hsteps. clear Hsteps.
  cbn [JS.truthy JS.get_opt JS.get]. unfold prop. cbn [JS.get].
  rewrite Hn, Hid.
  split.
  - intros Hdef.
    unfold bind at 1. unfold ret at 1. cbv beta iota.
    unfold bind at 1. rewrite getProject_text.
    destruct (projects st !! pn) as [old |] eqn:Eold.
    + unfold ret at 1. cbv beta iota. unfold bind at 1. unfold ret at 1. cbv beta iota.
      unfold bind at 1.
      erewrite insertConversation_run;
        [| reflexivity | apply defined_or; discriminate | apply defined_or; discriminate
         | exact Hdef | apply defined_or; discriminate ].
      eexists _, _. split; [reflexivity |].
      cbn [conversations messages projects].
      split; [apply lookup_insert_eq |].
      split; [reflexivity |]. split; [reflexivity |].
      split; [intros; reflexivity | intros; discriminate].
    + destruct (createProject_bindable
                  {| p_name := JStr pn;
                     p_description := JS.or (JS.assoc "description" pf) (JStr "");
                     p_is_starred := JUndefined;
                     p_chatgpt_project_id := JS.assoc "id" pf |}
                  {| conversations := conversations st; messages := messages st;
                     projects := projects st;
                     executed := SelectProject (SqlText pn) :: executed st |} pn eq_refl)
        as (row & Hrun & Hd & Hg & Hs).
      { split; [apply defined_or; discriminate | exact Hdef]. }
      rewrite Hrun. cbn [projects] in Hs. rewrite Eold in Hs.
      unfold bind at 1. unfold ret at 1. cbv beta iota.
      unfold bind at 1.
      erewrite insertConversation_run;
        [| reflexivity | apply defined_or; discriminate | apply defined_or; discriminate
         | exact Hdef | apply defined_or; discriminate ].
      eexists _, _. split; [reflexivity |].
      cbn [conversations messages projects].
      split; [apply lookup_insert_eq |].
      split; [reflexivity |]. split; [reflexivity |].
      split; [intros; discriminate |].
      intros _. f_equal. destruct row. cbn in Hd, Hg, Hs. unfold created_project.
      rewrite Hd, Hg, Hs. reflexivity.
  - intros Hundef.
    unfold bind at 1. unfold ret at 1. cbv beta iota.
    unfold bind at 1. rewrite getProject_text.
    destruct (projects st !! pn) as [old |] eqn:Eold.
    + unfold ret at 1. cbv beta iota. unfold bind at 1. unfold ret at 1. cbv beta iota.
      unfold bind at 1.
      match goal with
      | |- context [insertConversation ?d ?s] =>
          destruct (insertConversation_unbound_project d s id eq_refl) as (msg & Hrun);
          [apply defined_or; discriminate | apply defined_or; discriminate | exact Hundef |];
          rewrite Hrun
      end.
      eexists _, _. split; [reflexivity |]. repeat split.
    + match goal with
      | |- context [createProject ?d ?s] =>
          destruct (createProject_unbound_id d s pn eq_refl) as (msg & Hrun);
          [apply defined_or; discriminate | exact Hundef |];
          rewrite Hrun
      end.
      eexists _, _. split; [reflexivity |]. repeat split.
Qed.

Lemma X12_conversation_created_with_project_witness :
  let cf := [("id", JStr "c1"); ("title", JStr "T"); ("create_time", JNum 1700000000);
             ("update_time", JNum 1700000000)] in
  let pf := [("name", JStr "P")] in
  let fields := [("conversation", JObj cf); ("project", JObj pf)] in
  validateWebhookPayload (JObj fields) = Valid
  /\ JS.assoc "id" pf = JUndefined
  /\ exists msg st',
       handleConversationCreated (JObj fields) empty_store = (Throw msg, st')
       /\ same_tables empty_store st'.
Proof.
  intros cf pf fields.
  split; [vm_compute; reflexivity |]. split; [reflexivity |].
  exact (proj2 (X12_conversation_created_with_project fields cf pf "c1" "P" empty_store
                  eq_refl eq_refl eq_refl eq_refl) eq_refl).
Defined.





(** X15: the manual sync endpoint, as the router mounts it, writes nothing
    and never answers 200: the answer is the 401 of the access guard, the 400
    of an unknown sync type, or a 500; for the two known sync types it is the
    500 of a handler read from a receiver that is undefined. *)
Theorem X15_manual_sync_route_stores_nothing (apiKey : string) (now_ms : Z) (req : Request)
  (st : Store) :
  snd (post_sync_manual apiKey now_ms req st) = st
  /\ In (status (fst (post_sync_manual apiKey now_ms req st))) [400; 401; 500]%Z
  /\ (validateApiKey apiKey req = Next ->
      forall fields name,
        body req = JObj fields ->
        JS.assoc "type" fields = JStr "conversation" /\ name = "handleConversationCreated"
        \/ JS.assoc "type" fields = JStr "message" /\ name = "handleMessageCreated" ->
        fst (post_sync_manual apiKey now_ms req st)
        = {| status := 500;
             json := JObj [("error", JStr "Sync failed");
                           ("message",
                            JStr ("Cannot read properties of undefined (reading '"
                                  +:+ name +:+ "')"))] |}).
Proof.
  split; [| split].
  - unfold post_sync_manual.
    destruct (validateApiKey apiKey req); [| reflexivity].
    unfold manualSync, sync_switch, bind, destructure_body, method, throw, ret.
    destruct (body req) as [| | b | n | s | l | l]; try reflexivity.
    cbn [JS.get_opt JS.get].
    destruct (JS.assoc "type" l) as [| | b | n | t | l' | l']; try reflexivity.
    destruct (String.eqb t "conversation"); [reflexivity |].
    destruct (String.eqb t "message"); reflexivity.
  - unfold post_sync_manual, validateApiKey.
    destruct (supplied_api_key req) as [supplied |].
    + destruct (String.eqb (cleanApiKey supplied) apiKey).
      * unfold manualSync, sync_switch, bind, destructure_body, method, throw, ret.
        destruct (body req) as [| | b | n | s | l | l]; cbn; auto.
        destruct (JS.assoc "type" l) as [| | b | n | t | l' | l']; cbn; auto.
        destruct (String.eqb t "conversation"); cbn; [auto |].
        destruct (String.eqb t "message"); cbn; auto.
      * cbn. auto.
    + cbn. auto.
  - intros Hkey fields name Hbody Htype.
    unfold post_sync_manual. rewrite Hkey.
    unfold manualSync. rewrite Hbody. cbn [JS.get_opt JS.get destructure_body].
    destruct Htype as [[-> ->] | [-> ->]]; reflexivity.
Qed.

Lemma handleMessageCreated_alone (this : This) (fields mf : list (string * JSValue))
  (mid cid r : string) (st : Store) :
  JS.assoc "message" fields = JObj mf -> JS.assoc "conversation" fields = JUndefined ->
  JS.assoc "id" mf = JStr mid ->
  JS.assoc "conversation_id" mf = JStr cid -> cid <> "" ->
  JS.assoc "role" mf = JStr r -> r <> "" ->
  handleMessageCreated this (JObj fields) st
  = (Ok (JObj [("status", JStr "message_created"); ("messageId", JStr mid)]),
     {| conversations := conversations st;
        messages := <[mid := stored_message (messages st !! mid) mf cid r]> (messages st);
        projects := projects st;
        executed := UpsertMessage mid :: executed st |}).
Proof.
  intros Hm Hc Hmid Hcid Hcne Hr Hrne.
  unfold handleMessageCreated.
  change (JS.get_opt "message" (JObj fields)) with (JS.assoc "message" fields).
  change (JS.get_opt "conversation" (JObj fields)) with (JS.assoc "conversation" fields).
  rewrite Hm, Hc. cbn [JS.truthy JS.get_opt JS.get].
  unfold bind at 1. unfold destructure, ret at 1. cbv beta iota.
  unfold bind at 1. unfold ret at 1. cbv beta iota.
  unfold message_record, bind, prop, ret.
  cbn [JS.get_opt JS.get]. rewrite Hmid, Hcid, Hr.
  rewrite (or_text cid _ Hcne), (or_text r _ Hrne).
  cbv beta iota.
  erewrite insertMessage_run; cbn [m_id m_conversation_id m_role m_content m_parts
    m_create_time m_parent m_children m_author_name].
  - reflexivity.
  - reflexivity.
  - reflexivity.
  - reflexivity.
  - apply bind_sql_of, stringify_or_null_defined.
  - apply bind_sql_of, stringify_or_null_defined.
  - apply bind_sql_of, defined_or. discriminate.
  - apply bind_sql_of, stringify_or_null_defined.
  - apply bind_sql_of, defined_or. discriminate.
Qed.

(** X16: [manualSync], called on the controller, stores a message without
    the validator: for the sync type message and data that hold a message
    with an id, a conversation and any role that is not empty, the answer is
    200 and the row is stored with that role, also when the role is one that
    the validator of the webhook refuses. *)
Theorem X16_manual_sync_skips_validation (now_ms : Z) (req : Request) (st : Store)
  (fields mf : list (string * JSValue)) (mid cid r : string) :
  JS.get_opt "type" (body req) = JStr "message" ->
  JS.get_opt "data" (body req) = JObj fields ->
  JS.assoc "message" fields = JObj mf -> JS.assoc "conversation" fields = JUndefined ->
  JS.assoc "id" mf = JStr mid ->
  JS.assoc "conversation_id" mf = JStr cid -> cid <> "" ->
  JS.assoc "role" mf = JStr r -> r <> "" ->
  exists st' row,
    manualSync ThisController now_ms req st
    = ({| status := 200;
          json := JObj [("status", JStr "success");
                        ("result", JObj [("status", JStr "message_created");
                                         ("messageId", JStr mid)]);
                        ("timestamp", JStr (Clock.toISOString now_ms))] |}, st')
    /\ messages st' !! mid = Some row
    /\ msg_role row = SqlText r
    /\ (~ In r ["user"; "assistant"; "system"] ->
        validateWebhookPayload (JObj fields) <> Valid).
Proof.
  intros Htype Hdata Hm Hc Hmid Hcid Hcne Hr Hrne.
  assert (destructure_body (body req) = ret tt) as Hbody.
  { destruct (body req); try reflexivity; discriminate Htype. }
  eexists _, _. split.
  - unfold manualSync. rewrite Htype, Hdata, Hbody.
    unfold sync_switch. cbn [String.eqb Ascii.eqb Bool.eqb].
    unfold method. unfold bind at 1. unfold ret at 1. cbv beta iota.
    unfold bind at 1.
    rewrite (handleMessageCreated_alone ThisController fields mf mid cid r st
               Hm Hc Hmid Hcid Hcne Hr Hrne).
    reflexivity.
  - cbn [messages]. split; [apply lookup_insert_eq |]. split; [reflexivity |].
    intros Hnot Hvalid.
    destruct (valid_payload_inv fields Hvalid) as [[Hu | (mf' & mid' & cid' & r' & Hv)] _].
    + rewrite Hm in Hu. discriminate Hu.
    + destruct Hv as (Hm' & _ & _ & _ & _ & Hr' & Hin).
      rewrite Hm in Hm'. injection Hm' as <-. rewrite Hr in Hr'. injection Hr' as <-.
      exact (Hnot Hin).
Qed.

Lemma X16_manual_sync_skips_validation_witness :
  let mf := [("id", JStr "m9"); ("conversation_id", JStr "c1"); ("role", JStr "tool")] in
  let fields := [("message", JObj mf)] in
  let req := {| headers := ∅; rawBody := "";
                body := JObj [("type", JStr "message"); ("data", JObj fields)] |} in
  ~ In "tool" ["user"; "assistant"; "system"]
  /\ exists st' row,
       status (fst (manualSync ThisController 0 req empty_store)) = 200%Z
       /\ snd (manualSync ThisController 0 req empty_store) = st'
       /\ messages st' !! "m9" = Some row
       /\ msg_role row = SqlText "tool"
       /\ validateWebhookPayload (JObj fields) <> Valid.
Proof.
  intros mf fields req.
  assert (~ In "tool" ["user"; "assistant"; "system"]) as Hnot.
  { intros [E | [E | [E | []]]]; discriminate E. }
  split; [exact Hnot |].
  destruct (X16_manual_sync_skips_validation 0 req empty_store fields mf "m9" "c1" "tool")
    as (st' & row & Hrun & Hrow & Hrole & Hrefused);
    [reflexivity | reflexivity | reflexivity | reflexivity | reflexivity | reflexivity
     | discriminate | reflexivity | discriminate |].
  exists st', row. rewrite Hrun. cbn [fst snd status].
  split; [reflexivity |]. split; [reflexivity |]. split; [exact Hrow |].
  split; [exact Hrole | exact (Hrefused Hnot)].
Defined.



End ControllerMore.

(** ** The messages service: accepted input and conflicts *)

Section ChatBETOMore.
Import ChatBETODatabaseService.

Lemma trim_nonempty (s : string) : JS.trim s <> "" -> s <> "".
Proof. intros H ->. apply H. reflexivity. Qed.

Lemma includes_roles (r : string) : In r roles -> includes roles (JStr r) = true /\ r <> "".
Proof.
  intros H. split.
  - cbn [includes]. apply existsb_exists. exists r. split; [exact H | apply String.eqb_refl].
  - destruct H as [<- | [<- | [<- | [<- | []]]]]; discriminate.
Qed.

Lemma truthy_text (s : string) : s <> "" -> JS.truthy (JStr s) = true.
Proof. intros H. destruct s; [destruct H; reflexivity | reflexivity]. Qed.

(** What the call does on input that passes the four checks, for options
    whose id is absent or a text that is not empty. *)
Lemma chatbeto_insert_ok (env : Env) (c r s : string) (options : JSValue)
  (fields : list (string * JSValue)) (k : string) (pool : Pool) :
  c <> "" -> In r roles -> JS.trim s <> "" ->
  options = JUndefined /\ fields = [] \/ options = JObj fields ->
  JS.assoc "id" fields = JUndefined /\ k = uuid env
  \/ JS.assoc "id" fields = JStr k /\ k <> "" ->
  insertMessage env (JStr c) (JStr r) (JStr s) options pool
  = (Ok (chatbeto_inserted k c), execute env k (chatbeto_fresh env c r s fields) pool).
Proof.
  intros Hc Hr Hs Hopt Hid.
  destruct (includes_roles r Hr) as [Hin Hrne].
  unfold insertMessage.
  rewrite (truthy_text c Hc), (truthy_text r Hrne), (truthy_text s (trim_nonempty s Hs)), Hin.
  cbn [negb orb is_string].
  destruct (String.length (JS.trim s) =? 0)%nat eqn:El.
  { apply Nat.eqb_eq in El. destruct (JS.trim s); [destruct Hs; reflexivity | discriminate El]. }
  assert (insert_checked env (JStr c) (JStr r) (JStr s) (JS.trim s) (JObj fields) pool
          = (Ok (chatbeto_inserted k c),
             execute env k (chatbeto_fresh env c r s fields) pool)) as Hchecked.
  { unfold insert_checked. cbn [JS.get JS.get_opt].
    assert (JS.or (JS.assoc "id" fields) (JStr (uuid env)) = JStr k) as ->.
    { destruct Hid as [[-> ->] | [-> Hk]]; [reflexivity | apply or_text, Hk]. }
    rewrite (bind_sql_of (JS.or (JS.assoc "contentType" fields) (JStr "text")))
      by (apply defined_or; discriminate).
    rewrite (bind_sql_of (JS.or (JS.assoc "authorName" fields) JNull))
      by (apply defined_or; discriminate).
    rewrite (bind_sql_of (JS.or (JS.assoc "parentMessageId" fields) JNull))
      by (apply defined_or; discriminate).
    reflexivity. }
  destruct Hopt as [[-> ->] | ->]; rewrite Hchecked; reflexivity.
Qed.

(** X17: [insertMessage] without options stores what it was given: for a
    conversationId that is not empty, a role among user, assistant, system
    and tool and a content that does not trim to the empty text, the call
    returns with the generated id, has executed one statement, and the row
    under that id has the role, the trimmed content, the content type text
    and no author; the rows of other ids are as before. *)
Theorem X17_chatbeto_insert_defaults (env : Env) (c r s : string) (pool : Pool) :
  c <> "" -> In r roles -> JS.trim s <> "" ->
  exists pool' row,
    insertMessage env (JStr c) (JStr r) (JStr s) JUndefined pool
    = (Ok (chatbeto_inserted (uuid env) c), pool')
    /\ executed pool' = uuid env :: executed pool
    /\ rows pool' !! uuid env = Some row
    /\ role row = SqlText r /\ content row = SqlText (JS.trim s)
    /\ content_type row = SqlText "text" /\ author_name row = SqlNull
    /\ (rows pool !! uuid env = None ->
        conversation_id row = SqlText c /\ parent_message_id row = SqlNull
        /\ status row = SqlText "finished_successfully" /\ updated_at row = None)
    /\ (forall k, k <> uuid env -> rows pool' !! k = rows pool !! k).
Proof.
  intros Hc Hr Hs.
  eexists _, _. split.
  { apply (chatbeto_insert_ok env c r s JUndefined [] (uuid env) pool Hc Hr Hs).
    - left. split; reflexivity.
    - left. split; reflexivity. }
  unfold execute. cbn [rows executed].
  split; [reflexivity |]. split; [apply lookup_insert_eq |].
  destruct (rows pool !! uuid env) as [old |] eqn:Eold; cbn.
  - repeat (split; [reflexivity |]). split; [intros; discriminate |].
    intros k Hk. apply lookup_insert_ne. congruence.
  - repeat (split; [reflexivity |]). split; [intros _; repeat split |].
    intros k Hk. apply lookup_insert_ne. congruence.
Qed.

Lemma X17_chatbeto_insert_defaults_witness :
  let env := {| uuid := "00000000-0000-4000-8000-000000000000";
                now_ms := Sample.now_ms; db_now := Sample.now_ms |} in
  let pool := {| rows := ∅; executed := [] |} in
  In "tool" roles /\ JS.trim "  done " <> ""
  /\ exists pool' row,
       insertMessage env (JStr "c1") (JStr "tool") (JStr "  done ") JUndefined pool
       = (Ok (chatbeto_inserted (uuid env) "c1"), pool')
       /\ rows pool' !! uuid env = Some row
       /\ content row = SqlText "done".
Proof.
  intros env pool.
  assert (In "tool" roles) as Hr by (do 3 right; left; reflexivity).
  assert (JS.trim "  done " <> "") as Hs by (vm_compute; discriminate).
  split; [exact Hr |]. split; [exact Hs |].
  destruct (X17_chatbeto_insert_defaults env "c1" "tool" "  done " pool)
    as (pool' & row & Hrun & _ & Hrow & _ & Hcontent & _);
    [discriminate | exact Hr | exact Hs |].
  exists pool', row. split; [exact Hrun |]. split; [exact Hrow |]. exact Hcontent.
Defined.

(** X18: [insertMessage] with the id of a stored message updates that row in
    place: role, content, content type and author are the call's, and
    updated_at is set; conversation_id, parent, both creation times and
    status stay those of the stored row, while the object returned names the
    conversationId of the call. *)
Theorem X18_chatbeto_conflict_keeps_conversation (env : Env) (c r s k : string)
  (fields : list (string * JSValue)) (old : Row) (pool : Pool) :
  c <> "" -> In r roles -> JS.trim s <> "" ->
  JS.assoc "id" fields = JStr k -> k <> "" ->
  rows pool !! k = Some old ->
  exists pool' row,
    insertMessage env (JStr c) (JStr r) (JStr s) (JObj fields) pool
    = (Ok (chatbeto_inserted k c), pool')
    /\ rows pool' !! k = Some row
    /\ role row = SqlText r /\ content row = SqlText (JS.trim s)
    /\ content_type row = content_type (chatbeto_fresh env c r s fields)
    /\ author_name row = author_name (chatbeto_fresh env c r s fields)
    /\ updated_at row = Some (db_now env)
    /\ conversation_id row = conversation_id old
    /\ parent_message_id row = parent_message_id old
    /\ created_at_timestamp_ms row = created_at_timestamp_ms old
    /\ created_at row = created_at old
    /\ status row = status old
    /\ dom (rows pool') = dom (rows pool).
Proof.
  intros Hc Hr Hs Hid Hk Hold.
  eexists _, _. split.
  { apply (chatbeto_insert_ok env c r s (JObj fields) fields k pool Hc Hr Hs).
    - right. reflexivity.
    - right. split; [exact Hid | exact Hk]. }
  unfold execute. cbn [rows]. rewrite Hold.
  split; [apply lookup_insert_eq |].
  repeat (split; [reflexivity |]).
  rewrite dom_insert_L. apply elem_of_dom_2 in Hold.
  apply subseteq_union_1_L, singleton_subseteq_l. exact Hold.
Qed.

Lemma X18_chatbeto_conflict_keeps_conversation_witness :
  let env := {| uuid := "00000000-0000-4000-8000-000000000000";
                now_ms := Sample.now_ms; db_now := Sample.now_ms |} in
  let old := {| conversation_id := SqlText "c1"; role := SqlText "user";
                content := SqlText "first"; content_type := SqlText "text";
                author_name := SqlNull; parent_message_id := SqlNull;
                created_at_timestamp_ms := Some 1600000000000%Z;
                created_at := 1600000000000%Z;
                status := SqlText "finished_successfully"; updated_at := None |} in
  let pool := {| rows := {["m1" := old]}; executed := [] |} in
  In "assistant" roles
  /\ exists pool' row,
       insertMessage env (JStr "c2") (JStr "assistant") (JStr "second")
         (JObj [("id", JStr "m1")]) pool
       = (Ok (chatbeto_inserted "m1" "c2"), pool')
       /\ rows pool' !! "m1" = Some row
       /\ content row = SqlText "second"
       /\ conversation_id row = SqlText "c1".
Proof.
  intros env old pool.
  assert (In "assistant" roles) as Hr by (right; left; reflexivity).
  split; [exact Hr |].
  destruct (X18_chatbeto_conflict_keeps_conversation env "c2" "assistant" "second" "m1"
              [("id", JStr "m1")] old pool)
    as (pool' & row & Hrun & Hrow & _ & Hcontent & _ & _ & _ & Hconv & _);
    [discriminate | exact Hr | vm_compute; discriminate | reflexivity | discriminate
     | reflexivity |].
  exists pool', row. split; [exact Hrun |]. split; [exact Hrow |].
  split; [exact Hcontent | exact Hconv].
Defined.

End ChatBETOMore.

(** ** The report of messages: statement, content and dates *)

Section ReportMore.
Import ChatBETODatabaseService Report.

Lemma count_append (ch : ascii) (a b : string) :
  count ch (a +:+ b) = (count ch a + count ch b)%nat.
Proof.
  induction a as [| x a IH]; [reflexivity |].
  rewrite append_cons. cbn [count]. rewrite IH. lia.
Qed.

Lemma prepared_extend (n : nat) (fragment : string) (values : list JSValue) (q : Query) :
  prepared n q -> count "?" fragment = length values -> Forall defined values ->
  prepared (n + length values) (extend fragment values q).
Proof.
  intros (Hc & Hd & Hl) Hf Hv. unfold prepared, extend. cbn [sql params].
  rewrite count_append, length_app, Hc, Hf.
  split; [reflexivity |]. split; [apply Forall_app; split; assumption | lia].
Qed.

Lemma prepared_mono (n m : nat) (q : Query) : prepared n q -> (n <= m)%nat -> prepared m q.
Proof.
  intros (Hc & Hd & Hl) Hnm. split; [exact Hc |]. split; [exact Hd | lia].
Qed.

Lemma prepared_when (c : bool) (n : nat) (fragment : string) (values : list JSValue)
  (q : Query) :
  prepared n q -> count "?" fragment = length values ->
  (c = true -> Forall defined values) ->
  prepared (n + length values) (if c then extend fragment values q else q).
Proof.
  intros Hq Hf Hv. destruct c.
  - apply prepared_extend; [exact Hq | exact Hf | apply Hv; reflexivity].
  - destruct Hq as (Hc & Hd & Hl). split; [exact Hc |]. split; [exact Hd | lia].
Qed.

Lemma defined_truthy (x : JSValue) : JS.truthy x = true -> Forall defined [x].
Proof. intros H. constructor; [apply truthy_defined, H | constructor]. Qed.

(** X22: the statement that [getMessagesForReport] prepares.  Whenever the
    query is built, the text has as many placeholders as there are
    parameters, between one and eight, none of them undefined, and the last
    one is the limit, 100 unless the filters give one; it is built for every
    project id when the filters are absent or an object whose search query is
    a text or falsy. *)
Theorem X22_report_statement_is_prepared (projectId filters : JSValue) :
  (forall q, getMessagesForReport_query projectId filters = Ok q ->
     count "?" (sql q) = length (params q)
     /\ Forall defined (params q)
     /\ (1 <= length (params q) <= 8)%nat
     /\ exists earlier,
          params q
          = (earlier
             ++ [JS.or (JS.get_opt "limit"
                          (match filters with JUndefined => JObj [] | f => f end))
                       (JNum 100)])%list)
  /\ (filters = JUndefined
      \/ (exists fields, filters = JObj fields
          /\ (JS.truthy (JS.assoc "searchQuery" fields) = false
              \/ exists text, JS.assoc "searchQuery" fields = JStr text)) ->
      exists q, getMessagesForReport_query projectId filters = Ok q).
Proof.
  split.
  - intros q. unfold getMessagesForReport_query.
    assert (prepared 0 {| sql := lines select_lines; params := [] |}) as Hstart.
    { split; [vm_compute; reflexivity |]. split; [constructor | cbn; lia]. }
    revert Hstart. generalize {| sql := lines select_lines; params := [] |}.
    intros q0 Hstart.
    set (filters' := match filters with JUndefined => JObj [] | f => f end).
    set (projectId' := match projectId with JUndefined => JNull | p => p end).
    destruct (JS.get "searchQuery" filters') as [searchQuery |]; [| discriminate].
    destruct (search_text searchQuery) as [found | e]; [| discriminate].
    intros [= <-].
    set (limit := JS.or (JS.get_opt "limit" filters') (JNum 100)).
    match goal with
    | |- context [extend ?f [limit] ?q1] => set (filtered := q1); set (ending := f)
    end.
    assert (prepared 7 filtered) as Hfiltered.
    { apply (prepared_mono (0 + 1 + 3 + 1 + 1 + 1)); [| lia]. subst filtered.
      apply (prepared_when _ _ _ [_]); [| reflexivity | apply defined_truthy].
      apply (prepared_when _ _ _ [_]); [| reflexivity | apply defined_truthy].
      apply (prepared_when _ _ _ [_]); [| reflexivity |].
      2: { intros H. apply andb_true_iff in H as [H _]. apply defined_truthy, H. }
      assert (prepared (0 + 1)
                match projectId' with
                | JNum _ =>
                    if JS.truthy projectId'
                    then extend " AND c.project_id = ?" [projectId'] q0
                    else q0
                | _ => q0
                end) as Hproject.
      { destruct projectId' as [| | b | n | s | l | l];
          try (apply (prepared_mono 0 _ _ Hstart); lia).
        apply (prepared_when _ _ _ [_]); [exact Hstart | reflexivity | apply defined_truthy]. }
      destruct found as [text |].
      - apply (prepared_extend _ _ [_; _; _]); [exact Hproject | vm_compute; reflexivity |].
        repeat constructor; discriminate.
      - apply (prepared_mono _ _ _ Hproject). lia. }
    clearbody filtered.
    destruct (prepared_extend 7 ending [limit] filtered Hfiltered) as (Hc & Hd & Hl).
    { vm_compute. reflexivity. }
    { constructor; [apply defined_or; discriminate | constructor]. }
    split; [exact Hc |]. split; [exact Hd |].
    split.
    + clear Hc Hd. unfold extend in *. cbn [params] in *. rewrite length_app in *.
      cbn [length] in *. lia.
    + exists (params filtered). reflexivity.
  - intros Hf. unfold getMessagesForReport_query.
    destruct Hf as [-> | (fields & -> & Hsearch)].
    + cbn [JS.get JS.assoc JS.truthy search_text]. eexists. reflexivity.
    + cbn [JS.get]. unfold search_text.
      destruct Hsearch as [-> | (text & ->)]; [eexists; reflexivity |].
      destruct (JS.truthy (JStr text)); eexists; reflexivity.
Qed.

Lemma X22_report_statement_is_prepared_witness :
  let filters := JObj [("searchQuery", JStr " x "); ("messageRole", JStr "user");
                       ("limit", JNum 5)] in
  exists q,
    getMessagesForReport_query (JNum 3) filters = Ok q
    /\ params q = [JNum 3; JStr "%x%"; JStr "%x%"; JStr "%x%"; JStr "user"; JNum 5]
    /\ count "?" (sql q) = 6%nat.
Proof.
  intros filters.
  destruct (proj2 (X22_report_statement_is_prepared (JNum 3) filters)) as (q & Hq).
  { right. exists [("searchQuery", JStr " x "); ("messageRole", JStr "user");
                   ("limit", JNum 5)].
    split; [reflexivity |]. right. exists " x ". reflexivity. }
  exists q. split; [exact Hq |].
  destruct (proj1 (X22_report_statement_is_prepared (JNum 3) filters) q Hq) as (Hc & _).
  assert (params q = [JNum 3; JStr "%x%"; JStr "%x%"; JStr "%x%"; JStr "user"; JNum 5])
    as Hp.
  { vm_compute in Hq. injection Hq as <-. reflexivity. }
  split; [exact Hp |]. rewrite Hc, Hp. reflexivity.
Defined.

Lemma remove_controls_clean (s : string) (ch : ascii) :
  In ch (list_ascii_of_string (remove_controls s)) -> is_control ch = false.
Proof.
  induction s as [| a s IH]; [intros [] |].
  cbn [remove_controls]. destruct (is_control a) eqn:Ea; [exact IH |].
  cbn [list_ascii_of_string]. intros [<- | H]; [exact Ea | exact (IH H)].
Qed.

Lemma crlf_to_lf_without_cr (s : string) :
  (forall ch, In ch (list_ascii_of_string s) -> Ascii.eqb ch CR = false) ->
  crlf_to_lf s = s.
Proof.
  induction s as [| a s IH]; [reflexivity |].
  intros H. cbn [list_ascii_of_string] in H.
  assert (crlf_to_lf s = s) as Hs by (apply IH; intros ch Hch; apply H; right; exact Hch).
  destruct s as [| b s]; [reflexivity |].
  change (crlf_to_lf (String a (String b s)))
    with (if Ascii.eqb a CR && Ascii.eqb b LF then String LF (crlf_to_lf s)
          else String a (crlf_to_lf (String b s))).
  rewrite (H a) by (left; reflexivity). cbn [andb]. rewrite Hs. reflexivity.
Qed.

Lemma cr_to_lf_without_cr (s : string) :
  (forall ch, In ch (list_ascii_of_string s) -> Ascii.eqb ch CR = false) ->
  cr_to_lf s = s.
Proof.
  induction s as [| a s IH]; [reflexivity |].
  intros H. cbn [list_ascii_of_string] in H. cbn [cr_to_lf].
  rewrite (H a) by (left; reflexivity).
  rewrite IH by (intros ch Hch; apply H; right; exact Hch). reflexivity.
Qed.

Lemma utf8_toString_char (ch : ascii) (bs : list Z) :
  utf8_toString (utf8_char ch ++ bs)%list = String ch (utf8_toString bs).
Proof. destruct ch as [[] [] [] [] [] [] [] []]; reflexivity. Qed.

(** Decoding the UTF-8 bytes of a text gives the text back. *)
Lemma utf8_round_trip (s : string) : utf8_toString (utf8 s) = s.
Proof.
  induction s as [| ch s IH]; [reflexivity |].
  unfold utf8 in *. cbn [list_ascii_of_string List.map List.concat].
  rewrite utf8_toString_char, IH. reflexivity.
Qed.

Lemma control_is_not_cr (ch : ascii) : is_control ch = false -> Ascii.eqb ch CR = false.
Proof.
  intros H. destruct (Ascii.eqb_spec ch CR) as [-> |]; [discriminate H | reflexivity].
Qed.

(** X19: [cleanMessageContent] trims the content and deletes its control
    characters, and nothing more: the two replacements that are meant to
    normalise line breaks and the UTF-8 round trip change nothing, because
    carriage return and line feed are control characters and are gone before.
    The result holds no control character, so no line break and no tab. *)
Theorem X19_clean_content_drops_line_breaks (content : string) :
  cleanMessageContent content = remove_controls (JS.trim content)
  /\ (forall ch, In ch (list_ascii_of_string (cleanMessageContent content)) ->
      is_control ch = false)
  /\ ~ In LF (list_ascii_of_string (cleanMessageContent content))
  /\ ~ In CR (list_ascii_of_string (cleanMessageContent content)).
Proof.
  assert (cleanMessageContent content = remove_controls (JS.trim content)) as Hclean.
  { unfold cleanMessageContent.
    destruct (String.eqb_spec content "") as [-> | _]; [reflexivity |].
    rewrite utf8_round_trip.
    assert (forall ch, In ch (list_ascii_of_string (remove_controls (JS.trim content))) ->
                       Ascii.eqb ch CR = false) as Hcr.
    { intros ch Hch. apply control_is_not_cr, (remove_controls_clean _ _ Hch). }
    rewrite (crlf_to_lf_without_cr _ Hcr). apply cr_to_lf_without_cr, Hcr. }
  split; [exact Hclean |]. rewrite Hclean.
  split; [apply remove_controls_clean |].
  split; intros H; apply remove_controls_clean in H; discriminate H.
Qed.

Lemma iso_in_range (ms : Z) :
  (Z.abs ms <= 8640000000000000)%Z -> iso (Some ms) = Ok (Clock.toISOString ms).
Proof. intros H. unfold iso. apply Z.leb_le in H. rewrite H. reflexivity. Qed.

Lemma formatMessageDate_number (now_ms u : Z) (createdAt : option Date) :
  (0 < u)%Z ->
  ((if (1000000000000 <? u)%Z then u else u * 1000) <= 8640000000000000)%Z ->
  formatMessageDate now_ms createdAt (JNum u)
  = Clock.toISOString (if (1000000000000 <? u)%Z then u else u * 1000)%Z.
Proof.
  intros Hu Hrange. unfold formatMessageDate. cbn [JS.truthy].
  destruct (Z.eqb_spec u 0) as [-> | _]; [lia |]. cbn [negb].
  rewrite iso_in_range; [reflexivity |].
  destruct (Z.ltb_spec 1000000000000 u); lia.
Qed.

(** X20: the date that [formatMessageDate] shows for a create time that is a
    number other than zero does not depend on the column created_at.  A
    number above 10^12 is read as milliseconds and any other as seconds, so
    the seconds and the milliseconds of one instant after 2001-09-09 give the
    same text, and a number of milliseconds from 1 to 10^12 is shown as the
    instant a thousand times later. *)
Theorem X20_format_date_reads_seconds_or_milliseconds (now_ms t : Z)
  (createdAt : option Date) :
  (0 < t <= 8640000000000)%Z ->
  formatMessageDate now_ms createdAt (JNum t)
  = Clock.toISOString (if (1000000000000 <? t)%Z then t else t * 1000)%Z
  /\ ((t <= 1000000000000)%Z ->
      formatMessageDate now_ms createdAt (JNum t) = Clock.toISOString (t * 1000))
  /\ ((1000000000 < t <= 1000000000000)%Z ->
      formatMessageDate now_ms createdAt (JNum (t * 1000))
      = formatMessageDate now_ms createdAt (JNum t)).
Proof.
  intros Ht.
  assert (formatMessageDate now_ms createdAt (JNum t)
          = Clock.toISOString (if (1000000000000 <? t)%Z then t else t * 1000)%Z) as Hshown.
  { apply formatMessageDate_number; [lia |].
    destruct (Z.ltb_spec 1000000000000 t); lia. }
  split; [exact Hshown |]. split.
  - intros Hle. rewrite Hshown.
    destruct (Z.ltb_spec 1000000000000 t); [lia | reflexivity].
  - intros Hbetween. rewrite Hshown.
    rewrite formatMessageDate_number;
      [| lia | destruct (Z.ltb_spec 1000000000000 (t * 1000)); lia].
    destruct (Z.ltb_spec 1000000000000 t); [lia |].
    destruct (Z.ltb_spec 1000000000000 (t * 1000)); [reflexivity | lia].
Qed.

Lemma X20_format_date_reads_seconds_or_milliseconds_witness :
  (0 < 1700000000 <= 8640000000000)%Z
  /\ formatMessageDate 0 None (JNum 1700000000) = "2023-11-14T22:13:20.000Z"
  /\ formatMessageDate 0 None (JNum 1700000000000) = "2023-11-14T22:13:20.000Z".
Proof.
  assert (0 < 1700000000 <= 8640000000000)%Z as H by lia.
  split; [exact H |].
  destruct (X20_format_date_reads_seconds_or_milliseconds 0 1700000000 None H)
    as (Hshown & _ & Hsame).
  assert (formatMessageDate 0 None (JNum 1700000000) = "2023-11-14T22:13:20.000Z") as Hs.
  { rewrite Hshown. vm_compute. reflexivity. }
  split; [exact Hs |].
  change 1700000000000%Z with (1700000000 * 1000)%Z. rewrite Hsame by lia. exact Hs.
Defined.

(** X21: what [insertMessage] stores for a create time the report reads
    back.  For a new message id and a create time of [t] seconds, the row
    holds [t * 1000] as created_at_timestamp_ms; [formatMessageDate] shows
    the instant of [t] when [t] is above 10^9, and for a [t] of at most 10^9
    (an instant up to 2001-09-09) it reads the stored milliseconds as
    seconds and shows the instant of [t * 1000] seconds. *)
Theorem X21_stored_create_time_in_the_report (env : Env) (c r s k : string) (t : Z)
  (fields : list (string * JSValue)) (pool : Pool) :
  c <> "" -> In r roles -> JS.trim s <> "" ->
  JS.assoc "id" fields = JStr k -> k <> "" -> rows pool !! k = None ->
  JS.assoc "createTime" fields = JNum t -> (0 < t <= 8640000000)%Z ->
  exists result pool' row,
    insertMessage env (JStr c) (JStr r) (JStr s) (JObj fields) pool = (Ok result, pool')
    /\ rows pool' !! k = Some row
    /\ created_at_timestamp_ms row = Some (t * 1000)%Z
    /\ ((1000000000 < t)%Z ->
        formatMessageDate (now_ms env) (Some (Some (created_at row))) (timestamp_column row)
        = Clock.toISOString (t * 1000))
    /\ ((t <= 1000000000)%Z ->
        formatMessageDate (now_ms env) (Some (Some (created_at row))) (timestamp_column row)
        = Clock.toISOString (t * 1000 * 1000)).
Proof.
  intros Hc Hr Hs Hid Hk Hnew Htime Ht.
  eexists _, _, _. split.
  { apply (chatbeto_insert_ok env c r s (JObj fields) fields k pool Hc Hr Hs).
    - right. reflexivity.
    - right. split; [exact Hid | exact Hk]. }
  unfold execute. cbn [rows]. rewrite Hnew.
  split; [apply lookup_insert_eq |].
  assert (created_at_timestamp_ms (chatbeto_fresh env c r s fields) = Some (t * 1000)%Z)
    as Hstored.
  { unfold chatbeto_fresh. cbn [created_at_timestamp_ms]. rewrite Htime. cbn [JS.truthy].
    destruct (Z.eqb_spec t 0) as [-> | _]; [lia | reflexivity]. }
  split; [exact Hstored |].
  unfold timestamp_column. rewrite Hstored.
  rewrite formatMessageDate_number;
    [| lia | destruct (Z.ltb_spec 1000000000000 (t * 1000)); lia].
  split; intros Hcase; destruct (Z.ltb_spec 1000000000000 (t * 1000)); (lia || reflexivity).
Qed.

Lemma X21_stored_create_time_in_the_report_witness :
  let env := {| uuid := "00000000-0000-4000-8000-000000000000";
                now_ms := Sample.now_ms; db_now := Sample.now_ms |} in
  let pool := {| rows := ∅; executed := [] |} in
  let fields := [("id", JStr "m1"); ("createTime", JNum 1700000000)] in
  In "user" roles
  /\ exists result pool' row,
       insertMessage env (JStr "c1") (JStr "user") (JStr "hi") (JObj fields) pool
       = (Ok result, pool')
       /\ rows pool' !! "m1" = Some row
       /\ formatMessageDate (now_ms env) (Some (Some (created_at row))) (timestamp_column row)
          = "2023-11-14T22:13:20.000Z".
Proof.
  intros env pool fields.
  assert (In "user" roles) as Hr by (left; reflexivity).
  split; [exact Hr |].
  destruct (X21_stored_create_time_in_the_report env "c1" "user" "hi" "m1" 1700000000
              fields pool)
    as (result & pool' & row & Hrun & Hrow & _ & Hshown & _);
    [discriminate | exact Hr | vm_compute; discriminate | reflexivity | discriminate
     | reflexivity | reflexivity | lia |].
  exists result, pool', row. split; [exact Hrun |]. split; [exact Hrow |].
  rewrite Hshown by lia. vm_compute. reflexivity.
Defined.

End ReportMore.
